(** * Periodic weighted-average-cost valuation and report aggregation

    A shallow embedding of [app/report/utils.py] and of the aggregation
    pipeline of [app/report/views.py], with the properties the specification
    states about them.

    Conventions of the embedding.
    - A Python [int] is a [Z]; a [datetime] is a [Z] (microseconds on a fixed
      time line), so that [<], [<=] on timestamps are those of [Z].
    - A [decimal.Decimal] is a coefficient and an exponent, and every
      arithmetic operation rounds its exact result to the 28 significant
      digits of the default context, half to even ([Decimal.fix_]).  The sign
      of a zero and the exponent limits of the context (magnitudes beyond
      10^999999) are not represented.
    - A raised exception is the [Raise] branch of [result].
    - The SQLAlchemy models are not part of the sources at hand; a table is
      the list of its rows, a column that may hold NULL is an [option], and a
      join on a primary key is a lookup of the first row with that key.  A
      query hands out the rows in the order of the table, and an [ORDER BY]
      keeps that order among the rows of equal key.
    - The totals dictionaries that [generate_report] copies and updates in
      place live in a heap of objects addressed by references. *)

From Stdlib Require Import ZArith Lia Ascii.
From stdpp Require Import base option list strings gmap sorting.

Local Open Scope Z_scope.

(** ** Exceptions *)

Inductive exn : Type :=
  | TypeError
  | InvalidOperation
  | DivisionByZero
  | AttributeError
  | KeyError
  | HTTPException (code : Z).

Inductive result (A : Type) : Type :=
  | Ok (a : A)
  | Raise (e : exn).
Arguments Ok {A} a.
Arguments Raise {A} e.

Global Instance result_ret : MRet result := @Ok.
Global Instance result_bind : MBind result := λ A B f m,
  match m with
  | Ok a => f a
  | Raise e => Raise e
  end.

(** ** Decimal arithmetic (context precision 28, ROUND_HALF_EVEN) *)

Module Decimal.

Record t : Type := mk { coefficient : Z; exponent : Z }.

#[global] Instance eq_dec : EqDecision t.
Proof. solve_decision. Defined.

Definition prec : Z := 28.

Fixpoint len_aux (fuel : nat) (n : Z) : Z :=
  match fuel with
  | O => 1
  | S f => if n <? 10 then 1 else 1 + len_aux f (n / 10)
  end.

(** [len(str(n))] for [0 <= n]: the number of decimal digits. *)
Definition len_int (n : Z) : Z := len_aux (Z.to_nat (Z.log2 n)) n.

(** Rounding of a result to the context: a coefficient of more than [prec]
    digits loses its low digits, half to even. *)
Definition fix_ (d : t) : t :=
  let m := Z.abs (coefficient d) in
  let exp_min := len_int m + exponent d - prec in
  if exponent d <? exp_min then
    let k := exp_min - exponent d in
    let q := m / 10 ^ k in
    let r := m mod 10 ^ k in
    let half := 5 * 10 ^ (k - 1) in
    let q' := if (half <? r) || ((r =? half) && Z.odd q) then q + 1 else q in
    if prec <? len_int q'
    then mk (Z.sgn (coefficient d) * (q' / 10)) (exp_min + 1)
    else mk (Z.sgn (coefficient d) * q') exp_min
  else d.

(** [Decimal(n)] for an [int]: exact. *)
Definition of_int (n : Z) : t := mk n 0.

(** [Decimal('0.0')]. *)
Definition zero : t := mk 0 (-1).

(** [bool(d)]. *)
Definition truthy (d : t) : bool := negb (coefficient d =? 0).

Definition add (a b : t) : t :=
  let e := Z.min (exponent a) (exponent b) in
  fix_ (mk (coefficient a * 10 ^ (exponent a - e)
            + coefficient b * 10 ^ (exponent b - e)) e).

Definition mul (a b : t) : t :=
  fix_ (mk (coefficient a * coefficient b) (exponent a + exponent b)).

(** An exact quotient is brought as close to the ideal exponent as its
    trailing zeros allow. *)
Fixpoint strip (fuel : nat) (coeff exp ideal : Z) : Z * Z :=
  match fuel with
  | O => (coeff, exp)
  | S f =>
      if (exp <? ideal) && (coeff mod 10 =? 0)
      then strip f (coeff / 10) (exp + 1) ideal
      else (coeff, exp)
  end.

(** [a / b]: a division by zero raises [DivisionByZero], and
    [InvalidOperation] when the dividend is zero as well. *)
Definition truediv (a b : t) : result t :=
  if coefficient b =? 0
  then Raise (if coefficient a =? 0 then InvalidOperation else DivisionByZero)
  else if coefficient a =? 0 then Ok (fix_ (mk 0 (exponent a - exponent b)))
  else
    let sign := Z.sgn (coefficient a) * Z.sgn (coefficient b) in
    let x := Z.abs (coefficient a) in
    let y := Z.abs (coefficient b) in
    let shift := len_int y - len_int x + prec + 1 in
    let exp := exponent a - exponent b - shift in
    let '(coeff, remainder) :=
      if 0 <=? shift then Z.div_eucl (x * 10 ^ shift) y
      else Z.div_eucl x (y * 10 ^ (- shift)) in
    let '(coeff, exp) :=
      if remainder =? 0
      then strip (Z.to_nat (exponent a - exponent b - exp)) coeff exp
                 (exponent a - exponent b)
      else (if coeff mod 5 =? 0 then coeff + 1 else coeff, exp) in
    Ok (fix_ (mk (sign * coeff) exp)).

(** The value of [d] counted in units of [10 ^ e], for [e <= exponent d]. *)
Definition scaled (e : Z) (d : t) : Z := coefficient d * 10 ^ (exponent d - e).

(** Numeric equality, the [==] of two decimals. *)
Definition eqb (a b : t) : bool :=
  let e := Z.min (exponent a) (exponent b) in
  scaled e a =? scaled e b.

End Decimal.

(** ** The tables

    Modelled from the spec: the models [Category], [Inventory], [Request] and
    [InventoryTransaction] are declared outside the sources at hand; the
    columns are those the code reads, with the types of section 3 of the
    specification (a signed integer quantity, an optional unit price, a kind,
    a timestamp, an optional originating request). *)

Module Category.
Record t : Type := mk { id : Z; name : string }.
End Category.

Module Inventory.
Record t : Type := mk {
  id : Z;
  item_name : string;
  description : option string;
  category_id : Z;
  created_at : Z
}.
End Inventory.

Module Request.
Record t : Type := mk { id : Z; location : option string }.
End Request.

Module InventoryTransaction.
Record t : Type := mk {
  inventory_id : Z;
  quantity : option Z;
  unit_price : option Decimal.t;
  transaction_type : string;
  timestamp : Z;
  related_request_id : option Z
}.
End InventoryTransaction.

Record Database : Type := mkDatabase {
  categories : list Category.t;
  inventories : list Inventory.t;
  requests : list Request.t;
  transactions : list InventoryTransaction.t
}.

(** One row of the valuation query, as [with_entities] projects it. *)
Record Row : Type := mkRow {
  quantity : option Z;
  unit_price : option Decimal.t;
  transaction_type : string;
  timestamp : Z;
  location : option string
}.

(** ** app/report/utils.py *)

(** The engine's output record. *)
Record Valuation : Type := mkValuation {
  opening_stock : Z;
  purchases : Z;
  adjustments : Z;
  hq_issues : Z;
  jabi_issues : Z;
  closing_stock : Z;
  unit_price_wac : Decimal.t;   (* key 'unit_price' *)
  total_value : Decimal.t;
  cogs : Decimal.t
}.

(** The outer join with [Request]: the location of the originating request. *)
Definition request_location (db : Database) (rid : option Z) : option string :=
  r ← rid;
  req ← List.find (λ q, Request.id q =? r) (requests db);
  Request.location req.

Definition row_of (db : Database) (t : InventoryTransaction.t) : Row :=
  mkRow (InventoryTransaction.quantity t) (InventoryTransaction.unit_price t)
        (InventoryTransaction.transaction_type t) (InventoryTransaction.timestamp t)
        (request_location db (InventoryTransaction.related_request_id t)).

(** The inner join with [Inventory]. *)
Definition has_inventory (db : Database) (t : InventoryTransaction.t) : Prop :=
  InventoryTransaction.inventory_id t ∈ Inventory.id <$> inventories db.
#[global] Instance has_inventory_dec db t : Decision (has_inventory db t).
Proof. unfold has_inventory. apply _. Defined.


(** Every ledger row of an item, joined, before filtering on time. *)
Definition item_ledger (db : Database) (inventory_id : Z) : list Row :=
  row_of db <$>
    filter (λ t, has_inventory db t ∧ InventoryTransaction.inventory_id t = inventory_id)
           (transactions db).

Definition by_timestamp (a b : Row) : Prop := timestamp a ≤ timestamp b.
#[global] Instance by_timestamp_dec a b : Decision (by_timestamp a b).
Proof. unfold by_timestamp. apply _. Defined.


(** [order_by(InventoryTransaction.timestamp.asc())]: ascending by timestamp;
    the clause leaves the order of rows of equal timestamp to the store,
    which hands them out in the order of the table. *)
Fixpoint insert_by_timestamp (t : Row) (sorted : list Row) : list Row :=
  match sorted with
  | [] => [t]
  | x :: rest =>
      if decide (by_timestamp t x) then t :: sorted
      else x :: insert_by_timestamp t rest
  end.

Definition order_by_timestamp (rows : list Row) : list Row :=
  foldr insert_by_timestamp [] rows.

(** The query of lines 15-30: the item's rows up to [end_date], ascending by
    timestamp. *)
Definition fetch_transactions (db : Database) (inventory_id end_date : Z) : list Row :=
  order_by_timestamp
    (filter (λ t, timestamp t ≤ end_date) (item_ledger db inventory_id)).

(** [sum(...)] over quantities: starts from 0, a NULL quantity raises. *)
Fixpoint sum_from (acc : Z) (l : list (option Z)) : result Z :=
  match l with
  | [] => Ok acc
  | Some q :: l' => sum_from (acc + q) l'
  | None :: _ => Raise TypeError
  end.

Definition sum_quantity (l : list Row) : result Z := sum_from 0 (quantity <$> l).

(** [Decimal(t.quantity)]. *)
Definition decimal_quantity (t : Row) : result Decimal.t :=
  match quantity t with
  | Some q => Ok (Decimal.of_int q)
  | None => Raise TypeError
  end.

(** [Decimal(t.unit_price or '0.0')]. *)
Definition price_or_zero (t : Row) : Decimal.t :=
  match unit_price t with
  | Some p => if Decimal.truthy p then p else Decimal.zero
  | None => Decimal.zero
  end.

(** [Decimal(t.quantity) * Decimal(t.unit_price or '0.0')]. *)
Definition txn_value (t : Row) : result Decimal.t :=
  q ← decimal_quantity t; Ok (Decimal.mul q (price_or_zero t)).

Definition sets_price (t : Row) : Prop :=
  transaction_type t ∈ ["initial"; "purchase"; "price_update"]%string
  ∧ is_Some (unit_price t).
#[global] Instance sets_price_dec t : Decision (sets_price t).
Proof. unfold sets_price. apply _. Defined.


(** Lines 41-44, on the rows already reversed: the first row that sets a
    price gives it, and the initial value stays when there is none. *)
Fixpoint scan_price (reversed : list Row) : Decimal.t :=
  match reversed with
  | [] => Decimal.zero
  | t :: rest =>
      if decide (sets_price t) then default Decimal.zero (unit_price t)
      else scan_price rest
  end.

(** Lines 32-48: opening quantity, opening value and last known price. *)
Definition opening_balance (txns_before : list Row) : result (Z * Decimal.t * Decimal.t) :=
  match txns_before with
  | [] => Ok (0, Decimal.zero, Decimal.zero)
  | _ =>
      let last_known_price := scan_price (reverse txns_before) in
      opening_stock_qty ← sum_quantity txns_before;
      Ok (opening_stock_qty,
          Decimal.mul (Decimal.of_int opening_stock_qty) last_known_price,
          last_known_price)
  end.

(** Lines 58-60: the first pass, over the [initial] rows of the window. *)
Fixpoint add_initial_stock (cost_of_goods_available : Decimal.t) (l : list Row)
  : result Decimal.t :=
  match l with
  | [] => Ok cost_of_goods_available
  | t :: rest =>
      v ← txn_value t;
      add_initial_stock (Decimal.add cost_of_goods_available v) rest
  end.

(** Lines 63-69: the body of the second pass. *)
Definition wac_step (st : Decimal.t * Z) (t : Row) : result (Decimal.t * Z) :=
  let '(cost_of_goods_available, qty_available) := st in
  if decide (transaction_type t ∈ ["initial"; "purchase"]%string) then
    purchase_value ← txn_value t;
    q ← from_option Ok (Raise TypeError) (quantity t);
    Ok (Decimal.add cost_of_goods_available purchase_value, qty_available + q)
  else if decide (transaction_type t = "price_update"%string) then
    Ok (Decimal.mul (Decimal.of_int qty_available) (price_or_zero t), qty_available)
  else Ok (cost_of_goods_available, qty_available).

Fixpoint wac_loop (st : Decimal.t * Z) (l : list Row) : result (Decimal.t * Z) :=
  match l with
  | [] => Ok st
  | t :: rest => st' ← wac_step st t; wac_loop st' rest
  end.

(** Lines 54-69: the cost and quantity of the goods available in the period. *)
Definition goods_available (opening_stock_value : Decimal.t) (opening_stock_qty : Z)
    (txns_during : list Row) : result (Decimal.t * Z) :=
  let initial_stock_during :=
    filter (λ t, transaction_type t = "initial"%string) txns_during in
  cost ← add_initial_stock opening_stock_value initial_stock_during;
  wac_loop (cost, opening_stock_qty) txns_during.

Definition is_issue_at (loc : string) (t : Row) : Prop :=
  transaction_type t = "issue"%string ∧ location t = Some loc.
#[global] Instance is_issue_at_dec loc t : Decision (is_issue_at loc t).
Proof. unfold is_issue_at. apply _. Defined.


(** [transaction_type == 'issue' and not t.location]: no location, or an
    empty one. *)
Definition is_issue_nowhere (t : Row) : Prop :=
  transaction_type t = "issue"%string
  ∧ (location t = None ∨ location t = Some ""%string).
#[global] Instance is_issue_nowhere_dec t : Decision (is_issue_nowhere t).
Proof. unfold is_issue_nowhere. apply _. Defined.


Definition valuation_of (transactions : list Row) (start_date : Z) : result Valuation :=
  let txns_before := filter (λ t, timestamp t < start_date) transactions in
  '(opening_stock_qty, opening_stock_value, last_known_price) ← opening_balance txns_before;
  let txns_during := filter (λ t, start_date ≤ timestamp t) transactions in
  '(cost_of_goods_available, qty_available) ←
    goods_available opening_stock_value opening_stock_qty txns_during;
  period_wac ←
    (if 0 <? qty_available
     then Decimal.truediv cost_of_goods_available (Decimal.of_int qty_available)
     else Ok last_known_price);
  purchases_qty ←
    sum_quantity (filter (λ t, transaction_type t = "purchase"%string) txns_during);
  initial_qty_during ←
    sum_quantity (filter (λ t, transaction_type t = "initial"%string) txns_during);
  let total_additions_qty := purchases_qty + initial_qty_during in
  hq ← sum_quantity (filter (is_issue_at "Headquarters") txns_during);
  let hq_issues := Z.abs hq in
  jabi ← sum_quantity (filter (is_issue_at "Jabi") txns_during);
  let jabi_issues := Z.abs jabi in
  other ← sum_quantity (filter is_issue_nowhere txns_during);
  let other_issues := Z.abs other in
  let total_issued_qty := hq_issues + jabi_issues + other_issues in
  adjustments ←
    sum_quantity (filter (λ t, transaction_type t = "adjustment"%string) txns_during);
  let closing_stock_qty := qty_available - total_issued_qty + adjustments in
  let closing_stock_value := Decimal.mul (Decimal.of_int closing_stock_qty) period_wac in
  let cogs := Decimal.mul (Decimal.of_int total_issued_qty) period_wac in
  Ok (mkValuation opening_stock_qty total_additions_qty adjustments hq_issues
        jabi_issues closing_stock_qty period_wac closing_stock_value cogs).

Definition calculate_periodic_wac_valuation (db : Database)
    (inventory_id start_date end_date : Z) : result Valuation :=
  valuation_of (fetch_transactions db inventory_id end_date) start_date.

(** ** Python values and dictionaries *)

Inductive value : Type :=
  | VNone
  | VInt (n : Z)
  | VStr (s : string)
  | VDec (d : Decimal.t).

#[global] Instance value_eq_dec : EqDecision value.
Proof. solve_decision. Defined.

(** Truth value of what [dict.get] returns; a missing key gives [None]. *)
Definition truthy (v : option value) : bool :=
  match v with
  | None | Some VNone => false
  | Some (VInt n) => negb (n =? 0)
  | Some (VStr s) => negb (String.eqb s "")
  | Some (VDec d) => Decimal.truthy d
  end.

(** [Decimal(s)] for a string, on plain numerals: an optional sign, digits,
    and an optional point followed by digits.  The other forms the
    constructor accepts (exponent notation, surrounding blanks, special
    values) are counted with the strings it rejects. *)
Definition digit_of (c : Ascii.ascii) : option Z :=
  let n := Z.of_nat (Ascii.nat_of_ascii c) in
  if (48 <=? n) && (n <=? 57) then Some (n - 48) else None.

Fixpoint read_digits (acc count : Z) (s : string) : Z * Z * string :=
  match s with
  | String c rest =>
      match digit_of c with
      | Some n => read_digits (10 * acc + n) (count + 1) rest
      | None => (acc, count, s)
      end
  | EmptyString => (acc, count, s)
  end.

Definition decimal_of_string (s : string) : result Decimal.t :=
  let '(sign, body) :=
    match s with
    | String "-"%char rest => (-1, rest)
    | String "+"%char rest => (1, rest)
    | _ => (1, s)
    end in
  let '(int_part, int_len, rest) := read_digits 0 0 body in
  match rest with
  | EmptyString =>
      if 0 <? int_len then Ok (Decimal.mk (sign * int_part) 0)
      else Raise InvalidOperation
  | String "."%char frac =>
      match read_digits int_part 0 frac with
      | (coeff, frac_len, EmptyString) =>
          if 0 <? int_len + frac_len then Ok (Decimal.mk (sign * coeff) (- frac_len))
          else Raise InvalidOperation
      | _ => Raise InvalidOperation
      end
  | _ => Raise InvalidOperation
  end.

(** [Decimal(value)]. *)
Definition to_decimal (v : value) : result Decimal.t :=
  match v with
  | VNone => Raise TypeError
  | VInt n => Ok (Decimal.of_int n)
  | VStr s => decimal_of_string s
  | VDec d => Ok d
  end.

(** A dictionary that keeps the order of insertion. *)
Fixpoint dict_get {V : Type} (k : string) (d : list (string * V)) : option V :=
  match d with
  | [] => None
  | (k', v) :: rest => if decide (k = k') then Some v else dict_get k rest
  end.

Fixpoint dict_set {V : Type} (k : string) (v : V) (d : list (string * V))
  : list (string * V) :=
  match d with
  | [] => [(k, v)]
  | (k', v') :: rest =>
      if decide (k = k') then (k, v) :: rest else (k', v') :: dict_set k v rest
  end.

(** ** The objects [generate_report] shares and mutates *)

Record State : Type := mkState {
  heap : list (gmap string Decimal.t);   (* the totals dictionaries *)
  valued : list Z                        (* items whose ledger was queried *)
}.

Definition M (A : Type) : Type := State → result A * State.

#[global] Instance M_ret : MRet M := λ A a σ, (Ok a, σ).
#[global] Instance M_bind : MBind M := λ A B f m σ,
  match m σ with
  | (Ok a, σ') => f a σ'
  | (Raise e, σ') => (Raise e, σ')
  end.

Definition lift {A : Type} (r : result A) : M A := λ σ, (r, σ).

(** A new dictionary object. *)
Definition alloc (d : gmap string Decimal.t) : M nat := λ σ,
  (Ok (length (heap σ)), mkState (heap σ ++ [d]) (valued σ)).

Definition deref (σ : State) (r : nat) : gmap string Decimal.t :=
  default ∅ (heap σ !! r).

(** [d.copy()]. *)
Definition copy (r : nat) : M nat := λ σ, alloc (deref σ r) σ.

(** [if key in totals: totals[key] += Decimal(value)]. *)
Definition accumulate (totals : nat) (key : string) (v : value) : M unit := λ σ,
  match deref σ totals !! key with
  | Some current =>
      match to_decimal v with
      | Ok x =>
          (Ok (), mkState (<[totals := <[key := Decimal.add current x]> (deref σ totals)]>
                             (heap σ)) (valued σ))
      | Raise e => (Raise e, σ)
      end
  | None => (Ok (), σ)
  end.

(** The call of the valuation engine, which queries the ledger of one item. *)
Definition call_valuation (db : Database) (inventory_id start_dt end_dt : Z)
  : M Valuation := λ σ,
  (calculate_periodic_wac_valuation db inventory_id start_dt end_dt,
   mkState (heap σ) (valued σ ++ [inventory_id])).

(** ** app/report/views.py: the aggregation pipeline *)

(** The join with [Category]: [item.category]. *)
Definition category_of (db : Database) (item : Inventory.t) : option Category.t :=
  List.find (λ c, Category.id c =? Inventory.category_id item) (categories db).

(** A filter [column == filters[key]] on an integer column, on the value
    found under the key; the handler stores an [int] or [None] under the two
    keys that are read.  What the store makes of a comparison with a value
    of another type is not modelled: such a value selects no row here. *)
Definition column_is (v : option value) (column : Z) : Prop :=
  v = Some (VInt column).

#[global] Instance column_is_dec v column : Decision (column_is v column).
Proof. unfold column_is. apply _. Defined.

(** Lines 553-557: the query for the items of the report. *)
Definition item_query (db : Database) (end_dt : Z) (filters : gmap string value)
  : list Inventory.t :=
  let q := filter (λ i, is_Some (category_of db i) ∧ Inventory.created_at i ≤ end_dt)
                  (inventories db) in
  let q := if truthy (filters !! "category_id"%string)
           then filter (λ i, column_is (filters !! "category_id"%string)
                                       (Inventory.category_id i)) q
           else q in
  if truthy (filters !! "item_id"%string)
  then filter (λ i, column_is (filters !! "item_id"%string) (Inventory.id i)) q
  else q.

Definition totals_template : gmap string Decimal.t :=
  list_to_map
    [("opening_stock"%string, Decimal.zero); ("purchases"%string, Decimal.zero);
     ("adjustments"%string, Decimal.zero); ("hq_issues"%string, Decimal.zero);
     ("jabi_issues"%string, Decimal.zero); ("closing_stock"%string, Decimal.zero);
     ("total_value"%string, Decimal.zero)].

(** Lines 587-599. *)
Definition item_report_data (item : Inventory.t) (category_name : string)
    (valuation : Valuation) : list (string * value) :=
  [("item_name"%string, VStr (Inventory.item_name item));
   ("description"%string, VStr (default ""%string (Inventory.description item)));
   ("unit_price"%string, VDec (unit_price_wac valuation));
   ("category_name"%string, VStr category_name);
   ("opening_stock"%string, VInt (opening_stock valuation));
   ("purchases"%string, VInt (purchases valuation));
   ("adjustments"%string, VInt (adjustments valuation));
   ("hq_issues"%string, VInt (hq_issues valuation));
   ("jabi_issues"%string, VInt (jabi_issues valuation));
   ("closing_stock"%string, VInt (closing_stock valuation));
   ("total_value"%string, VDec (total_value valuation))].

(** [category_totals[category_name]]. *)
Definition subscript (category_totals : list (string * nat)) (category_name : string)
  : M nat :=
  lift (from_option Ok (Raise KeyError) (dict_get category_name category_totals)).

(** Lines 610-614. *)
Fixpoint aggregate (category_totals : list (string * nat)) (category_name : string)
    (grand_totals : nat) (entries : list (string * value)) : M unit :=
  match entries with
  | [] => mret ()
  | (key, v) :: rest =>
      totals ← subscript category_totals category_name;
      accumulate totals key v;;
      accumulate grand_totals key v;;
      aggregate category_totals category_name grand_totals rest
  end.

(** Lines 585-614: the body of the loop over the items. *)
Definition process_item (db : Database) (start_dt end_dt : Z)
    (totals_template grand_totals : nat)
    (acc : list (string * list (list (string * value))) * list (string * nat))
    (item : Inventory.t)
  : M (list (string * list (list (string * value))) * list (string * nat)) :=
  let '(report_data, category_totals) := acc in
  valuation ← call_valuation db (Inventory.id item) start_dt end_dt;
  category_name ←
    lift (from_option (λ c, Ok (Category.name c)) (Raise AttributeError)
            (category_of db item));
  let data := item_report_data item category_name valuation in
  '(report_data, category_totals) ←
    match dict_get category_name report_data with
    | None =>
        fresh ← copy totals_template;
        mret (dict_set category_name [] report_data,
              dict_set category_name fresh category_totals)
    | Some _ => mret (report_data, category_totals)
    end;
  let report_data :=
    dict_set category_name
      (default [] (dict_get category_name report_data) ++ [data]) report_data in
  aggregate category_totals category_name grand_totals data;;
  mret (report_data, category_totals).

Fixpoint process_items (db : Database) (start_dt end_dt : Z)
    (totals_template grand_totals : nat)
    (acc : list (string * list (list (string * value))) * list (string * nat))
    (items : list Inventory.t)
  : M (list (string * list (list (string * value))) * list (string * nat)) :=
  match items with
  | [] => mret acc
  | item :: rest =>
      acc' ← process_item db start_dt end_dt totals_template grand_totals acc item;
      process_items db start_dt end_dt totals_template grand_totals acc' rest
  end.

(** The report: per category the item records, per category the reference of
    its totals, and the reference of the grand totals. *)
Definition generate_report (db : Database) (start_dt end_dt : Z)
    (filters : gmap string value)
  : M (list (string * list (list (string * value))) * list (string * nat) * nat) :=
  let query := item_query db end_dt filters in
  if 5000 <? Z.of_nat (length query) then lift (Raise (HTTPException 413))
  else
    match query with
    | [] => empty ← alloc ∅; mret ([], [], empty)
    | items =>
        template ← alloc totals_template;
        grand_totals ← copy template;
        '(report_data, category_totals) ←
          process_items db start_dt end_dt template grand_totals ([], []) items;
        mret (report_data, category_totals, grand_totals)
    end.

Definition generate_report_include_weekends (db : Database) (start_dt end_dt : Z)
    (filters : gmap string value)
  : M (list (string * list (list (string * value))) * list (string * nat) * nat) :=
  generate_report db start_dt end_dt filters.

(** Lines 136-139 of [inventory_report]: the choice by environment. *)
Definition report_for_env (env : option string) (db : Database) (start_dt end_dt : Z)
    (filters : gmap string value)
  : M (list (string * list (list (string * value))) * list (string * nat) * nat) :=
  if decide (env = Some "development"%string)
  then generate_report_include_weekends db start_dt end_dt filters
  else generate_report db start_dt end_dt filters.

Definition initial_state : State := mkState [] [].

(** What a caller reads from the returned triple: the dictionaries behind
    the references. *)
Definition run_report
    (m : M (list (string * list (list (string * value))) * list (string * nat) * nat))
  : result (list (string * list (list (string * value)))
            * list (string * gmap string Decimal.t) * gmap string Decimal.t) :=
  match m initial_state with
  | (Ok (report_data, category_totals, grand_totals), σ) =>
      Ok (report_data, prod_map id (deref σ) <$> category_totals, deref σ grand_totals)
  | (Raise e, _) => Raise e
  end.

(** * The dates of a report window

    The handler [inventory_report] derives the window of a report with the
    classes [datetime] and [timedelta] of the standard library.  Their
    operations are taken from the library's [datetime.py]: a date is a year,
    a month and a day of the proleptic Gregorian calendar, and is counted
    from 1 January of year 1, the day of ordinal 1.  A [timedelta] is used
    by the code for whole days only and is the number of its days; the
    numbers built are far below the 999999999 days at which its constructor
    fails.  Time zones are absent: the handler builds naive values only. *)

Inductive date_exn : Type :=
  | ValueError
  | IndexError
  | OverflowError.

Inductive attempt (A : Type) : Type :=
  | Returns (a : A)
  | Raises (e : date_exn).
Arguments Returns {A} a.
Arguments Raises {A} e.

#[global] Instance attempt_ret : MRet attempt := @Returns.
#[global] Instance attempt_bind : MBind attempt := λ A B f m,
  match m with
  | Returns a => f a
  | Raises e => Raises e
  end.

(** [l[i]] for a Python list: a negative index counts from the end. *)
Definition getitem {A : Type} (l : list A) (i : Z) : attempt A :=
  let i := if i <? 0 then i + Z.of_nat (length l) else i in
  if i <? 0 then Raises IndexError
  else from_option Returns (Raises IndexError) (l !! Z.to_nat i).

(** [range(n)]. *)
Definition range (n : Z) : list Z := seqZ 0 n.

Module date.

Record t : Type := mk { year : Z; month : Z; day : Z }.

#[global] Instance eq_dec : EqDecision t.
Proof. solve_decision. Defined.

Definition MINYEAR : Z := 1.
Definition MAXYEAR : Z := 9999.
Definition MAXORDINAL : Z := 3652059.

Definition DAYS_IN_MONTH : list Z :=
  [-1; 31; 28; 31; 30; 31; 30; 31; 31; 30; 31; 30; 31].

Definition DAYS_BEFORE_MONTH : list Z :=
  [-1; 0; 31; 59; 90; 120; 151; 181; 212; 243; 273; 304; 334].

(** An entry of one of the two tables, read at a month. *)
Definition entry (table : list Z) (month : Z) : Z := nth (Z.to_nat month) table 0.

Definition is_leap (year : Z) : bool :=
  (year mod 4 =? 0) && (negb (year mod 100 =? 0) || (year mod 400 =? 0)).

Definition days_before_year (year : Z) : Z :=
  let y := year - 1 in
  y * 365 + y / 4 - y / 100 + y / 400.

Definition days_in_month (year month : Z) : Z :=
  if (month =? 2) && is_leap year then 29 else entry DAYS_IN_MONTH month.

Definition days_before_month (year month : Z) : Z :=
  entry DAYS_BEFORE_MONTH month + (if (2 <? month) && is_leap year then 1 else 0).

Definition ymd2ord (year month day : Z) : Z :=
  days_before_year year + days_before_month year month + day.

Definition DI400Y : Z := 146097.
Definition DI100Y : Z := 36524.
Definition DI4Y : Z := 1461.

(** The end of [_ord2ymd]: the month and the day of the month at offset [n]
    from 1 January, by an estimate of the month that is exact or one too
    large. *)
Definition month_and_day (leapyear : bool) (n : Z) : Z * Z :=
  let month := Z.shiftr (n + 50) 5 in
  let preceding :=
    entry DAYS_BEFORE_MONTH month + (if (2 <? month) && leapyear then 1 else 0) in
  let '(month, preceding) :=
    if n <? preceding
    then (month - 1,
          preceding - (entry DAYS_IN_MONTH (month - 1)
                       + (if (month - 1 =? 2) && leapyear then 1 else 0)))
    else (month, preceding) in
  (month, n - preceding + 1).

Definition ord2ymd (n : Z) : Z * Z * Z :=
  let n := n - 1 in
  let n400 := n / DI400Y in
  let n := n mod DI400Y in
  let year := n400 * 400 + 1 in
  let n100 := n / DI100Y in
  let n := n mod DI100Y in
  let n4 := n / DI4Y in
  let n := n mod DI4Y in
  let n1 := n / 365 in
  let n := n mod 365 in
  let year := year + n100 * 100 + n4 * 4 + n1 in
  if (n1 =? 4) || (n100 =? 4) then (year - 1, 12, 31)
  else
    let leapyear := (n1 =? 3) && (negb (n4 =? 24) || (n100 =? 3)) in
    let '(month, day) := month_and_day leapyear n in
    (year, month, day).

Definition check_date_fields (year month day : Z) : attempt (Z * Z * Z) :=
  if negb ((MINYEAR <=? year) && (year <=? MAXYEAR)) then Raises ValueError
  else if negb ((1 <=? month) && (month <=? 12)) then Raises ValueError
  else
    let dim := days_in_month year month in
    if negb ((1 <=? day) && (day <=? dim)) then Raises ValueError
    else Returns (year, month, day).

(** [date(year, month, day)]. *)
Definition new (year month day : Z) : attempt t :=
  '(year, month, day) ← check_date_fields year month day;
  Returns (mk year month day).

Definition fromordinal (n : Z) : attempt t :=
  let '(y, m, d) := ord2ymd n in new y m d.

Definition toordinal (d : t) : Z := ymd2ord (year d) (month d) (day d).

(** [d + timedelta(days)]. *)
Definition add (d : t) (days : Z) : attempt t :=
  let o := toordinal d + days in
  if (0 <? o) && (o <=? MAXORDINAL) then fromordinal o
  else Raises OverflowError.

(** [(a - b).days]. *)
Definition sub (a b : t) : Z := toordinal a - toordinal b.

Definition weekday (d : t) : Z := (toordinal d + 6) mod 7.

End date.

Module datetime.

Record t : Type := mk {
  year : Z;
  month : Z;
  day : Z;
  hour : Z;
  minute : Z;
  second : Z;
  microsecond : Z
}.

#[global] Instance eq_dec : EqDecision t.
Proof. solve_decision. Defined.

Definition check_time_fields (hour minute second microsecond : Z)
  : attempt (Z * Z * Z * Z) :=
  if negb ((0 <=? hour) && (hour <=? 23)) then Raises ValueError
  else if negb ((0 <=? minute) && (minute <=? 59)) then Raises ValueError
  else if negb ((0 <=? second) && (second <=? 59)) then Raises ValueError
  else if negb ((0 <=? microsecond) && (microsecond <=? 999999)) then Raises ValueError
  else Returns (hour, minute, second, microsecond).

(** [datetime(year, month, day, hour, minute, second, microsecond)]. *)
Definition new (year month day hour minute second microsecond : Z) : attempt t :=
  '(year, month, day) ← date.check_date_fields year month day;
  '(hour, minute, second, microsecond) ←
    check_time_fields hour minute second microsecond;
  Returns (mk year month day hour minute second microsecond).

(** [datetime(year, month, day)]: midnight. *)
Definition at_midnight (year month day : Z) : attempt t :=
  new year month day 0 0 0 0.

(** [dt.replace(day=day)]. *)
Definition replace_day (dt : t) (day : Z) : attempt t :=
  new (year dt) (month dt) day (hour dt) (minute dt) (second dt) (microsecond dt).

Definition toordinal (dt : t) : Z := date.ymd2ord (year dt) (month dt) (day dt).

(** [dt + timedelta(days)]: the sum is formed on the ordinal of the date and
    the time of the day, in days, seconds and microseconds, a second being
    carried from the microseconds and a day from the seconds. *)
Definition add (dt : t) (days : Z) : attempt t :=
  let seconds := hour dt * 3600 + minute dt * 60 + second dt
                 + microsecond dt / 1000000 in
  let microseconds := microsecond dt mod 1000000 in
  let delta_days := toordinal dt + days + seconds / 86400 in
  let seconds := seconds mod 86400 in
  let hour := seconds / 3600 in
  let rem := seconds mod 3600 in
  let minute := rem / 60 in
  let second := rem mod 60 in
  if (0 <? delta_days) && (delta_days <=? date.MAXORDINAL) then
    d ← date.fromordinal delta_days;
    new (date.year d) (date.month d) (date.day d) hour minute second microseconds
  else Raises OverflowError.

(** [dt - timedelta(days)]. *)
Definition sub_days (dt : t) (days : Z) : attempt t := add dt (- days).

(** [_cmp] on the seven fields, in order. *)
Fixpoint cmp_fields (a b : list Z) : Z :=
  match a, b with
  | x :: a', y :: b' =>
      if x =? y then cmp_fields a' b' else if y <? x then 1 else -1
  | [], [] => 0
  | [], _ :: _ => -1
  | _ :: _, [] => 1
  end.

Definition fields (dt : t) : list Z :=
  [year dt; month dt; day dt; hour dt; minute dt; second dt; microsecond dt].

Definition cmp (a b : t) : Z := cmp_fields (fields a) (fields b).

(** [a > b]. *)
Definition gt (a b : t) : bool := 0 <? cmp a b.

End datetime.

(** The place of a [datetime] on the time line of the ledger, in
    microseconds. *)
Definition timestamp_of (dt : datetime.t) : Z :=
  (((datetime.toordinal dt * 24 + datetime.hour dt) * 60 + datetime.minute dt) * 60
   + datetime.second dt) * 1000000 + datetime.microsecond dt.

(** ** app/report/views.py: the windows of the report types *)

(** Lines 381-399. *)
Definition get_quarterly_dates (year quarter : Z) : attempt (datetime.t * datetime.t) :=
  s1 ← datetime.at_midnight year 1 1;
  e1 ← datetime.at_midnight year 3 31;
  s2 ← datetime.at_midnight year 4 1;
  e2 ← datetime.at_midnight year 6 30;
  s3 ← datetime.at_midnight year 7 1;
  e3 ← datetime.at_midnight year 9 30;
  s4 ← datetime.at_midnight year 10 1;
  e4 ← datetime.at_midnight year 12 31;
  let quarter_starts := [(s1, e1); (s2, e2); (s3, e3); (s4, e4)] in
  getitem quarter_starts (quarter - 1).

(** Lines 401-412. *)
Definition get_yearly_dates (year : Z) : attempt (datetime.t * datetime.t) :=
  s ← datetime.at_midnight year 1 1;
  e ← datetime.at_midnight year 12 31;
  Returns (s, e).

(** Lines 98-101 of [inventory_report]: the window of a monthly report, from
    the first day of the month, which [strptime] builds from the year and the
    month it reads. *)
Definition monthly_window (year month : Z) : attempt (datetime.t * datetime.t) :=
  start_dt ← datetime.at_midnight year month 1;
  day28 ← datetime.replace_day start_dt 28;
  next_month ← datetime.add day28 4;
  end_dt ← datetime.sub_days next_month (datetime.day next_month);
  Returns (start_dt, end_dt).

(** Lines 111-116: [not year or not quarter] holds of a zero. *)
Definition quarterly_window (year quarter : Z) : attempt (datetime.t * datetime.t) :=
  if (year =? 0) || (quarter =? 0) then Raises ValueError
  else get_quarterly_dates year quarter.

(** Lines 118-121. *)
Definition yearly_window (year : Z) : attempt (datetime.t * datetime.t) :=
  if year =? 0 then Raises ValueError else get_yearly_dates year.

(** Lines 126-131: a window that starts in the future is refused, and one
    that ends in the future ends now.  The clock is read three times:
    [now1], [now2] and [now3] are what [datetime.now()] returns at lines 126,
    130 and 131. *)
Definition clamp_window (now1 now2 now3 : datetime.t) (window : datetime.t * datetime.t)
  : attempt (datetime.t * datetime.t) :=
  let '(start_dt, end_dt) := window in
  if datetime.gt start_dt now1 then Raises ValueError
  else Returns (start_dt, if datetime.gt end_dt now2 then now3 else end_dt).

(** Lines 532-547: the dates the generator yields, in order; an exception
    raised on the way ends the sequence. *)
Fixpoint weekdays_from (start_date : date.t) (offsets : list Z) : attempt (list date.t) :=
  match offsets with
  | [] => Returns []
  | n :: rest =>
      current ← date.add start_date n;
      later ← weekdays_from start_date rest;
      Returns (if date.weekday current <? 5 then current :: later else later)
  end.

Definition daterange_skip_weekends (start_date end_date : date.t)
  : attempt (list date.t) :=
  weekdays_from start_date (range (date.sub end_date start_date + 1)).

(** ** app/report/views.py: the helpers that query the ledger directly

    These helpers read the transactions table without joining it to the
    items.  A query without [order_by] returns the rows in the order of the
    table. *)

(** [Inventory.query.get(item_id)]. *)
Definition inventory_get (db : Database) (item_id : Z) : option Inventory.t :=
  List.find (λ i, Inventory.id i =? item_id) (inventories db).

(** Lines 449-454: the loop over the transactions before the period. *)
Fixpoint add_counted (opening_stock : Z) (transactions : list InventoryTransaction.t)
  : result Z :=
  match transactions with
  | [] => Ok opening_stock
  | txn :: rest =>
      if decide (InventoryTransaction.transaction_type txn
                 ∈ ["initial"; "purchase"; "adjustment"]%string)
      then q ← from_option Ok (Raise TypeError) (InventoryTransaction.quantity txn);
           add_counted (opening_stock + q) rest
      else if decide (InventoryTransaction.transaction_type txn = "issue"%string)
      then q ← from_option Ok (Raise TypeError) (InventoryTransaction.quantity txn);
           add_counted (opening_stock + q) rest
      else add_counted opening_stock rest
  end.

(** Lines 414-456.  The value returned is an [int] or [None]. *)
Definition get_opening_stock (db : Database) (item_id start_datetime end_datetime : Z)
  : result (option Z) :=
  match inventory_get db item_id with
  | None => Ok (Some 0)
  | Some item =>
      if decide (end_datetime < Inventory.created_at item) then Ok None
      else if decide (start_datetime < Inventory.created_at item
                      ∧ Inventory.created_at item ≤ end_datetime)
      then
        match filter (λ t, InventoryTransaction.inventory_id t = item_id
                           ∧ InventoryTransaction.transaction_type t = "initial"%string)
                     (transactions db) with
        | initial_txn :: _ => Ok (InventoryTransaction.quantity initial_txn)
        | [] => Ok (Some 0)
        end
      else
        let transactions :=
          filter (λ t, InventoryTransaction.inventory_id t = item_id
                       ∧ InventoryTransaction.timestamp t < start_datetime)
                 (transactions db) in
        opening_stock ← add_counted 0 transactions;
        Ok (Some opening_stock)
  end.

(** [func.sum] over a column, read with [scalar()]: a NULL is skipped, and
    the sum of no value is [None]. *)
Definition sql_sum (column : list (option Z)) : option Z :=
  match omap id column with
  | [] => None
  | values => Some (foldr Z.add 0 values)
  end.

(** [value or 0], for an [int] or [None]. *)
Definition or_zero (value : option Z) : Z := default 0 value.

(** Lines 458-477. *)
Definition get_purchases (db : Database) (item_id start_datetime end_datetime : Z) : Z :=
  or_zero
    (sql_sum
       (InventoryTransaction.quantity <$>
          filter (λ t, InventoryTransaction.inventory_id t = item_id
                       ∧ InventoryTransaction.transaction_type t = "purchase"%string
                       ∧ start_datetime ≤ InventoryTransaction.timestamp t
                       ∧ InventoryTransaction.timestamp t ≤ end_datetime)
                 (transactions db))).

(** ** app/management/commands/reprocess_stock.py

    The two commands that enter an initial stock for an item, from the point
    where the item has been found.  An exception ends the processing of the
    item; the commands catch it and roll the session back.  The quantity
    that the commands store in the item is returned with the new table. *)

(** [datetime(2025, 5, 30)] on the time line of the ledger. *)
Definition reprocess_date : Z := timestamp_of (datetime.mk 2025 5 30 0 0 0 0).

(** [query.first()] followed by [db.session.delete]: the table without the
    first row of the query, if there is one. *)
Fixpoint delete_first {A : Type} (P : A → Prop) `{∀ x, Decision (P x)} (l : list A)
  : list A :=
  match l with
  | [] => []
  | x :: rest => if decide (P x) then rest else x :: delete_first P rest
  end.

(** Lines 78-117 of [reprocess_stock]: the new initial row carries the
    quantity given for the item. *)
Definition reprocess_item (db : Database) (inventory_item : Inventory.t)
    (stock_quantity : Z) : result (Database * Z) :=
  let remaining :=
    delete_first
      (λ t, InventoryTransaction.inventory_id t = Inventory.id inventory_item
            ∧ InventoryTransaction.transaction_type t = "initial"%string)
      (transactions db) in
  let transactions :=
    filter (λ t, InventoryTransaction.inventory_id t = Inventory.id inventory_item
                 ∧ InventoryTransaction.transaction_type t ≠ "initial"%string)
           remaining in
  current_quantity ←
    sum_from stock_quantity (InventoryTransaction.quantity <$> transactions);
  let new_transaction :=
    InventoryTransaction.mk (Inventory.id inventory_item) (Some stock_quantity) None
      "initial" reprocess_date None in
  Ok (mkDatabase (categories db) (inventories db) (requests db)
        (remaining ++ [new_transaction]),
      current_quantity).

(** Lines 197-236 of [add_single_stock_item]: the new initial row carries
    the quantity computed for the item. *)
Definition add_single_stock_item (db : Database) (inventory_item : Inventory.t)
    (stock_quantity : Z) : result (Database * Z) :=
  let remaining :=
    delete_first
      (λ t, InventoryTransaction.inventory_id t = Inventory.id inventory_item
            ∧ InventoryTransaction.transaction_type t = "initial"%string)
      (transactions db) in
  let transactions :=
    filter (λ t, InventoryTransaction.inventory_id t = Inventory.id inventory_item
                 ∧ InventoryTransaction.transaction_type t ≠ "initial"%string)
           remaining in
  current_quantity ←
    sum_from stock_quantity (InventoryTransaction.quantity <$> transactions);
  let new_transaction :=
    InventoryTransaction.mk (Inventory.id inventory_item) (Some current_quantity) None
      "initial" reprocess_date None in
  Ok (mkDatabase (categories db) (inventories db) (requests db)
        (remaining ++ [new_transaction]),
      current_quantity).
(** * Notions used to state the properties *)

Definition sumZ (l : list Z) : Z := foldr Z.add 0 l.

(** [price] is the unit price of a latest row of [rows] that sets a price,
    or zero when no row sets one. *)
Definition latest_price (rows : list Row) (price : Decimal.t) : Prop :=
  (∃ t, t ∈ rows ∧ sets_price t ∧ unit_price t = Some price
        ∧ ∀ t', t' ∈ rows → sets_price t' → timestamp t' ≤ timestamp t)
  ∨ ((∀ t, t ∈ rows → ¬ sets_price t) ∧ price = Decimal.zero).

(** A row of a window is settled when the closing balance accounts for its
    whole quantity: an addition or an adjustment always is; an issue is when
    its quantity is not positive and its request names headquarters, Jabi or
    no location; a row of any other kind is when its quantity is zero. *)
Definition settled (t : Row) : Prop :=
  if decide (transaction_type t ∈ ["initial"; "purchase"; "adjustment"]%string)
  then True
  else if decide (transaction_type t = "issue"%string)
  then from_option (λ q, q ≤ 0) False (quantity t)
       ∧ location t ∈ [Some "Headquarters"%string; Some "Jabi"%string; None;
                       Some ""%string]
  else quantity t = Some 0.

#[global] Instance settled_dec t : Decision (settled t).
Proof.
  unfold settled. repeat case_decide; try apply _.
  destruct (quantity t); simpl; apply _.
Defined.

(** The keys of the totals template. *)
Definition template_keys : list string :=
  ["opening_stock"; "purchases"; "adjustments"; "hq_issues"; "jabi_issues";
   "closing_stock"; "total_value"]%string.

(** A totals dictionary with the given values under the seven keys. *)
Definition totals_with (o p a h j c v : Decimal.t) : gmap string Decimal.t :=
  list_to_map
    [("opening_stock"%string, o); ("purchases"%string, p); ("adjustments"%string, a);
     ("hq_issues"%string, h); ("jabi_issues"%string, j); ("closing_stock"%string, c);
     ("total_value"%string, v)].

(** The effect of [if key in totals: totals[key] += Decimal(value)] on the
    dictionary alone, and of the loop over a record. *)
Definition add_entry (totals : gmap string Decimal.t) (entry : string * value)
  : result (gmap string Decimal.t) :=
  match totals !! entry.1 with
  | Some current => x ← to_decimal entry.2; Ok (<[entry.1 := Decimal.add current x]> totals)
  | None => Ok totals
  end.

Fixpoint add_entries (totals : gmap string Decimal.t) (entries : list (string * value))
  : result (gmap string Decimal.t) :=
  match entries with
  | [] => Ok totals
  | entry :: rest => totals' ← add_entry totals entry; add_entries totals' rest
  end.

(** The numeric field of an item record under a key. *)
Definition field (key : string) (data : list (string * value)) : Decimal.t :=
  match dict_get key data with
  | Some (VInt n) => Decimal.of_int n
  | Some (VDec d) => d
  | _ => Decimal.zero
  end.

(** The total the code accumulates for a key over records: the decimal
    additions in the order of the records, from [Decimal('0.0')]. *)
Definition running_total (key : string) (records : list (list (string * value)))
  : Decimal.t :=
  foldl (λ acc data, Decimal.add acc (field key data)) Decimal.zero records.

Definition totals_of (records : list (list (string * value))) : gmap string Decimal.t :=
  totals_with (running_total "opening_stock" records) (running_total "purchases" records)
    (running_total "adjustments" records) (running_total "hq_issues" records)
    (running_total "jabi_issues" records) (running_total "closing_stock" records)
    (running_total "total_value" records).

(** The exact sum of a field over records, and the sum of its absolute
    values, in units of [10 ^ e]. *)
Definition units (e : Z) (key : string) (records : list (list (string * value))) : Z :=
  sumZ ((λ data, Decimal.scaled e (field key data)) <$> records).

Definition magnitude (e : Z) (key : string) (records : list (list (string * value))) : Z :=
  sumZ ((λ data, Z.abs (Decimal.scaled e (field key data))) <$> records).

(** The record of an item in a report: built from its valuation and the
    name of its category. *)
Definition record_of (db : Database) (start_dt end_dt : Z) (item : Inventory.t)
    (data : list (string * value)) : Prop :=
  ∃ v c, calculate_periodic_wac_valuation db (Inventory.id item) start_dt end_dt = Ok v
         ∧ category_of db item = Some c
         ∧ data = item_report_data item (Category.name c) v.

(** What holds of the heap and of the two dictionaries of the report after
    the items whose records are [records], in order, have been processed:
    the template object is as created; the grand totals are the running
    totals of all records; the two dictionaries have the same categories;
    the template, the grand totals and the totals of the categories are
    distinct objects; the totals of a category are the running totals of its
    records; and the records of the categories are those processed. *)
Definition report_inv (template grand : nat) (h : list (gmap string Decimal.t))
    (report_data : list (string * list (list (string * value))))
    (category_totals : list (string * nat))
    (records : list (list (string * value))) : Prop :=
  h !! template = Some totals_template
  ∧ h !! grand = Some (totals_of records)
  ∧ category_totals.*1 = report_data.*1
  ∧ NoDup (template :: grand :: category_totals.*2)
  ∧ Forall (λ r, (r < length h)%nat) category_totals.*2
  ∧ (∀ c rs r, dict_get c report_data = Some rs →
               dict_get c category_totals = Some r →
               h !! r = Some (totals_of rs))
  ∧ concat report_data.*2 ≡ₚ records
  ∧ NoDup report_data.*1.

(** The total a dictionary holds under a key. *)
Definition total_under (key : string) (totals : gmap string Decimal.t) : Decimal.t :=
  default Decimal.zero (totals !! key).

(** * Concrete ledgers and filters used in the examples *)

Definition day (d : Z) : Z := d * 86400000000.

(** The ledger of the scenario of section 8: an initial stock, a purchase
    and an issue at headquarters, all in January. *)
Definition january_db : Database :=
  mkDatabase
    [Category.mk 1 "Stationery"]
    [Inventory.mk 7 "Paper" None 1 (day 1)]
    [Request.mk 3 (Some "Headquarters"%string)]
    [InventoryTransaction.mk 7 (Some 100) (Some (Decimal.of_int 10)) "initial" (day 1) None;
     InventoryTransaction.mk 7 (Some 50) (Some (Decimal.of_int 12)) "purchase" (day 15) None;
     InventoryTransaction.mk 7 (Some (-30)) None "issue" (day 20) (Some 3)].

(** A stock of 100 units at price 5 before the window, re-priced to 8 in it. *)
Definition repriced_db : Database :=
  mkDatabase
    [Category.mk 1 "Stationery"]
    [Inventory.mk 7 "Paper" None 1 (day 1)]
    []
    [InventoryTransaction.mk 7 (Some 100) (Some (Decimal.of_int 5)) "initial" (day 1) None;
     InventoryTransaction.mk 7 (Some 0) (Some (Decimal.of_int 8)) "price_update" (day 40) None].

Definition hq_filters : gmap string value :=
  {[ "category_id"%string := VInt 1; "item_id"%string := VNone;
     "location"%string := VStr "Headquarters" ]}.

Definition no_location_filters : gmap string value :=
  {[ "category_id"%string := VInt 1; "item_id"%string := VNone;
     "location"%string := VNone ]}.

(** 5001 items of one category, none with a ledger entry. *)
Definition crowded_db : Database :=
  mkDatabase
    [Category.mk 1 "Stationery"]
    ((λ n, Inventory.mk (Z.of_nat n) "Paper" None 1 (day 1)) <$> seq 0 (Z.to_nat 5001))
    [] [].

(** The row that re-prices the stock to 8. *)
Definition reprice_to_8 : Row :=
  mkRow (Some 0) (Some (Decimal.of_int 8)) "price_update" (day 40) None.

(** An issue of 5 units for a request made at a third location. *)
Definition lagos_db : Database :=
  mkDatabase
    [Category.mk 1 "Stationery"]
    [Inventory.mk 7 "Paper" None 1 (day 1)]
    [Request.mk 3 (Some "Lagos"%string)]
    [InventoryTransaction.mk 7 (Some 100) (Some (Decimal.of_int 10)) "initial" (day 1) None;
     InventoryTransaction.mk 7 (Some (-5)) None "issue" (day 20) (Some 3)].

(** Two items of one category whose total value is two thirds, rounded, and
    an item of another category worth 1000. *)
Definition thirds (inventory_id : Z) : list InventoryTransaction.t :=
  [InventoryTransaction.mk inventory_id (Some 1) (Some (Decimal.of_int 2)) "purchase"
     (day 2) None;
   InventoryTransaction.mk inventory_id (Some 2) None "purchase" (day 3) None;
   InventoryTransaction.mk inventory_id (Some (-2)) None "issue" (day 4) (Some 1)].

Definition thirds_db : Database :=
  mkDatabase
    [Category.mk 1 "Stationery"; Category.mk 2 "Toner"]
    [Inventory.mk 1 "Paper" None 1 (day 1);
     Inventory.mk 2 "Ink" (Some "black"%string) 2 (day 1);
     Inventory.mk 3 "Pens" None 1 (day 1)]
    [Request.mk 1 (Some "Headquarters"%string)]
    (thirds 1
     ++ [InventoryTransaction.mk 2 (Some 1000) (Some (Decimal.of_int 1)) "purchase"
           (day 2) None]
     ++ thirds 3).

(** Two items, the first with a purchase whose quantity is NULL. *)
Definition null_quantity_db : Database :=
  mkDatabase
    [Category.mk 1 "Stationery"]
    [Inventory.mk 1 "Paper" None 1 (day 1); Inventory.mk 2 "Pens" None 1 (day 1)]
    []
    [InventoryTransaction.mk 1 None (Some (Decimal.of_int 10)) "purchase" (day 2) None;
     InventoryTransaction.mk 2 (Some 40) (Some (Decimal.of_int 3)) "purchase" (day 2) None].

(** * Further ledgers used in the examples *)

(** The January ledger with, in addition, a row of another item and a row of
    the same item dated after January. *)
Definition january_and_more_db : Database :=
  mkDatabase (categories january_db) (inventories january_db) (requests january_db)
    (InventoryTransaction.mk 8 (Some 9) (Some (Decimal.of_int 4)) "purchase" (day 3) None
     :: transactions january_db
     ++ [InventoryTransaction.mk 7 (Some 60) (Some (Decimal.of_int 11)) "purchase"
           (day 45) None]).

(** The January ledger with its rows stored in the reverse order. *)
Definition january_reversed_db : Database :=
  mkDatabase (categories january_db) (inventories january_db) (requests january_db)
    (reverse (transactions january_db)).

(** The category under which an item record is filed. *)
Definition record_category (data : list (string * value)) : string :=
  match dict_get "category_name" data with
  | Some (VStr c) => c
  | _ => ""%string
  end.

(** Filing a record under its category: appended to the records of the
    category, which is added after the others the first time it is seen. *)
Definition file_record (report_data : list (string * list (list (string * value))))
    (data : list (string * value)) : list (string * list (list (string * value))) :=
  dict_set (record_category data)
    (default [] (dict_get (record_category data) report_data) ++ [data]) report_data.

(** The distinct elements of a list, in the order of their first occurrence. *)
Definition first_seen (names : list string) : list string :=
  foldl (λ seen c, if decide (c ∈ seen) then seen else seen ++ [c]) [] names.


(** * Notions used to state the properties of the windows *)

(** A month and a day of the month that exist in the calendar. *)
Definition in_calendar (year month day : Z) : Prop :=
  1 ≤ month ≤ 12 ∧ 1 ≤ day ≤ date.days_in_month year month.

(** A [date] object: its fields passed the constructor's checks. *)
Definition valid_date (d : date.t) : Prop :=
  1 ≤ date.year d ≤ 9999 ∧ in_calendar (date.year d) (date.month d) (date.day d).

(** A [datetime] object. *)
Definition valid_datetime (dt : datetime.t) : Prop :=
  1 ≤ datetime.year dt ≤ 9999
  ∧ in_calendar (datetime.year dt) (datetime.month dt) (datetime.day dt)
  ∧ 0 ≤ datetime.hour dt ≤ 23 ∧ 0 ≤ datetime.minute dt ≤ 59
  ∧ 0 ≤ datetime.second dt ≤ 59 ∧ 0 ≤ datetime.microsecond dt ≤ 999999.

(** The months and the days of the calendar, for checks by enumeration. *)
Definition months : list Z := seqZ 1 12.
Definition month_days (leapyear : bool) (month : Z) : list Z :=
  seqZ 1 (date.entry date.DAYS_IN_MONTH month
          + (if (month =? 2) && leapyear then 1 else 0)).

(** The day of ordinal [o] is one of Monday to Friday: the day of ordinal 1
    is a Monday. *)
Definition on_weekday (o : Z) : Prop := (o + 6) mod 7 < 5.
#[global] Instance on_weekday_dec o : Decision (on_weekday o).
Proof. unfold on_weekday. apply _. Defined.

(** A ledger with a movement on the last day of a quarter: an initial stock
    on 2 January 2025 and an issue at headquarters on 31 March at ten. *)
Definition march_db : Database :=
  mkDatabase
    [Category.mk 1 "Stationery"]
    [Inventory.mk 7 "Paper" None 1 (timestamp_of (datetime.mk 2025 1 2 0 0 0 0))]
    [Request.mk 3 (Some "Headquarters"%string)]
    [InventoryTransaction.mk 7 (Some 100) (Some (Decimal.of_int 10)) "initial"
       (timestamp_of (datetime.mk 2025 1 2 9 0 0 0)) None;
     InventoryTransaction.mk 7 (Some (-30)) None "issue"
       (timestamp_of (datetime.mk 2025 3 31 10 0 0 0)) (Some 3)].

(** The rows that the two passes of the valuation read for the cost and the
    quantity of the goods available. *)
Definition moves_cost (t : Row) : Prop :=
  transaction_type t ∈ ["initial"; "purchase"; "price_update"]%string.
#[global] Instance moves_cost_dec t : Decision (moves_cost t).
Proof. unfold moves_cost. apply _. Defined.

(** The January ledger with an adjustment in place of the issue. *)
Definition january_adjusted_db : Database :=
  mkDatabase (categories january_db) (inventories january_db) (requests january_db)
    [InventoryTransaction.mk 7 (Some 100) (Some (Decimal.of_int 10)) "initial" (day 1) None;
     InventoryTransaction.mk 7 (Some 50) (Some (Decimal.of_int 12)) "purchase" (day 15) None;
     InventoryTransaction.mk 7 (Some 5) None "adjustment" (day 25) None].
(** * Properties *)

(** ** The wrapper for the development environment *)

(** C9: [generate_report_include_weekends] is [generate_report]; whatever the
    environment, the handler obtains the same report. *)
Theorem include_weekends_is_generate_report :
  ∀ db start_dt end_dt filters,
    generate_report_include_weekends db start_dt end_dt filters
    = generate_report db start_dt end_dt filters
    ∧ ∀ env, report_for_env env db start_dt end_dt filters
             = generate_report db start_dt end_dt filters.
Proof.
  intros db start_dt end_dt filters. split; [reflexivity|].
  intros env. unfold report_for_env. by case_decide.
Qed.

(** ** Filters *)

Lemma item_query_agree db end_dt (f1 f2 : gmap string value) :
  f1 !! "category_id"%string = f2 !! "category_id"%string →
  f1 !! "item_id"%string = f2 !! "item_id"%string →
  item_query db end_dt f1 = item_query db end_dt f2.
Proof. intros H1 H2. unfold item_query. by rewrite H1, H2. Qed.

(** C10: two filter dictionaries that agree on 'category_id' and 'item_id'
    give the same report computation; no other key, 'location' included, is
    read. *)
Theorem generate_report_filters_agree :
  ∀ db start_dt end_dt (f1 f2 : gmap string value),
    f1 !! "category_id"%string = f2 !! "category_id"%string →
    f1 !! "item_id"%string = f2 !! "item_id"%string →
    generate_report db start_dt end_dt f1 = generate_report db start_dt end_dt f2.
Proof.
  intros db start_dt end_dt f1 f2 H1 H2. unfold generate_report.
  by rewrite (item_query_agree db end_dt f1 f2 H1 H2).
Qed.

Lemma generate_report_filters_agree_witness :
  hq_filters ≠ no_location_filters
  ∧ generate_report january_db (day 1) (day 31) hq_filters
    = generate_report january_db (day 1) (day 31) no_location_filters.
Proof.
  split.
  - intros H. apply (f_equal (λ m : gmap string value, m !! "location"%string)) in H.
    vm_compute in H. discriminate.
  - apply generate_report_filters_agree; reflexivity.
Defined.

(** Closed decidable facts are settled by evaluation. *)
Ltac by_compute := apply (bool_decide_unpack _); vm_compute; exact I.

(** ** The result monad *)

Lemma result_bind_assoc {A B C : Type} (m : result A) (f : A → result B)
    (g : B → result C) :
  (m ≫= f) ≫= g = m ≫= (λ a, f a ≫= g).
Proof. by destruct m. Qed.

(** ** The two passes over the window *)

Lemma add_initial_stock_app cost l1 l2 :
  add_initial_stock cost (l1 ++ l2)
  = add_initial_stock cost l1 ≫= λ cost', add_initial_stock cost' l2.
Proof.
  revert cost. induction l1 as [|t l1 IH]; intros cost; simpl; [done|].
  destruct (txn_value t) as [v|e]; simpl; [apply IH|done].
Qed.

Lemma wac_loop_app st l1 l2 :
  wac_loop st (l1 ++ l2) = wac_loop st l1 ≫= λ st', wac_loop st' l2.
Proof.
  revert st. induction l1 as [|t l1 IH]; intros st; simpl; [done|].
  destruct (wac_step st t) as [st'|e]; simpl; [apply IH|done].
Qed.

Lemma wac_step_addition cost qty t :
  transaction_type t ∈ ["initial"; "purchase"]%string →
  wac_step (cost, qty) t
  = txn_value t ≫= λ v,
      from_option Ok (Raise TypeError) (quantity t) ≫= λ q,
        Ok (Decimal.add cost v, qty + q).
Proof. intros H. unfold wac_step. by rewrite decide_True. Qed.

(** C1: on the January ledger the engine reports opening stock 0, purchases
    150, issues at headquarters 30, closing stock 120 and, as unit price, the
    decimal quotient of 2600 by 150; and for any window, an [initial] row has
    its value added to the cost of goods available once by each pass, and its
    quantity added to the quantity available by the second pass only. *)
Theorem january_valuation_and_initial_counted_twice :
  (∃ v, calculate_periodic_wac_valuation january_db 7 (day 1) (day 31) = Ok v
        ∧ opening_stock v = 0 ∧ purchases v = 150 ∧ hq_issues v = 30
        ∧ closing_stock v = 120
        ∧ Decimal.truediv (Decimal.of_int 2600) (Decimal.of_int 150)
          = Ok (unit_price_wac v)
        ∧ unit_price_wac v = Decimal.mk 1733333333333333333333333333 (-26))
  ∧ ∀ opening_value opening_qty earlier t later,
      transaction_type t = "initial"%string →
      goods_available opening_value opening_qty (earlier ++ t :: later)
      = add_initial_stock opening_value
          (filter (λ t, transaction_type t = "initial"%string) earlier) ≫= λ c1,
        txn_value t ≫= λ v,
        add_initial_stock (Decimal.add c1 v)
          (filter (λ t, transaction_type t = "initial"%string) later) ≫= λ c2,
        wac_loop (c2, opening_qty) earlier ≫= λ '(c3, n3),
        txn_value t ≫= λ v',
        from_option Ok (Raise TypeError) (quantity t) ≫= λ q,
        wac_loop (Decimal.add c3 v', n3 + q) later.
Proof.
  split.
  - eexists. split; [vm_compute; reflexivity|]. by vm_compute.
  - intros opening_value opening_qty earlier t later Ht.
    unfold goods_available.
    rewrite filter_app, filter_cons_True by done.
    rewrite add_initial_stock_app. simpl.
    destruct (add_initial_stock opening_value _) as [c1|e]; simpl; [|done].
    destruct (txn_value t) as [v|e] eqn:Hv; simpl; [|done].
    destruct (add_initial_stock (Decimal.add c1 v) _) as [c2|e]; simpl; [|done].
    rewrite wac_loop_app.
    destruct (wac_loop (c2, opening_qty) earlier) as [[c3 n3]|e]; [|done].
    simpl. rewrite decide_True by (rewrite Ht; by_compute).
    rewrite Hv. simpl. by destruct (quantity t).
Qed.

Lemma january_valuation_and_initial_counted_twice_witness :
  transaction_type (mkRow (Some 100) (Some (Decimal.of_int 10)) "initial" (day 1) None)
  = "initial"%string
  ∧ goods_available Decimal.zero 0
      ([] ++ mkRow (Some 100) (Some (Decimal.of_int 10)) "initial" (day 1) None :: [])
    = Ok (Decimal.mk 20000 (-1), 100).
Proof.
  split; [reflexivity|].
  rewrite (proj2 january_valuation_and_initial_counted_twice); reflexivity.
Defined.

(** ** A window without entries *)

Lemma filter_none {A : Type} (P : A → Prop) `{∀ x, Decision (P x)} (l : list A) :
  Forall (λ x, ¬ P x) l → filter P l = [].
Proof.
  induction 1 as [|x l Hx _ IH]; [done|]. by rewrite filter_cons_False.
Qed.

(** C7: an item with no ledger entry up to the end of the window is valued
    without error, with every quantity and value field zero and unit price 0. *)
Theorem empty_ledger_values_zero :
  ∀ db inventory_id start_date end_date,
    Forall (λ t, ¬ timestamp t ≤ end_date) (item_ledger db inventory_id) →
    calculate_periodic_wac_valuation db inventory_id start_date end_date
    = Ok (mkValuation 0 0 0 0 0 0 Decimal.zero Decimal.zero Decimal.zero).
Proof.
  intros db inventory_id start_date end_date H.
  unfold calculate_periodic_wac_valuation, fetch_transactions.
  by rewrite (filter_none _ _ H).
Qed.

Lemma empty_ledger_values_zero_witness :
  Forall (λ t, ¬ timestamp t ≤ day 0) (item_ledger january_db 7)
  ∧ calculate_periodic_wac_valuation january_db 7 (day (-30)) (day 0)
    = Ok (mkValuation 0 0 0 0 0 0 Decimal.zero Decimal.zero Decimal.zero).
Proof.
  split; [by_compute|].
  apply (empty_ledger_values_zero january_db 7 (day (-30)) (day 0)).
  by_compute.
Defined.

(** ** Price updates *)

Lemma price_or_zero_present t p :
  unit_price t = Some p → Decimal.eqb (price_or_zero t) p = true.
Proof.
  intros Hp. unfold price_or_zero. rewrite Hp.
  unfold Decimal.truthy, Decimal.eqb, Decimal.scaled.
  destruct (Decimal.coefficient p =? 0) eqn:Hz; cbv [negb].
  - apply Z.eqb_eq in Hz. apply Z.eqb_eq.
    change (Decimal.coefficient Decimal.zero) with 0.
    by rewrite Hz, !Z.mul_0_l.
  - apply Z.eqb_refl.
Qed.

(** C6: a [price_update] row processed in the window leaves the quantity
    available as it is and replaces the running cost, whatever it was, by the
    quantity available times the new unit price; 100 units carried at price 5
    and re-priced to 8 have a cost basis of 800. *)
Theorem price_update_resets_cost :
  goods_available (Decimal.mul (Decimal.of_int 100) (Decimal.of_int 5)) 100 [reprice_to_8]
  = Ok (Decimal.of_int 800, 100)
  ∧ ∀ cost qty t,
      transaction_type t = "price_update"%string →
      wac_step (cost, qty) t
      = Ok (Decimal.mul (Decimal.of_int qty) (price_or_zero t), qty)
      ∧ (∀ p, unit_price t = Some p → Decimal.eqb (price_or_zero t) p = true)
      ∧ ∀ st earlier later,
          wac_loop st (earlier ++ t :: later)
          = wac_loop st earlier ≫= λ st',
              wac_loop (Decimal.mul (Decimal.of_int st'.2) (price_or_zero t), st'.2) later.
Proof.
  split; [reflexivity|].
  intros cost qty t Ht.
  assert (Hstep : ∀ c n, wac_step (c, n) t
                         = Ok (Decimal.mul (Decimal.of_int n) (price_or_zero t), n)).
  { intros c n. unfold wac_step.
    rewrite decide_False by (rewrite Ht; by_compute).
    by rewrite decide_True. }
  split; [apply Hstep|]. split; [apply price_or_zero_present|].
  intros st earlier later. rewrite wac_loop_app.
  destruct (wac_loop st earlier) as [[c n]|e]; [|done].
  change (wac_step (c, n) t ≫= (λ st', wac_loop st' later)
          = wac_loop (Decimal.mul (Decimal.of_int n) (price_or_zero t), n) later).
  by rewrite Hstep.
Qed.

Lemma price_update_resets_cost_witness :
  transaction_type reprice_to_8 = "price_update"%string
  ∧ wac_step (Decimal.of_int 500, 100) reprice_to_8 = Ok (Decimal.of_int 800, 100)
  ∧ calculate_periodic_wac_valuation repriced_db 7 (day 32) (day 59)
    = Ok (mkValuation 100 0 0 0 0 100 (Decimal.of_int 8) (Decimal.of_int 800)
            (Decimal.of_int 0)).
Proof.
  split; [reflexivity|]. split; [|reflexivity].
  apply (proj2 price_update_resets_cost (Decimal.of_int 500) 100 reprice_to_8).
  reflexivity.
Defined.

(** ** The size limit and the empty report *)

(** C8: a query of more than 5000 items is refused with the HTTP error 413
    before any ledger is queried or any object created, and a query without
    items gives three empty dictionaries. *)
Theorem oversized_rejected_empty_allowed :
  ∀ db start_dt end_dt filters σ,
    (5000 < Z.of_nat (length (item_query db end_dt filters)) →
     generate_report db start_dt end_dt filters σ = (Raise (HTTPException 413), σ))
    ∧ (item_query db end_dt filters = [] →
       generate_report db start_dt end_dt filters σ
       = (Ok ([], [], length (heap σ)), mkState (heap σ ++ [∅]) (valued σ))
       ∧ run_report (generate_report db start_dt end_dt filters) = Ok ([], [], ∅)).
Proof.
  intros db start_dt end_dt filters σ. unfold run_report, generate_report. split.
  - intros H. apply Z.ltb_lt in H. by rewrite H.
  - intros H. by rewrite H.
Qed.

Lemma oversized_rejected_empty_allowed_witness :
  (5000 < Z.of_nat (length (item_query crowded_db (day 31) ∅))
   ∧ generate_report crowded_db (day 1) (day 31) ∅ initial_state
     = (Raise (HTTPException 413), initial_state))
  ∧ (item_query crowded_db (day 0) ∅ = []
     ∧ run_report (generate_report crowded_db (day (-30)) (day 0) ∅) = Ok ([], [], ∅)).
Proof.
  assert (H1 : 5000 < Z.of_nat (length (item_query crowded_db (day 31) ∅)))
    by by_compute.
  assert (H2 : item_query crowded_db (day 0) ∅ = []) by by_compute.
  split; (split; [done|]).
  - by apply (oversized_rejected_empty_allowed crowded_db (day 1) (day 31) ∅ initial_state).
  - by apply (oversized_rejected_empty_allowed crowded_db (day (-30)) (day 0) ∅ initial_state).
Defined.

(** ** The query and the sums of quantities *)

#[local] Instance by_timestamp_transitive : Transitive by_timestamp.
Proof. intros a b c. unfold by_timestamp. lia. Qed.

#[local] Instance by_timestamp_total : Total by_timestamp.
Proof. intros a b. unfold by_timestamp. lia. Qed.

Lemma insert_by_timestamp_perm t l : insert_by_timestamp t l ≡ₚ t :: l.
Proof.
  induction l as [|x l IH]; simpl; [done|].
  case_decide; [done|]. rewrite IH. apply Permutation_swap.
Qed.

Lemma order_by_timestamp_perm l : order_by_timestamp l ≡ₚ l.
Proof.
  induction l as [|t l IH]; simpl; [done|].
  by rewrite insert_by_timestamp_perm, IH.
Qed.

Lemma insert_by_timestamp_sorted t l :
  StronglySorted by_timestamp l → StronglySorted by_timestamp (insert_by_timestamp t l).
Proof.
  induction 1 as [|x l Hl IH Hx]; simpl.
  - repeat constructor.
  - case_decide as Htx.
    + constructor; [by constructor|]. constructor; [done|].
      eapply Forall_impl; [exact Hx|]. intros y Hy. by etrans.
    + constructor; [done|]. rewrite insert_by_timestamp_perm. constructor; [|done].
      unfold by_timestamp in *. lia.
Qed.

Lemma order_by_timestamp_sorted l : StronglySorted by_timestamp (order_by_timestamp l).
Proof.
  induction l as [|t l IH]; simpl; [constructor|].
  by apply insert_by_timestamp_sorted.
Qed.

(** Rows that the table holds in ascending order are fetched in the order
    of the table, those of equal timestamp included. *)
Lemma order_by_timestamp_of_sorted l :
  StronglySorted by_timestamp l → order_by_timestamp l = l.
Proof.
  induction 1 as [|x l _ IH Hx]; simpl; [done|]. rewrite IH.
  destruct Hx as [|y l Hy _]; simpl; [done|]. by rewrite decide_True.
Qed.

Lemma fetch_transactions_sorted db inventory_id end_date :
  StronglySorted by_timestamp (fetch_transactions db inventory_id end_date).
Proof. apply order_by_timestamp_sorted. Qed.

Lemma fetch_transactions_perm db inventory_id end_date :
  fetch_transactions db inventory_id end_date
  ≡ₚ filter (λ t, timestamp t ≤ end_date) (item_ledger db inventory_id).
Proof. apply order_by_timestamp_perm. Qed.

Lemma StronglySorted_filter {A : Type} (R : relation A) (P : A → Prop)
    `{∀ x, Decision (P x)} (l : list A) :
  StronglySorted R l → StronglySorted R (filter P l).
Proof.
  induction 1 as [|x l _ IH Hx]; [constructor|].
  rewrite filter_cons. case_decide; [|done].
  constructor; [done|].
  apply Forall_forall. intros y [_ Hy]%list_elem_of_filter.
  by eapply Forall_forall in Hx.
Qed.

Lemma sum_from_present acc qs : sum_from acc (Some <$> qs) = Ok (acc + sumZ qs).
Proof.
  revert acc. induction qs as [|q qs IH]; intros acc; simpl.
  - f_equal. lia.
  - rewrite IH. f_equal. lia.
Qed.

Lemma sum_quantity_present l qs :
  quantity <$> l = Some <$> qs → sum_quantity l = Ok (sumZ qs).
Proof. intros H. unfold sum_quantity. rewrite H. apply sum_from_present. Qed.

(** ** The opening balance *)

Lemma scan_price_latest l :
  StronglySorted by_timestamp l → latest_price l (scan_price (reverse l)).
Proof.
  induction l as [|t l IH] using rev_ind; intros Hsorted.
  - right. split; [|done]. intros t Ht. by apply elem_of_nil in Ht.
  - rewrite reverse_snoc. simpl. destruct (decide (sets_price t)) as [Hp|Hp].
    + left. exists t. destruct Hp as [Hkind [p Hprice]].
      split; [apply elem_of_app; right; apply list_elem_of_singleton; done|].
      split; [by split; [|exists p]|].
      split; [by rewrite Hprice|].
      intros t' [Ht'|Ht']%elem_of_app _.
      * eapply (StronglySorted_app_1_elem_of by_timestamp); [done..|].
        by apply list_elem_of_singleton.
      * apply list_elem_of_singleton in Ht' as ->. unfold by_timestamp. lia.
    + destruct (IH (StronglySorted_app_1_l _ _ _ Hsorted))
        as [(t0 & Hin & Hsets & Hprice & Hlatest)|[Hnone Hzero]].
      * left. exists t0. split; [by apply elem_of_app; left|]. do 2 (split; [done|]).
        intros t' [Ht'|Ht']%elem_of_app Hs; [by apply Hlatest|].
        by apply list_elem_of_singleton in Ht' as ->.
      * right. split; [|done].
        intros t' [Ht'|Ht']%elem_of_app; [by apply Hnone|].
        by apply list_elem_of_singleton in Ht' as ->.
Qed.

Lemma opening_balance_quantity l q v p :
  opening_balance l = Ok (q, v, p) → sum_quantity l = Ok q.
Proof.
  destruct l as [|t l]; simpl.
  - by intros [= <- _ _].
  - destruct (sum_quantity (t :: l)) as [s|e]; simpl; [|done]. by intros [= <- _ _].
Qed.

Lemma valuation_opening_stock l start_date v :
  valuation_of l start_date = Ok v →
  sum_quantity (filter (λ t, timestamp t < start_date) l) = Ok (opening_stock v).
Proof.
  unfold valuation_of. intros H.
  destruct (opening_balance _) as [[[q ov] p]|e] eqn:Hopen; simpl in H; [|done].
  apply opening_balance_quantity in Hopen. rewrite Hopen. f_equal.
  repeat match type of H with
         | (?m ≫= _) = Ok _ => destruct m as [?|?]; simpl in H; [|done]
         | (let '(_, _) := ?x in _) = Ok _ => destruct x; simpl in H
         end.
  by injection H as <-.
Qed.

(** ** Sums of quantities, continued *)

Lemma sum_from_shift acc l :
  sum_from acc l = sum_from 0 l ≫= λ s, Ok (acc + s).
Proof.
  revert acc. induction l as [|[q|] l IH]; intros acc; simpl; [f_equal; lia| |done].
  rewrite (IH (acc + q)), (IH (0 + q)).
  destruct (sum_from 0 l); simpl; [f_equal; lia|done].
Qed.

Lemma sum_quantity_cons t l :
  sum_quantity (t :: l)
  = from_option Ok (Raise TypeError) (quantity t) ≫= λ q,
      sum_quantity l ≫= λ s, Ok (q + s).
Proof.
  unfold sum_quantity. simpl. destruct (quantity t) as [q|]; simpl; [|done].
  rewrite sum_from_shift. destruct (sum_from 0 _); simpl; [f_equal; lia|done].
Qed.

Lemma sum_quantity_app l1 l2 :
  sum_quantity (l1 ++ l2)
  = sum_quantity l1 ≫= λ s1, sum_quantity l2 ≫= λ s2, Ok (s1 + s2).
Proof.
  induction l1 as [|t l1 IH]; simpl.
  - change (sum_quantity []) with (Ok 0 : result Z). simpl.
    destruct (sum_quantity l2); simpl; [f_equal; lia|done].
  - rewrite !sum_quantity_cons, IH.
    destruct (quantity t); simpl; [|done].
    destruct (sum_quantity l1); simpl; [|done].
    destruct (sum_quantity l2); simpl; [f_equal; lia|done].
Qed.

Lemma sum_quantity_perm l1 l2 : l1 ≡ₚ l2 → sum_quantity l1 = sum_quantity l2.
Proof.
  induction 1 as [|t l1 l2 _ IH|t1 t2 l|l1 l2 l3 _ IH1 _ IH2].
  - done.
  - by rewrite !sum_quantity_cons, IH.
  - rewrite !sum_quantity_cons.
    destruct (quantity t1), (quantity t2), (sum_quantity l); simpl; try done.
    f_equal. lia.
  - by rewrite IH1.
Qed.

Lemma sum_quantity_total l :
  Forall (λ t, is_Some (quantity t)) l → ∃ s, sum_quantity l = Ok s.
Proof.
  induction 1 as [|t l [q Hq] _ [s IH]]; [by exists 0|].
  exists (q + s). by rewrite sum_quantity_cons, Hq, IH.
Qed.

Lemma sum_quantity_filter_total (P : Row → Prop) `{∀ t, Decision (P t)} l :
  Forall (λ t, is_Some (quantity t)) l → ∃ s, sum_quantity (filter P l) = Ok s.
Proof.
  intros Hl. apply sum_quantity_total.
  apply Forall_forall. intros t [_ Ht]%list_elem_of_filter.
  by eapply Forall_forall in Hl.
Qed.

(** ** The engine returns on every ledger whose rows carry a quantity *)

Lemma truediv_total a b :
  Decimal.coefficient b ≠ 0 → ∃ d, Decimal.truediv a b = Ok d.
Proof.
  intros Hb. unfold Decimal.truediv.
  destruct (Decimal.coefficient b =? 0) eqn:Hz; [by apply Z.eqb_eq in Hz|].
  destruct (Decimal.coefficient a =? 0); [by eexists|].
  destruct (if 0 <=? _ then _ else _) as [coeff remainder].
  destruct (if remainder =? 0 then _ else _) as [coeff' exp']. by eexists.
Qed.

Lemma txn_value_total t : is_Some (quantity t) → ∃ v, txn_value t = Ok v.
Proof. intros [q Hq]. unfold txn_value, decimal_quantity. rewrite Hq. by eexists. Qed.

Lemma add_initial_stock_total cost l :
  Forall (λ t, is_Some (quantity t)) l → ∃ c, add_initial_stock cost l = Ok c.
Proof.
  intros Hl. revert cost. induction Hl as [|t l Ht _ IH]; intros cost; simpl.
  - by eexists.
  - destruct (txn_value_total t Ht) as [v ->]. simpl. apply IH.
Qed.

Lemma wac_step_total st t : is_Some (quantity t) → ∃ st', wac_step st t = Ok st'.
Proof.
  intros Ht. destruct st as [c n]. unfold wac_step.
  destruct (txn_value_total t Ht) as [v ->]. destruct Ht as [q ->].
  repeat case_decide; by eexists.
Qed.

Lemma wac_loop_total st l :
  Forall (λ t, is_Some (quantity t)) l → ∃ st', wac_loop st l = Ok st'.
Proof.
  intros Hl. revert st. induction Hl as [|t l Ht _ IH]; intros st; simpl.
  - by eexists.
  - destruct (wac_step_total st t Ht) as [st' ->]. simpl. apply IH.
Qed.

Lemma Forall_filter_keeps {A : Type} (P Q : A → Prop) `{∀ x, Decision (Q x)} l :
  Forall P l → Forall P (filter Q l).
Proof.
  intros Hl. apply Forall_forall. intros x [_ Hx]%list_elem_of_filter.
  by eapply Forall_forall in Hl.
Qed.

Lemma valuation_of_total l start_date :
  Forall (λ t, is_Some (quantity t)) l → ∃ v, valuation_of l start_date = Ok v.
Proof.
  intros Hl. unfold valuation_of.
  set (before := filter (λ t, timestamp t < start_date) l).
  set (during := filter (λ t, start_date ≤ timestamp t) l).
  assert (Hduring : Forall (λ t, is_Some (quantity t)) during)
    by by apply Forall_filter_keeps.
  assert (Hopen : ∃ q ov p, opening_balance before = Ok (q, ov, p)).
  { unfold opening_balance. destruct before as [|t b] eqn:Hb; [by do 3 eexists|].
    destruct (sum_quantity_total (t :: b)) as [s ->]; [|by do 3 eexists].
    rewrite <- Hb. by apply Forall_filter_keeps. }
  destruct Hopen as (q & ov & p & ->). simpl.
  unfold goods_available.
  destruct (add_initial_stock_total ov
              (filter (λ t, transaction_type t = "initial"%string) during))
    as [c0 ->]; [by apply Forall_filter_keeps|]. simpl.
  destruct (wac_loop_total (c0, q) during Hduring) as [[c n] ->]. simpl.
  assert (Hwac : ∃ w, (if 0 <? n then Decimal.truediv c (Decimal.of_int n) else Ok p)
                      = Ok w).
  { destruct (0 <? n) eqn:Hn; [|by eexists].
    apply truediv_total. simpl. apply Z.ltb_lt in Hn. lia. }
  destruct Hwac as [w ->]. simpl.
  repeat match goal with
         | |- ∃ v, sum_quantity (filter ?P during) ≫= _ = Ok v =>
             let s := fresh "s" in
             destruct (sum_quantity_filter_total P during Hduring) as [s ->]; simpl
         end.
  by eexists.
Qed.

(** What a returned valuation was computed from. *)
Lemma valuation_of_inv l start_date v :
  valuation_of l start_date = Ok v →
  let before := filter (λ t, timestamp t < start_date) l in
  let during := filter (λ t, start_date ≤ timestamp t) l in
  ∃ ov p c n pq iq hq jabi other,
    opening_balance before = Ok (opening_stock v, ov, p)
    ∧ goods_available ov (opening_stock v) during = Ok (c, n)
    ∧ (if 0 <? n then Decimal.truediv c (Decimal.of_int n) else Ok p)
      = Ok (unit_price_wac v)
    ∧ sum_quantity (filter (λ t, transaction_type t = "purchase"%string) during) = Ok pq
    ∧ sum_quantity (filter (λ t, transaction_type t = "initial"%string) during) = Ok iq
    ∧ sum_quantity (filter (is_issue_at "Headquarters") during) = Ok hq
    ∧ sum_quantity (filter (is_issue_at "Jabi") during) = Ok jabi
    ∧ sum_quantity (filter is_issue_nowhere during) = Ok other
    ∧ sum_quantity (filter (λ t, transaction_type t = "adjustment"%string) during)
      = Ok (adjustments v)
    ∧ purchases v = pq + iq
    ∧ hq_issues v = Z.abs hq
    ∧ jabi_issues v = Z.abs jabi
    ∧ closing_stock v = n - (Z.abs hq + Z.abs jabi + Z.abs other) + adjustments v
    ∧ total_value v = Decimal.mul (Decimal.of_int (closing_stock v)) (unit_price_wac v)
    ∧ cogs v = Decimal.mul (Decimal.of_int (Z.abs hq + Z.abs jabi + Z.abs other))
                 (unit_price_wac v).
Proof.
  intros H before during. unfold valuation_of in H. fold before during in H.
  destruct (opening_balance before) as [[[q ov] p]|e] eqn:Hopen; simpl in H; [|done].
  destruct (goods_available ov q during) as [[c n]|e] eqn:Hgoods; simpl in H; [|done].
  destruct (if 0 <? n then _ else _) as [w|e] eqn:Hwac; simpl in H; [|done].
  destruct (sum_quantity (filter (λ t, transaction_type t = "purchase"%string) during))
    as [pq|e] eqn:Hpq; simpl in H; [|done].
  destruct (sum_quantity (filter (λ t, transaction_type t = "initial"%string) during))
    as [iq|e] eqn:Hiq; simpl in H; [|done].
  destruct (sum_quantity (filter (is_issue_at "Headquarters") during))
    as [hq|e] eqn:Hhq; simpl in H; [|done].
  destruct (sum_quantity (filter (is_issue_at "Jabi") during))
    as [jabi|e] eqn:Hjabi; simpl in H; [|done].
  destruct (sum_quantity (filter is_issue_nowhere during))
    as [other|e] eqn:Hother; simpl in H; [|done].
  destruct (sum_quantity (filter (λ t, transaction_type t = "adjustment"%string) during))
    as [adj|e] eqn:Hadj; simpl in H; [|done].
  injection H as <-. simpl.
  exists ov, p, c, n, pq, iq, hq, jabi, other. by repeat split.
Qed.

(** ** The opening balance of a window *)

(** C5, as the code has it: the opening balance of a window is computed from
    the item's rows stamped strictly before the start and not after the end
    of the window - all the rows before the start when the window does not
    end before it starts - and from those only.  When these rows carry a
    quantity, the opening quantity is the sum of their quantities, whatever
    their kind; the opening unit price is that of a latest one among them
    that is an initial stock, a purchase or a price update and carries a
    unit price, zero if there is none; the opening value is the Decimal
    product of the two; and all three are zero when no such row exists.
    The valuation returns when the rows of the window carry a quantity as
    well, and a returned valuation reports that opening quantity as its
    opening_stock, starts the cost of the goods available from that opening
    value, and falls back on that opening price as its unit price when no
    goods are available. *)
Theorem opening_balance_reconstruction :
  ∀ db inventory_id start_date end_date,
    let fetched := fetch_transactions db inventory_id end_date in
    let before := filter (λ t, timestamp t < start_date) fetched in
    let during := filter (λ t, start_date ≤ timestamp t) fetched in
    before ≡ₚ filter (λ t, timestamp t < start_date ∧ timestamp t ≤ end_date)
                (item_ledger db inventory_id)
    ∧ (start_date ≤ end_date →
       before ≡ₚ filter (λ t, timestamp t < start_date) (item_ledger db inventory_id))
    ∧ ∀ quantities,
        quantity <$> before = Some <$> quantities →
        ∃ price,
          opening_balance before
          = Ok (sumZ quantities,
                Decimal.mul (Decimal.of_int (sumZ quantities)) price, price)
          ∧ latest_price before price
          ∧ (filter (λ t, timestamp t < start_date ∧ timestamp t ≤ end_date)
               (item_ledger db inventory_id) = [] →
             opening_balance before = Ok (0, Decimal.zero, Decimal.zero))
          ∧ (Forall (λ t, is_Some (quantity t)) during →
             ∃ v, calculate_periodic_wac_valuation db inventory_id start_date end_date
                  = Ok v)
          ∧ ∀ v, calculate_periodic_wac_valuation db inventory_id start_date end_date
                 = Ok v →
                 opening_stock v = sumZ quantities
                 ∧ ∃ cost qty,
                     goods_available
                       (Decimal.mul (Decimal.of_int (sumZ quantities)) price)
                       (sumZ quantities) during
                     = Ok (cost, qty)
                     ∧ (if 0 <? qty then Decimal.truediv cost (Decimal.of_int qty)
                        else Ok price)
                       = Ok (unit_price_wac v).
Proof.
  intros db inventory_id start_date end_date fetched before during.
  assert (Hperm : before ≡ₚ filter (λ t, timestamp t < start_date
                                         ∧ timestamp t ≤ end_date)
                               (item_ledger db inventory_id)).
  { unfold before, fetched. by rewrite fetch_transactions_perm, list_filter_filter. }
  split; [done|]. split.
  { intros Hwindow. rewrite Hperm. apply reflexive_eq, list_filter_iff.
    intros t. simpl. lia. }
  intros quantities Hq.
  assert (Hsorted : StronglySorted by_timestamp before)
    by apply StronglySorted_filter, fetch_transactions_sorted.
  pose proof (sum_quantity_present _ _ Hq) as Hsum.
  assert (Hopen : opening_balance before
                  = Ok (sumZ quantities,
                        Decimal.mul (Decimal.of_int (sumZ quantities))
                          (scan_price (reverse before)),
                        scan_price (reverse before))).
  { unfold opening_balance. destruct before as [|t l] eqn:Hb.
    - destruct quantities; [reflexivity|done].
    - by rewrite Hsum. }
  exists (scan_price (reverse before)). split; [exact Hopen|].
  split; [by apply scan_price_latest|]. split; [|split].
  - intros Hnil. rewrite Hnil in Hperm. by apply Permutation_nil_r in Hperm as ->.
  - intros Hduring. apply valuation_of_total.
    apply Forall_forall. intros t Ht.
    destruct (decide (timestamp t < start_date)) as [Hlt|Hge].
    + assert (Hin : quantity t ∈ quantity <$> before).
      { apply list_elem_of_fmap. exists t. split; [done|].
        by apply list_elem_of_filter. }
      rewrite Hq in Hin. apply list_elem_of_fmap in Hin as (q & -> & _). by exists q.
    + apply (proj1 (Forall_forall _ _) Hduring t).
      apply list_elem_of_filter. split; [lia|done].
  - intros v Hv.
    destruct (valuation_of_inv _ _ _ Hv)
      as (ov & p & c & n & _ & _ & _ & _ & _ & Hopen' & Hgoods & Hwac & _).
    fold fetched before during in Hopen', Hgoods.
    rewrite Hopen in Hopen'. injection Hopen' as Hstock <- <-.
    rewrite <- Hstock in Hgoods. split; [done|]. by exists c, n.
Qed.

Lemma opening_balance_reconstruction_witness :
  day 10 ≤ day 31
  ∧ quantity <$> filter (λ t, timestamp t < day 10)
                   (fetch_transactions january_db 7 (day 31))
    = Some <$> [100]
  ∧ Forall (λ t, is_Some (quantity t))
      (filter (λ t, day 10 ≤ timestamp t) (fetch_transactions january_db 7 (day 31)))
  ∧ filter (λ t, timestamp t < day 10) (fetch_transactions january_db 7 (day 31))
    ≡ₚ filter (λ t, timestamp t < day 10) (item_ledger january_db 7)
  ∧ ∃ price v,
      opening_balance
        (filter (λ t, timestamp t < day 10) (fetch_transactions january_db 7 (day 31)))
      = Ok (100, Decimal.mul (Decimal.of_int 100) price, price)
      ∧ calculate_periodic_wac_valuation january_db 7 (day 10) (day 31) = Ok v
      ∧ opening_stock v = 100.
Proof.
  assert (Hwindow : day 10 ≤ day 31) by by_compute.
  assert (Hduring : Forall (λ t, is_Some (quantity t))
                      (filter (λ t, day 10 ≤ timestamp t)
                         (fetch_transactions january_db 7 (day 31)))) by by_compute.
  assert (Hbefore : quantity <$> filter (λ t, timestamp t < day 10)
                                     (fetch_transactions january_db 7 (day 31))
                    = Some <$> [100]) by (vm_compute; reflexivity).
  split; [exact Hwindow|]. split; [exact Hbefore|]. split; [exact Hduring|].
  destruct (opening_balance_reconstruction january_db 7 (day 10) (day 31))
    as (_ & Hrows & Hbalance).
  split; [exact (Hrows Hwindow)|].
  destruct (Hbalance [100] Hbefore) as (price & Hopen & _ & _ & Hreturns & Hengine).
  destruct (Hreturns Hduring) as [v Hv].
  exists price, v. split; [exact Hopen|]. split; [exact Hv|].
  exact (proj1 (Hengine v Hv)).
Defined.

(** C5 as stated fails for a window that ends before it starts: the rows
    stamped after the end of the window are not fetched, so rows before the
    start are missing from the opening balance. *)
Lemma opening_balance_misses_rows_after_the_end :
  ¬ ∀ db inventory_id start_date end_date v quantities,
      calculate_periodic_wac_valuation db inventory_id start_date end_date = Ok v →
      quantity <$> filter (λ t, timestamp t < start_date) (item_ledger db inventory_id)
      = Some <$> quantities →
      opening_stock v = sumZ quantities.
Proof.
  intros H.
  assert (∃ v, calculate_periodic_wac_valuation january_db 7 (day 31) (day 10) = Ok v
               ∧ opening_stock v = 100) as (v & Hv & Hopening).
  { eexists. split; [vm_compute; reflexivity|reflexivity]. }
  assert (Hrows : quantity <$> filter (λ t, timestamp t < day 31) (item_ledger january_db 7)
                  = Some <$> [100; 50; -30]) by (vm_compute; reflexivity).
  pose proof (H january_db 7 (day 31) (day 10) v [100; 50; -30] Hv Hrows) as Hsum.
  rewrite Hopening in Hsum. vm_compute in Hsum. discriminate Hsum.
Qed.

(** ** Continuity of the balance between adjacent windows *)

Lemma wac_step_quantity c n t c' n' :
  wac_step (c, n) t = Ok (c', n') →
  if decide (transaction_type t ∈ ["initial"; "purchase"]%string)
  then ∃ q, quantity t = Some q ∧ n' = n + q
  else n' = n.
Proof.
  unfold wac_step. case_decide.
  - destruct (txn_value t); simpl; [|done].
    destruct (quantity t) as [q|]; simpl; [|done].
    intros [= _ <-]. by exists q.
  - case_decide; by intros [= _ <-].
Qed.

Ltac decide_closed :=
  repeat match goal with
    | |- context [decide ?P] =>
        first [ rewrite (decide_True (P := P)) by by_compute
              | rewrite (decide_False (P := P)) by by_compute ]
    | H : context [decide ?P] |- _ =>
        first [ rewrite (decide_True (P := P)) in H by by_compute
              | rewrite (decide_False (P := P)) in H by by_compute ]
    end.

Ltac not_in :=
  rewrite !not_elem_of_cons; repeat split; try done; apply not_elem_of_nil.

Ltac open_sum H :=
  rewrite sum_quantity_cons in H; simpl in H;
  try match type of H with
      | context [from_option _ _ ?o] =>
          is_var o; destruct o as [?q|]; simpl in H; [|discriminate]
      end;
  match type of H with
  | context [sum_quantity ?l'] =>
      let E := fresh "E" in
      destruct (sum_quantity l') as [?s|] eqn:E; simpl in H;
      [injection H as <-|discriminate]
  end.

Lemma wac_loop_cons st t l :
  wac_loop st (t :: l) = wac_step st t ≫= λ st', wac_loop st' l.
Proof. reflexivity. Qed.

Lemma during_balance l :
  Forall settled l →
  ∀ c n c' n' hq jabi other adj,
    wac_loop (c, n) l = Ok (c', n') →
    sum_quantity (filter (is_issue_at "Headquarters") l) = Ok hq →
    sum_quantity (filter (is_issue_at "Jabi") l) = Ok jabi →
    sum_quantity (filter is_issue_nowhere l) = Ok other →
    sum_quantity (filter (λ t, transaction_type t = "adjustment"%string) l) = Ok adj →
    ∃ d, sum_quantity l = Ok d
         ∧ n' + hq + jabi + other + adj = n + d
         ∧ hq ≤ 0 ∧ jabi ≤ 0 ∧ other ≤ 0.
Proof.
  induction 1 as [|t l Ht _ IH]; intros c n c' n' hq jabi other adj.
  - intros H1 H2 H3 H4 H5. exists 0. cbv in H1, H2, H3, H4, H5. simplify_eq.
    split; [done|]. lia.
  - rewrite wac_loop_cons.
    destruct (wac_step (c, n) t) as [[c1 n1]|e] eqn:Hstep; simpl; [|intros; discriminate].
    intros Hloop. apply wac_step_quantity in Hstep.
    rewrite !filter_cons, sum_quantity_cons. unfold settled in Ht.
    destruct t as [q p ty ts loc]. simpl in Ht, Hstep. simpl.
    destruct (decide (ty = "initial"%string)) as [->|Hinitial];
      [|destruct (decide (ty = "purchase"%string)) as [->|Hpurchase];
        [|destruct (decide (ty = "adjustment"%string)) as [->|Hadjustment];
          [|destruct (decide (ty = "issue"%string)) as [->|Hissue]]]].
    all: decide_closed.
    + intros H1 H2 H3 H4. destruct Hstep as (q0 & -> & ->).
      destruct (IH _ _ _ _ _ _ _ _ Hloop H1 H2 H3 H4) as (d & -> & ?).
      exists (q0 + d). split; [done|lia].
    + intros H1 H2 H3 H4. destruct Hstep as (q0 & -> & ->).
      destruct (IH _ _ _ _ _ _ _ _ Hloop H1 H2 H3 H4) as (d & -> & ?).
      exists (q0 + d). split; [done|lia].
    + intros H1 H2 H3 H4. subst n1. open_sum H4.
      destruct (IH _ _ _ _ _ _ _ _ Hloop H1 H2 H3 eq_refl) as (d & -> & ?).
      exists (q + d). split; [done|lia].
    + destruct Ht as [Hq Hloc]. destruct q as [q0|]; [simpl in Hq|done]. subst n1.
      repeat (apply elem_of_cons in Hloc as [->|Hloc]);
        [..|by apply elem_of_nil in Hloc]; decide_closed; intros H1 H2 H3 H4.
      * open_sum H1.
        destruct (IH _ _ _ _ _ _ _ _ Hloop eq_refl H2 H3 H4) as (d & -> & ?).
        exists (q0 + d). split; [done|lia].
      * open_sum H2.
        destruct (IH _ _ _ _ _ _ _ _ Hloop H1 eq_refl H3 H4) as (d & -> & ?).
        exists (q0 + d). split; [done|lia].
      * open_sum H3.
        destruct (IH _ _ _ _ _ _ _ _ Hloop H1 H2 eq_refl H4) as (d & -> & ?).
        exists (q0 + d). split; [done|lia].
      * open_sum H3.
        destruct (IH _ _ _ _ _ _ _ _ Hloop H1 H2 eq_refl H4) as (d & -> & ?).
        exists (q0 + d). split; [done|lia].
    + rewrite (decide_False (P := ty ∈ _)) in Ht by not_in.
      rewrite decide_False in Hstep by not_in.
      subst q n1.
      rewrite !(decide_False (P := is_issue_at _ _)) by (by intros [? _]).
      rewrite (decide_False (P := is_issue_nowhere _)) by (by intros [? _]).
      intros H1 H2 H3 H4.
      destruct (IH _ _ _ _ _ _ _ _ Hloop H1 H2 H3 H4) as (d & -> & ?).
      exists (0 + d). split; [done|lia].
Qed.

Lemma filter_ext_in {A : Type} (P Q : A → Prop) `{∀ x, Decision (P x)}
    `{∀ x, Decision (Q x)} (l : list A) :
  Forall (λ x, P x ↔ Q x) l → filter P l = filter Q l.
Proof.
  induction 1 as [|x l Hx _ IH]; [done|].
  rewrite !filter_cons, IH. apply decide_ext. done.
Qed.

Lemma before_during_perm l start_date :
  filter (λ t, timestamp t < start_date) l ++ filter (λ t, start_date ≤ timestamp t) l
  ≡ₚ l.
Proof.
  rewrite <- (filter_app_complement (λ t, timestamp t < start_date) l) at 3.
  f_equiv. apply reflexive_eq, list_filter_iff. intros t. lia.
Qed.

(** C2, as the code has it: when no row of the item lies in both windows or
    between them, every row of the first window is settled and every row up
    to the end of the second carries a quantity, both valuations return and
    the closing stock of the first is the opening stock of the second. *)
Theorem closing_stock_is_next_opening_stock :
  ∀ db inventory_id start1 end1 start2 end2,
    start2 ≤ end2 →
    Forall (λ t, timestamp t ≤ end1 ↔ timestamp t < start2)
           (item_ledger db inventory_id) →
    Forall settled
           (filter (λ t, start1 ≤ timestamp t ≤ end1) (item_ledger db inventory_id)) →
    Forall (λ t, is_Some (quantity t))
           (filter (λ t, timestamp t ≤ end2) (item_ledger db inventory_id)) →
    ∃ v1 v2,
      calculate_periodic_wac_valuation db inventory_id start1 end1 = Ok v1
      ∧ calculate_periodic_wac_valuation db inventory_id start2 end2 = Ok v2
      ∧ closing_stock v1 = opening_stock v2.
Proof.
  intros db inventory_id start1 end1 start2 end2 Hwindow Hadjacent Hsettled Hpresent.
  unfold calculate_periodic_wac_valuation.
  set (ledger := item_ledger db inventory_id) in *.
  set (L1 := fetch_transactions db inventory_id end1).
  set (L2 := fetch_transactions db inventory_id end2).
  assert (HL1 : L1 ≡ₚ filter (λ t, timestamp t ≤ end1) ledger)
    by apply fetch_transactions_perm.
  assert (HL2 : L2 ≡ₚ filter (λ t, timestamp t ≤ end2) ledger)
    by apply fetch_transactions_perm.
  assert (Hin1 : ∀ t, t ∈ L1 → timestamp t ≤ end1 ∧ t ∈ ledger).
  { intros t Ht. rewrite HL1 in Ht. by apply list_elem_of_filter in Ht. }
  assert (Hq2 : Forall (λ t, is_Some (quantity t)) L2) by by rewrite HL2.
  assert (Hq1 : Forall (λ t, is_Some (quantity t)) L1).
  { apply Forall_forall. intros t [Hle Ht]%Hin1.
    eapply Forall_forall in Hpresent; [done|]. apply list_elem_of_filter.
    split; [|done]. eapply Forall_forall in Hadjacent; [|done]. simpl in Hadjacent.
    apply Hadjacent in Hle. lia. }
  destruct (valuation_of_total L1 start1 Hq1) as [v1 Hv1].
  destruct (valuation_of_total L2 start2 Hq2) as [v2 Hv2].
  exists v1, v2. do 2 (split; [done|]).
  pose proof (valuation_opening_stock _ _ _ Hv2) as Hopen2.
  destruct (valuation_of_inv _ _ _ Hv1)
    as (ov & p & c & n & pq & iq & hq & jabi & other & Hopen1 & Hgoods & _ & _ & _
        & Hhq & Hjabi & Hother & Hadj & _ & _ & _ & Hclosing & _).
  apply opening_balance_quantity in Hopen1.
  unfold goods_available in Hgoods.
  destruct (add_initial_stock ov _) as [c0|e]; simpl in Hgoods; [|done].
  assert (Hduring : Forall settled (filter (λ t, start1 ≤ timestamp t) L1)).
  { apply Forall_forall. intros t [Hs [Hle Ht]%Hin1]%list_elem_of_filter.
    eapply Forall_forall in Hsettled; [done|]. by apply list_elem_of_filter. }
  destruct (during_balance _ Hduring _ _ _ _ _ _ _ _ Hgoods Hhq Hjabi Hother Hadj)
    as (d & Hd & Hbalance & ? & ? & ?).
  assert (Hperm : filter (λ t, timestamp t < start2) L2
                  ≡ₚ filter (λ t, timestamp t < start1) L1
                     ++ filter (λ t, start1 ≤ timestamp t) L1).
  { rewrite before_during_perm, HL1, HL2, list_filter_filter.
    apply reflexive_eq, filter_ext_in.
    eapply Forall_impl; [exact Hadjacent|]. intros t Ht. simpl in *. lia. }
  rewrite (sum_quantity_perm _ _ Hperm), sum_quantity_app, Hopen1, Hd in Hopen2.
  simpl in Hopen2. injection Hopen2 as <-. lia.
Qed.

Lemma closing_stock_is_next_opening_stock_witness :
  ∃ v1 v2,
    calculate_periodic_wac_valuation january_db 7 (day 1) (day 31) = Ok v1
    ∧ calculate_periodic_wac_valuation january_db 7 (day 31 + 1) (day 59) = Ok v2
    ∧ closing_stock v1 = opening_stock v2.
Proof.
  apply (closing_stock_is_next_opening_stock january_db 7 (day 1) (day 31)
           (day 31 + 1) (day 59)); by_compute.
Defined.

(** C2 as stated fails: an issue for a request made elsewhere than at
    headquarters or Jabi is left out of the closing stock of its window and
    counted in the opening stock of the next. *)
Lemma closing_stock_not_always_next_opening_stock :
  ¬ ∀ db inventory_id start1 end1 end2 v1 v2,
      calculate_periodic_wac_valuation db inventory_id start1 end1 = Ok v1 →
      calculate_periodic_wac_valuation db inventory_id (end1 + 1) end2 = Ok v2 →
      closing_stock v1 = opening_stock v2.
Proof.
  intros H.
  assert (∃ v1, calculate_periodic_wac_valuation lagos_db 7 (day 1) (day 31) = Ok v1
                ∧ closing_stock v1 = 100) as (v1 & H1 & Hclosing).
  { eexists. split; [vm_compute; reflexivity|reflexivity]. }
  assert (∃ v2, calculate_periodic_wac_valuation lagos_db 7 (day 31 + 1) (day 59) = Ok v2
                ∧ opening_stock v2 = 95) as (v2 & H2 & Hopening).
  { eexists. split; [vm_compute; reflexivity|reflexivity]. }
  specialize (H _ _ _ _ _ _ _ H1 H2). lia.
Qed.

(** ** The totals dictionaries *)

Lemma totals_template_with :
  totals_template
  = totals_with Decimal.zero Decimal.zero Decimal.zero Decimal.zero Decimal.zero
      Decimal.zero Decimal.zero.
Proof. reflexivity. Qed.

Lemma totals_with_lookup o p a h j c v key :
  totals_with o p a h j c v !! key
  = dict_get key
      [("opening_stock"%string, o); ("purchases"%string, p); ("adjustments"%string, a);
       ("hq_issues"%string, h); ("jabi_issues"%string, j); ("closing_stock"%string, c);
       ("total_value"%string, v)].
Proof.
  unfold totals_with. simpl.
  repeat (case_decide; [subst key; by vm_compute|]).
  repeat (rewrite lookup_insert_ne by done). apply lookup_empty.
Qed.

Lemma totals_with_insert o p a h j c v key x :
  key ∈ template_keys →
  <[key := x]> (totals_with o p a h j c v)
  = totals_with (if decide (key = "opening_stock"%string) then x else o)
      (if decide (key = "purchases"%string) then x else p)
      (if decide (key = "adjustments"%string) then x else a)
      (if decide (key = "hq_issues"%string) then x else h)
      (if decide (key = "jabi_issues"%string) then x else j)
      (if decide (key = "closing_stock"%string) then x else c)
      (if decide (key = "total_value"%string) then x else v).
Proof.
  intros Hkey. apply map_eq. intros k.
  rewrite lookup_insert, !totals_with_lookup. unfold template_keys in Hkey.
  repeat (apply elem_of_cons in Hkey as [->|Hkey];
          [cbn [dict_get]; repeat case_decide; simplify_eq; done|]).
  by apply elem_of_nil in Hkey.
Qed.

Lemma add_entries_miss totals key v rest :
  totals !! key = None →
  add_entries totals ((key, v) :: rest) = add_entries totals rest.
Proof. intros H. simpl. unfold add_entry. simpl. by rewrite H. Qed.

Lemma add_entries_hit totals key v rest current x :
  totals !! key = Some current →
  to_decimal v = Ok x →
  add_entries totals ((key, v) :: rest)
  = add_entries (<[key := Decimal.add current x]> totals) rest.
Proof. intros H Hx. simpl. unfold add_entry. simpl. by rewrite H, Hx. Qed.

(** Adding a record to a totals dictionary adds its six quantities and its
    total value, each under its key, and nothing else. *)
Lemma add_entries_record o p a h j c t item category_name v :
  add_entries (totals_with o p a h j c t) (item_report_data item category_name v)
  = Ok (totals_with (Decimal.add o (Decimal.of_int (opening_stock v)))
          (Decimal.add p (Decimal.of_int (purchases v)))
          (Decimal.add a (Decimal.of_int (adjustments v)))
          (Decimal.add h (Decimal.of_int (hq_issues v)))
          (Decimal.add j (Decimal.of_int (jabi_issues v)))
          (Decimal.add c (Decimal.of_int (closing_stock v)))
          (Decimal.add t (total_value v))).
Proof.
  unfold item_report_data.
  repeat first
    [ rewrite add_entries_miss by (rewrite totals_with_lookup; reflexivity)
    | erewrite add_entries_hit;
      [ rewrite totals_with_insert by by_compute; simpl decide; cbv iota
      | rewrite totals_with_lookup; reflexivity
      | reflexivity ] ].
  reflexivity.
Qed.

Lemma running_total_snoc key records data :
  running_total key (records ++ [data])
  = Decimal.add (running_total key records) (field key data).
Proof. unfold running_total. by rewrite foldl_app. Qed.

Lemma add_entries_totals_of records item category_name v :
  add_entries (totals_of records) (item_report_data item category_name v)
  = Ok (totals_of (records ++ [item_report_data item category_name v])).
Proof.
  unfold totals_of at 1. rewrite add_entries_record.
  unfold totals_of. by rewrite !running_total_snoc.
Qed.

(** ** Ordered dictionaries *)

Section dict.
Context {V : Type}.
Implicit Types (d : list (string * V)) (k : string) (v : V).

Lemma dict_get_set_eq k v d : dict_get k (dict_set k v d) = Some v.
Proof.
  induction d as [|[k' v'] d IH]; simpl.
  - by rewrite decide_True.
  - case_decide; simpl; [by rewrite decide_True|]. by rewrite decide_False.
Qed.

Lemma dict_get_set_ne k k' v d :
  k ≠ k' → dict_get k' (dict_set k v d) = dict_get k' d.
Proof.
  intros Hne. induction d as [|[k0 v0] d IH]; simpl.
  - by rewrite decide_False.
  - case_decide; simpl.
    + subst k0. by rewrite !decide_False.
    + case_decide; [done|apply IH].
Qed.

Lemma dict_get_None k d : dict_get k d = None ↔ k ∉ d.*1.
Proof.
  induction d as [|[k' v'] d IH]; simpl.
  - split; [intros _; apply not_elem_of_nil|done].
  - rewrite not_elem_of_cons. case_decide.
    + split; [done|]. by intros [? _].
    + rewrite IH. split; [by intros ?|by intros [_ ?]].
Qed.

Lemma dict_get_Some_elem k v d : dict_get k d = Some v → (k, v) ∈ d.
Proof.
  induction d as [|[k' v'] d IH]; simpl; [done|].
  case_decide.
  - intros [= ->]. subst k'. apply list_elem_of_here.
  - intros H'. apply list_elem_of_further. by apply IH.
Qed.

Lemma dict_set_absent k v d : dict_get k d = None → dict_set k v d = d ++ [(k, v)].
Proof.
  induction d as [|[k' v'] d IH]; simpl; [done|].
  case_decide; [done|]. intros H'. by rewrite IH.
Qed.

Lemma dict_set_present_keys k v v0 d :
  dict_get k d = Some v0 → (dict_set k v d).*1 = d.*1.
Proof.
  induction d as [|[k' v'] d IH]; simpl; [done|].
  case_decide; simpl; [by subst k'|]. intros H'. f_equal. by apply IH.
Qed.

End dict.

Lemma dict_set_concat k (rs : list (list (string * value))) data
    (d : list (string * list (list (string * value)))) :
  dict_get k d = Some rs →
  concat (dict_set k (rs ++ [data]) d).*2 ≡ₚ concat d.*2 ++ [data].
Proof.
  induction d as [|[k' rs'] d IH]; simpl; [done|].
  case_decide; simpl.
  - intros [= ->]. rewrite <- !(assoc_L (++)). f_equiv. apply Permutation_app_comm.
  - intros H'. rewrite IH by done. by rewrite (assoc_L (++)).
Qed.

(** ** The loop over the entries of a record *)

Lemma accumulate_spec σ r key v d :
  heap σ !! r = Some d →
  accumulate r key v σ
  = match add_entry d (key, v) with
    | Ok d' => (Ok (), mkState (<[r := d']> (heap σ)) (valued σ))
    | Raise e => (Raise e, σ)
    end.
Proof.
  intros Hr. unfold accumulate, add_entry, deref. rewrite Hr. simpl.
  destruct (d !! key) as [current|]; simpl.
  - by destruct (to_decimal v).
  - rewrite list_insert_id by done. by destruct σ.
Qed.

Lemma aggregate_spec category_totals category_name r g entries :
  dict_get category_name category_totals = Some r →
  r ≠ g →
  ∀ σ dr dg dr' dg',
    heap σ !! r = Some dr →
    heap σ !! g = Some dg →
    add_entries dr entries = Ok dr' →
    add_entries dg entries = Ok dg' →
    aggregate category_totals category_name g entries σ
    = (Ok (), mkState (<[g := dg']> (<[r := dr']> (heap σ))) (valued σ)).
Proof.
  intros Hget Hne. induction entries as [|[key v] rest IH];
    intros σ dr dg dr' dg' Hr Hg Hdr Hdg; simpl in *.
  - injection Hdr as <-. injection Hdg as <-.
    rewrite !list_insert_id by (by rewrite ?list_insert_id). by destruct σ.
  - destruct (add_entry dr (key, v)) as [dr1|e] eqn:Hdr1; simpl in Hdr; [|done].
    destruct (add_entry dg (key, v)) as [dg1|e] eqn:Hdg1; simpl in Hdg; [|done].
    assert (Hrlt : (r < length (heap σ))%nat) by by eapply lookup_lt_Some.
    assert (Hglt : (g < length (heap σ))%nat) by by eapply lookup_lt_Some.
    unfold mbind, M_bind, subscript, lift. rewrite Hget. simpl.
    rewrite (accumulate_spec σ r key v dr Hr), Hdr1.
    erewrite accumulate_spec by (simpl; by rewrite list_lookup_insert_ne).
    rewrite Hdg1. simpl.
    erewrite (IH _ dr1 dg1 dr' dg'); simpl; [| |by apply list_lookup_insert_eq; rewrite length_insert|done|done].
    + f_equal. f_equal.
      rewrite (list_insert_insert_ne _ r g) by done.
      by rewrite !list_insert_insert_eq.
    + rewrite list_lookup_insert_ne by done. by apply list_lookup_insert_eq.
Qed.

(** ** One item of the report *)

Lemma same_keys_None {A B : Type} (d1 : list (string * A)) (d2 : list (string * B)) k :
  d1.*1 = d2.*1 → dict_get k d2 = None → dict_get k d1 = None.
Proof. intros Hkeys. rewrite !dict_get_None. by rewrite Hkeys. Qed.

Lemma same_keys_Some {A B : Type} (d1 : list (string * A)) (d2 : list (string * B)) k v :
  d1.*1 = d2.*1 → dict_get k d2 = Some v → ∃ r, dict_get k d1 = Some r.
Proof.
  intros Hkeys Hget. destruct (dict_get k d1) as [r|] eqn:Hr; [by exists r|].
  apply (same_keys_None d2 d1) in Hr; [|done]. by rewrite Hget in Hr.
Qed.

Lemma dict_get_value {V : Type} k (v : V) d : dict_get k d = Some v → v ∈ d.*2.
Proof.
  intros H. apply dict_get_Some_elem in H.
  apply list_elem_of_fmap. by exists (k, v).
Qed.

Lemma process_item_unfold db start_dt end_dt template grand report_data category_totals
    item σ :
  process_item db start_dt end_dt template grand (report_data, category_totals) item σ
  = let σ1 := mkState (heap σ) (valued σ ++ [Inventory.id item]) in
    match calculate_periodic_wac_valuation db (Inventory.id item) start_dt end_dt with
    | Raise e => (Raise e, σ1)
    | Ok v =>
        match category_of db item with
        | None => (Raise AttributeError, σ1)
        | Some cat =>
            let c := Category.name cat in
            let data := item_report_data item c v in
            match dict_get c report_data with
            | None =>
                let fresh := length (heap σ) in
                let rd := dict_set c [] report_data in
                let ct := dict_set c fresh category_totals in
                match aggregate ct c grand data
                        (mkState (heap σ ++ [deref σ1 template]) (valued σ1)) with
                | (Ok _, σ') =>
                    (Ok (dict_set c (default [] (dict_get c rd) ++ [data]) rd, ct), σ')
                | (Raise e, σ') => (Raise e, σ')
                end
            | Some _ =>
                match aggregate category_totals c grand data σ1 with
                | (Ok _, σ') =>
                    (Ok (dict_set c (default [] (dict_get c report_data) ++ [data])
                           report_data, category_totals), σ')
                | (Raise e, σ') => (Raise e, σ')
                end
            end
        end
    end.
Proof.
  unfold process_item, mbind, M_bind, call_valuation, lift.
  destruct (calculate_periodic_wac_valuation _ _ _ _) as [v|e]; [|done].
  destruct (category_of db item) as [cat|]; [|done]. cbv beta iota zeta.
  unfold from_option.
  destruct (dict_get (Category.name cat) report_data) eqn:Hd;
    unfold copy, alloc, mret, M_ret; rewrite ?Hd.
  - by destruct (aggregate _ _ _ _ _) as [[[]|e] σ'].
  - by destruct (aggregate _ _ _ _ _) as [[[]|e] σ'].
Qed.


Lemma dict_get_inj {V : Type} (d : list (string * V)) k k' v :
  NoDup d.*2 → dict_get k d = Some v → dict_get k' d = Some v → k = k'.
Proof.
  induction d as [|[k0 v0] d IH]; simpl; [done|].
  intros [Hv0 Hd]%NoDup_cons. repeat case_decide; subst.
  - done.
  - intros [= <-] H'. destruct Hv0. by eapply dict_get_value.
  - intros H' [= <-]. destruct Hv0. by eapply dict_get_value.
  - by apply IH.
Qed.

Lemma totals_of_nil : totals_of [] = totals_template.
Proof. reflexivity. Qed.

Lemma process_item_spec db start_dt end_dt template grand report_data category_totals
    records item σ v cat :
  report_inv template grand (heap σ) report_data category_totals records →
  calculate_periodic_wac_valuation db (Inventory.id item) start_dt end_dt = Ok v →
  category_of db item = Some cat →
  ∃ report_data' category_totals' h',
    process_item db start_dt end_dt template grand (report_data, category_totals) item σ
    = (Ok (report_data', category_totals'),
       mkState h' (valued σ ++ [Inventory.id item]))
    ∧ report_inv template grand h' report_data' category_totals'
        (records ++ [item_report_data item (Category.name cat) v]).
Proof.
  intros (Htemplate & Hgrand & Hkeys & Hnodup & Hbound & Hcats & Hperm & Hunique) Hv Hcat.
  rewrite process_item_unfold, Hv, Hcat. cbv zeta.
  set (c := Category.name cat). set (data := item_report_data item c v).
  apply NoDup_cons in Hnodup as [Htemplate_fresh Hnodup].
  apply NoDup_cons in Hnodup as [Hgrand_fresh Hnodup].
  apply not_elem_of_cons in Htemplate_fresh as [Htg Htemplate_fresh].
  assert (Htlt : (template < length (heap σ))%nat) by by eapply lookup_lt_Some.
  assert (Hglt : (grand < length (heap σ))%nat) by by eapply lookup_lt_Some.
  destruct (dict_get c report_data) as [rs|] eqn:Hrd.
  - destruct (same_keys_Some category_totals report_data c rs Hkeys Hrd) as [r Hr].
    assert (Hrin : r ∈ category_totals.*2) by by eapply dict_get_value.
    assert (Hrg : r ≠ grand) by (by intros ->).
    assert (Hrt : r ≠ template) by (by intros ->).
    erewrite (aggregate_spec category_totals c r grand data Hr Hrg);
      [|by apply (Hcats c rs r)|exact Hgrand|apply add_entries_totals_of
       |apply add_entries_totals_of].
    do 3 eexists. split; [reflexivity|]. simpl. fold data.
    assert (Hrlt : (r < length (heap σ))%nat) by by eapply Forall_forall in Hbound.
    repeat split.
    + by rewrite !list_lookup_insert_ne.
    + apply list_lookup_insert_eq. by rewrite length_insert.
    + by erewrite dict_set_present_keys.
    + repeat (apply NoDup_cons; split); [|done..].
      by apply not_elem_of_cons.
    + by rewrite !length_insert.
    + intros c' rs' r' Hrs' Hr'. destruct (decide (c = c')) as [<-|Hc].
      * rewrite dict_get_set_eq in Hrs'. injection Hrs' as <-.
        rewrite Hr in Hr'. injection Hr' as <-.
        rewrite list_lookup_insert_ne by done. by apply list_lookup_insert_eq.
      * rewrite dict_get_set_ne in Hrs' by done.
        assert (r' ≠ grand).
        { intros ->. apply Hgrand_fresh. by eapply dict_get_value. }
        assert (r' ≠ r).
        { intros ->. apply Hc. by eapply dict_get_inj. }
        rewrite !list_lookup_insert_ne by done. by eapply Hcats.
    + rewrite dict_set_concat by done. by rewrite Hperm.
    + by erewrite dict_set_present_keys.
  - pose proof (same_keys_None category_totals report_data c Hkeys Hrd) as Hct.
    set (r := length (heap σ)).
    assert (Hrg : r ≠ grand) by (unfold r; lia).
    assert (Hrt : r ≠ template) by (unfold r; lia).
    assert (Hfresh : r ∉ category_totals.*2).
    { intros Hin. eapply Forall_forall in Hbound; [|done]. unfold r in Hbound. lia. }
    unfold deref. cbn [heap valued]. rewrite Htemplate. cbn [default from_option id].
    fold r.
    erewrite (aggregate_spec _ c r grand data (dict_get_set_eq _ _ _) Hrg);
      [|by apply list_lookup_middle|by apply lookup_app_l_Some
       |rewrite <- totals_of_nil; apply add_entries_totals_of
       |apply add_entries_totals_of].
    do 3 eexists. split; [reflexivity|]. simpl. fold data.
    rewrite dict_get_set_eq. simpl.
    rewrite !(dict_set_absent c _ _ Hrd), (dict_set_absent c _ _ Hct).
    assert (Hset : dict_set c [data] (report_data ++ [(c, [])])
                   = report_data ++ [(c, [data])]).
    { clear -Hrd. induction report_data as [|[k' v'] d IH]; simpl in *.
      - by rewrite decide_True.
      - case_decide; [done|]. by rewrite IH. }
    rewrite Hset. repeat split.
    + rewrite !list_lookup_insert_ne by done. by apply lookup_app_l_Some.
    + apply list_lookup_insert_eq. rewrite length_insert, length_app. lia.
    + by rewrite !fmap_app, Hkeys.
    + rewrite fmap_app. simpl. repeat (apply NoDup_cons; split).
      * rewrite not_elem_of_cons, elem_of_app, list_elem_of_singleton. naive_solver.
      * rewrite elem_of_app, list_elem_of_singleton. naive_solver.
      * apply NoDup_app. split; [done|]. split; [|apply NoDup_singleton].
        intros x Hx ->%list_elem_of_singleton. done.
    + rewrite fmap_app, !length_insert, length_app. simpl.
      apply Forall_app. split.
      * eapply Forall_impl; [exact Hbound|]. intros x Hx. simpl in *. lia.
      * apply Forall_singleton. fold r. lia.
    + intros c' rs' r' Hrs' Hr'. destruct (decide (c = c')) as [<-|Hc].
      * rewrite <- Hset, dict_get_set_eq in Hrs'. injection Hrs' as <-.
        rewrite <- (dict_set_absent c r _ Hct), dict_get_set_eq in Hr'.
        injection Hr' as <-.
        rewrite list_lookup_insert_ne by done. apply list_lookup_insert_eq.
        rewrite length_app. simpl. fold r. lia.
      * rewrite <- Hset, dict_get_set_ne, <- (dict_set_absent c [] _ Hrd),
          dict_get_set_ne in Hrs' by done.
        rewrite <- (dict_set_absent c r _ Hct), dict_get_set_ne in Hr' by done.
        assert (r' ≠ grand).
        { intros ->. apply Hgrand_fresh. by eapply dict_get_value. }
        assert (r' ≠ r).
        { intros ->. apply Hfresh. by eapply dict_get_value. }
        rewrite !list_lookup_insert_ne by done.
        apply lookup_app_l_Some. by eapply Hcats.
    + rewrite !fmap_app, !concat_app. simpl. by rewrite Hperm.
    + rewrite fmap_app. apply NoDup_app. split; [done|]. split; [|apply NoDup_singleton].
      intros x Hx ->%list_elem_of_singleton. by apply dict_get_None in Hrd.
Qed.

(** ** The loop over the items *)

Lemma process_items_app db start_dt end_dt template grand acc items1 items2 σ :
  process_items db start_dt end_dt template grand acc (items1 ++ items2) σ
  = match process_items db start_dt end_dt template grand acc items1 σ with
    | (Ok acc', σ') => process_items db start_dt end_dt template grand acc' items2 σ'
    | (Raise e, σ') => (Raise e, σ')
    end.
Proof.
  revert acc σ. induction items1 as [|item items1 IH]; intros acc σ; [done|].
  cbn [app process_items]. unfold mbind, M_bind.
  destruct (process_item _ _ _ _ _ _ _ _) as [[acc'|e] σ']; [apply IH|done].
Qed.

Lemma process_items_ok db start_dt end_dt template grand items new_records :
  Forall2 (record_of db start_dt end_dt) items new_records →
  ∀ report_data category_totals records σ,
    report_inv template grand (heap σ) report_data category_totals records →
    ∃ report_data' category_totals' h',
      process_items db start_dt end_dt template grand (report_data, category_totals)
        items σ
      = (Ok (report_data', category_totals'),
         mkState h' (valued σ ++ (Inventory.id <$> items)))
      ∧ report_inv template grand h' report_data' category_totals'
          (records ++ new_records).
Proof.
  induction 1 as [|item data items new_records (v & cat & Hv & Hcat & ->) _ IH];
    intros report_data category_totals records σ Hinv.
  - exists report_data, category_totals, (heap σ). rewrite !app_nil_r.
    split; [by destruct σ|done].
  - destruct (process_item_spec _ _ _ _ _ _ _ _ _ _ _ _ Hinv Hv Hcat)
      as (rd1 & ct1 & h1 & Hstep & Hinv1).
    cbn [process_items]. unfold mbind, M_bind. rewrite Hstep.
    destruct (IH rd1 ct1 _ (mkState h1 (valued σ ++ [Inventory.id item])) Hinv1)
      as (rd2 & ct2 & h2 & Hrest & Hinv2).
    exists rd2, ct2, h2. rewrite Hrest. cbn [valued] in *.
    rewrite <- !(assoc_L (++)) in Hinv2. rewrite fmap_cons, <- !(assoc_L (++)).
    split; [reflexivity|exact Hinv2].
Qed.

Lemma process_items_raise db start_dt end_dt template grand earlier item later
    earlier_records exn report_data category_totals records σ :
  Forall2 (record_of db start_dt end_dt) earlier earlier_records →
  calculate_periodic_wac_valuation db (Inventory.id item) start_dt end_dt = Raise exn →
  report_inv template grand (heap σ) report_data category_totals records →
  ∃ h',
    process_items db start_dt end_dt template grand (report_data, category_totals)
      (earlier ++ item :: later) σ
    = (Raise exn, mkState h' (valued σ ++ (Inventory.id <$> earlier) ++ [Inventory.id item])).
Proof.
  intros Hearlier Hraise Hinv.
  destruct (process_items_ok _ _ _ _ _ _ _ Hearlier _ _ _ _ Hinv)
    as (rd1 & ct1 & h1 & Hfirst & _).
  exists h1. rewrite process_items_app, Hfirst.
  cbn [process_items]. unfold mbind, M_bind.
  rewrite process_item_unfold, Hraise. cbn [heap valued].
  by rewrite <- (assoc_L (++)).
Qed.

(** Either every item is valued, or there is a first one whose valuation
    raises. *)
Lemma valuations_split db start_dt end_dt items :
  Forall (λ item, is_Some (category_of db item)) items →
  (∃ records, Forall2 (record_of db start_dt end_dt) items records)
  ∨ (∃ earlier item later earlier_records exn,
       items = earlier ++ item :: later
       ∧ Forall2 (record_of db start_dt end_dt) earlier earlier_records
       ∧ calculate_periodic_wac_valuation db (Inventory.id item) start_dt end_dt
         = Raise exn).
Proof.
  induction 1 as [|item items [cat Hcat] _ IH].
  - left. exists []. constructor.
  - destruct (calculate_periodic_wac_valuation db (Inventory.id item) start_dt end_dt)
      as [v|exn] eqn:Hv.
    + assert (Hrec : record_of db start_dt end_dt item
                       (item_report_data item (Category.name cat) v))
        by by exists v, cat.
      destruct IH as [[records Hrecords]
                     |(earlier & item' & later & recs & exn & -> & Hearlier & Hraise)].
      * left. eexists. by constructor.
      * right. exists (item :: earlier), item', later. do 2 eexists.
        split; [done|]. split; [by constructor|done].
    + right. exists [], item, items, [], exn. split; [done|]. split; [constructor|done].
Qed.

Lemma item_query_category db end_dt filters :
  Forall (λ item, is_Some (category_of db item)) (item_query db end_dt filters).
Proof.
  unfold item_query.
  assert (H : Forall (λ item, is_Some (category_of db item))
                (filter (λ i, is_Some (category_of db i) ∧ Inventory.created_at i ≤ end_dt)
                        (inventories db))).
  { apply Forall_forall. by intros item [[? _] _]%list_elem_of_filter. }
  destruct (truthy (filters !! "category_id"%string)),
    (truthy (filters !! "item_id"%string));
    [apply Forall_filter_keeps, Forall_filter_keeps|apply Forall_filter_keeps
    |apply Forall_filter_keeps|]; exact H.
Qed.

Lemma initial_report_inv h :
  report_inv (length h) (S (length h)) (h ++ [totals_template] ++ [totals_template])
    [] [] [].
Proof.
  unfold report_inv. split_and!.
  - by apply list_lookup_middle.
  - rewrite (assoc_L (++)). apply list_lookup_middle. rewrite length_app. simpl. lia.
  - done.
  - repeat (apply NoDup_cons; split); [|apply not_elem_of_nil|apply NoDup_nil_2].
    rewrite not_elem_of_cons. split; [lia|apply not_elem_of_nil].
  - constructor.
  - done.
  - done.
  - apply NoDup_nil_2.
Qed.

Lemma generate_report_unfold db start_dt end_dt filters σ :
  item_query db end_dt filters ≠ [] →
  Z.of_nat (length (item_query db end_dt filters)) ≤ 5000 →
  generate_report db start_dt end_dt filters σ
  = match process_items db start_dt end_dt (length (heap σ)) (S (length (heap σ)))
            ([], []) (item_query db end_dt filters)
            (mkState (heap σ ++ [totals_template] ++ [totals_template]) (valued σ)) with
    | (Ok (report_data, category_totals), σ') =>
        (Ok (report_data, category_totals, S (length (heap σ))), σ')
    | (Raise e, σ') => (Raise e, σ')
    end.
Proof.
  intros Hne Hsize. unfold generate_report.
  rewrite (proj2 (Z.ltb_ge _ _)) by done.
  destruct (item_query db end_dt filters) as [|item items]; [done|].
  unfold mbind at 1 2. unfold M_bind, copy, alloc, deref. cbn [heap valued].
  rewrite list_lookup_middle by done. cbn [default from_option id].
  rewrite length_app. cbn [length]. rewrite Nat.add_1_r, <- (assoc_L (++)).
  unfold mbind, M_bind.
  by destruct (process_items _ _ _ _ _ _ _ _) as [[[rd ct]|e] σ'].
Qed.

(** The report of a non-empty query whose items are all valued. *)
Lemma generate_report_ok db start_dt end_dt filters records σ :
  item_query db end_dt filters ≠ [] →
  Z.of_nat (length (item_query db end_dt filters)) ≤ 5000 →
  Forall2 (record_of db start_dt end_dt) (item_query db end_dt filters) records →
  ∃ report_data category_totals h',
    generate_report db start_dt end_dt filters σ
    = (Ok (report_data, category_totals, S (length (heap σ))),
       mkState h' (valued σ ++ (Inventory.id <$> item_query db end_dt filters)))
    ∧ report_inv (length (heap σ)) (S (length (heap σ))) h' report_data category_totals
        records.
Proof.
  intros Hne Hsize Hrecords. rewrite generate_report_unfold by done.
  destruct (process_items_ok _ _ _ (length (heap σ)) (S (length (heap σ))) _ _ Hrecords
              [] [] [] (mkState (heap σ ++ [totals_template] ++ [totals_template]) (valued σ))
              (initial_report_inv (heap σ)))
    as (rd & ct & h' & Hrun & Hinv).
  exists rd, ct, h'. by rewrite Hrun.
Qed.

Lemma generate_report_raise db start_dt end_dt filters earlier item later
    earlier_records exn σ :
  item_query db end_dt filters = earlier ++ item :: later →
  Z.of_nat (length (item_query db end_dt filters)) ≤ 5000 →
  Forall2 (record_of db start_dt end_dt) earlier earlier_records →
  calculate_periodic_wac_valuation db (Inventory.id item) start_dt end_dt = Raise exn →
  ∃ h',
    generate_report db start_dt end_dt filters σ
    = (Raise exn,
       mkState h' (valued σ ++ (Inventory.id <$> earlier) ++ [Inventory.id item])).
Proof.
  intros Hq Hsize Hearlier Hraise.
  assert (Hne : item_query db end_dt filters ≠ []).
  { rewrite Hq. by destruct earlier. }
  rewrite generate_report_unfold by done.
  rewrite Hq.
  destruct (process_items_raise db start_dt end_dt (length (heap σ)) (S (length (heap σ)))
              earlier item later earlier_records exn [] [] []
              (mkState (heap σ ++ [totals_template] ++ [totals_template]) (valued σ))
              Hearlier Hraise (initial_report_inv (heap σ)))
    as (h' & Hrun).
  exists h'. by rewrite Hrun.
Qed.

(** ** Additions that do not round *)

Lemma len_aux_bound fuel n k :
  1 ≤ k → 0 ≤ n < 10 ^ k → Decimal.len_aux fuel n ≤ k.
Proof.
  revert n k. induction fuel as [|fuel IH]; intros n k Hk Hn; simpl; [lia|].
  destruct (n <? 10) eqn:Hlt; [lia|]. apply Z.ltb_ge in Hlt.
  assert (2 ≤ k).
  { destruct (decide (k = 1)) as [->|]; [|lia]. change (10 ^ 1) with 10 in Hn. lia. }
  assert (Hpow : 10 ^ k = 10 * 10 ^ (k - 1)).
  { rewrite <- Z.pow_succ_r by lia. f_equal. lia. }
  specialize (IH (n / 10) (k - 1)).
  assert (0 ≤ n / 10 < 10 ^ (k - 1)).
  { split; [apply Z.div_pos; lia|]. apply Z.div_lt_upper_bound; lia. }
  lia.
Qed.

Lemma fix_small d :
  Z.abs (Decimal.coefficient d) < 10 ^ 28 → Decimal.fix_ d = d.
Proof.
  intros Hd. unfold Decimal.fix_.
  assert (Decimal.len_int (Z.abs (Decimal.coefficient d)) ≤ 28).
  { apply len_aux_bound; lia. }
  unfold Decimal.prec. rewrite (proj2 (Z.ltb_ge _ _)); [done|lia].
Qed.

Lemma scaled_add_exact e a b :
  e ≤ Decimal.exponent a →
  e ≤ Decimal.exponent b →
  Z.abs (Decimal.scaled e a + Decimal.scaled e b) < 10 ^ 28 →
  e ≤ Decimal.exponent (Decimal.add a b)
  ∧ Decimal.scaled e (Decimal.add a b) = Decimal.scaled e a + Decimal.scaled e b.
Proof.
  intros Ha Hb Hsmall. unfold Decimal.add.
  set (m := Decimal.exponent a `min` Decimal.exponent b).
  set (c := Decimal.coefficient a * 10 ^ (Decimal.exponent a - m)
            + Decimal.coefficient b * 10 ^ (Decimal.exponent b - m)).
  assert (Hscaled : c * 10 ^ (m - e) = Decimal.scaled e a + Decimal.scaled e b).
  { unfold c, Decimal.scaled.
    rewrite Z.mul_add_distr_r, <- !Z.mul_assoc, <- !Z.pow_add_r by lia.
    do 2 f_equal; f_equal; lia. }
  assert (Hpos : 1 ≤ 10 ^ (m - e)).
  { assert (0 < 10 ^ (m - e)) by (apply Z.pow_pos_nonneg; lia). lia. }
  rewrite fix_small.
  - simpl. split; [lia|]. unfold Decimal.scaled at 1. simpl. exact Hscaled.
  - simpl. rewrite <- Hscaled, Z.abs_mul in Hsmall. nia.
Qed.

Lemma units_cons e key data records :
  units e key (data :: records) = Decimal.scaled e (field key data) + units e key records.
Proof. reflexivity. Qed.

Lemma magnitude_cons e key data records :
  magnitude e key (data :: records)
  = Z.abs (Decimal.scaled e (field key data)) + magnitude e key records.
Proof. reflexivity. Qed.

Lemma magnitude_nonneg e key records : 0 ≤ magnitude e key records.
Proof.
  induction records as [|d l IH]; [done|]. rewrite magnitude_cons. lia.
Qed.

Lemma running_total_from_exact e key records :
  Forall (λ data, e ≤ Decimal.exponent (field key data)) records →
  ∀ acc,
    e ≤ Decimal.exponent acc →
    Z.abs (Decimal.scaled e acc) + magnitude e key records < 10 ^ 28 →
    e ≤ Decimal.exponent
          (foldl (λ acc data, Decimal.add acc (field key data)) acc records)
    ∧ Decimal.scaled e
        (foldl (λ acc data, Decimal.add acc (field key data)) acc records)
      = Decimal.scaled e acc + units e key records.
Proof.
  induction 1 as [|data records Hdata _ IH]; intros acc Hacc Hsmall.
  - cbn [foldl]. split; [done|]. change (units e key []) with 0. lia.
  - rewrite magnitude_cons in Hsmall. rewrite units_cons. cbn [foldl].
    pose proof (magnitude_nonneg e key records).
    destruct (scaled_add_exact e acc (field key data)) as [Hexp Hsum]; [done|done|lia|].
    destruct (IH (Decimal.add acc (field key data))) as [Hexp' Hsum']; [done|lia|].
    split; [done|]. lia.
Qed.

Lemma running_total_exact e key records :
  e ≤ -1 →
  Forall (λ data, e ≤ Decimal.exponent (field key data)) records →
  magnitude e key records < 10 ^ 28 →
  Decimal.scaled e (running_total key records) = units e key records.
Proof.
  intros He Hexp Hsmall.
  destruct (running_total_from_exact e key records Hexp Decimal.zero) as [_ H].
  - simpl. lia.
  - change (Decimal.scaled e Decimal.zero) with (0 * 10 ^ (-1 - e)). lia.
  - unfold running_total. rewrite H.
    change (Decimal.scaled e Decimal.zero) with (0 * 10 ^ (-1 - e)). lia.
Qed.

Lemma units_app e key l1 l2 : units e key (l1 ++ l2) = units e key l1 + units e key l2.
Proof.
  induction l1 as [|d l IH]; [done|].
  cbn [app]. rewrite !units_cons. lia.
Qed.

Lemma magnitude_app e key l1 l2 :
  magnitude e key (l1 ++ l2) = magnitude e key l1 + magnitude e key l2.
Proof.
  induction l1 as [|d l IH]; [done|].
  cbn [app]. rewrite !magnitude_cons. lia.
Qed.

Lemma units_perm e key l1 l2 : l1 ≡ₚ l2 → units e key l1 = units e key l2.
Proof. induction 1; rewrite ?units_cons; lia. Qed.

Lemma magnitude_perm e key l1 l2 : l1 ≡ₚ l2 → magnitude e key l1 = magnitude e key l2.
Proof. induction 1; rewrite ?magnitude_cons; lia. Qed.

(** Over the records of the categories, the exact sum of a field is the sum
    of the running totals of the categories, when no addition rounds. *)
Lemma units_by_category e key (groups : list (list (list (string * value)))) :
  e ≤ -1 →
  Forall (λ data, e ≤ Decimal.exponent (field key data)) (concat groups) →
  magnitude e key (concat groups) < 10 ^ 28 →
  units e key (concat groups)
  = sumZ ((λ rs, Decimal.scaled e (running_total key rs)) <$> groups).
Proof.
  intros He. induction groups as [|rs groups IH]; [done|].
  cbn [concat fmap list_fmap sumZ foldr].
  rewrite Forall_app, magnitude_app, units_app. intros [Hrs Hgroups] Hsmall.
  pose proof (magnitude_nonneg e key rs).
  pose proof (magnitude_nonneg e key (concat groups)).
  rewrite running_total_exact by (done || lia).
  f_equal. apply IH; [done|lia].
Qed.

(** ** The report *)

Lemma totals_of_lookup key records :
  key ∈ template_keys → totals_of records !! key = Some (running_total key records).
Proof.
  intros Hkey. unfold totals_of. rewrite totals_with_lookup.
  unfold template_keys in Hkey.
  repeat (apply elem_of_cons in Hkey as [->|Hkey]; [reflexivity|]).
  by apply elem_of_nil in Hkey.
Qed.

Lemma totals_of_lookup_other key records :
  key ∉ template_keys → totals_of records !! key = None.
Proof.
  intros Hkey. unfold totals_of. rewrite totals_with_lookup.
  unfold template_keys in Hkey. rewrite !not_elem_of_cons in Hkey.
  cbn [dict_get]. by rewrite !decide_False by tauto.
Qed.

(** The totals of the categories, in order, are the running totals of the
    records of the categories. *)
Lemma category_totals_values {B : Type} (F : gmap string Decimal.t → B)
    (h : list (gmap string Decimal.t))
    (report_data : list (string * list (list (string * value))))
    (category_totals : list (string * nat)) :
  category_totals.*1 = report_data.*1 →
  NoDup report_data.*1 →
  (∀ c rs r, dict_get c report_data = Some rs → dict_get c category_totals = Some r →
             h !! r = Some (totals_of rs)) →
  (λ cr, F (default ∅ (h !! cr.2))) <$> category_totals
  = (λ rs, F (totals_of rs)) <$> report_data.*2.
Proof.
  revert category_totals.
  induction report_data as [|[c rs] rd IH]; intros [|[c' r] ct] Hkeys Hunique Hcats;
    try done.
  cbn [fmap list_fmap] in *. injection Hkeys as -> Hkeys.
  apply NoDup_cons in Hunique as [Hc Hunique]. f_equal.
  - cbn [snd]. erewrite (Hcats c rs r); [done|simpl; by rewrite decide_True..].
  - apply IH; [done..|]. intros c' rs' r' Hrs' Hr'.
    assert (c' ≠ c).
    { intros ->. apply Hc. apply list_elem_of_fmap.
      exists (c, rs'). split; [done|]. by apply dict_get_Some_elem. }
    apply (Hcats c' rs' r'); simpl; by rewrite decide_False.
Qed.

Lemma records_of_valued db start_dt end_dt items :
  Forall (λ item, is_Some (category_of db item)) items →
  Forall (λ item, ∃ v, calculate_periodic_wac_valuation db (Inventory.id item)
                         start_dt end_dt = Ok v) items →
  ∃ records, Forall2 (record_of db start_dt end_dt) items records.
Proof.
  induction 1 as [|item items [cat Hcat] _ IH]; intros Hvalued.
  - exists []. constructor.
  - apply Forall_cons in Hvalued as [[v Hv] Hvalued].
    destruct (IH Hvalued) as [records Hrecords].
    exists (item_report_data item (Category.name cat) v :: records).
    constructor; [by exists v, cat|done].
Qed.

(** C4, as the code has it: in a report of at least one item, the template,
    the grand totals and the totals of the categories are distinct objects
    and the template is left as created; under each of the seven keys of the
    template, and under no other key, the grand totals hold the running
    decimal total of the item records in order, and the totals of a category
    that of its records; and for a key whose additions do not round (its
    values are multiples of 10^e whose absolute values sum to less than
    10^(28+e)), the grand total is the exact sum over the item records, which
    is the sum of the totals of the categories. *)
Theorem report_totals_are_running_sums :
  ∀ db start_dt end_dt filters σ0 report_data category_totals grand_totals σ,
    item_query db end_dt filters ≠ [] →
    generate_report db start_dt end_dt filters σ0
    = (Ok (report_data, category_totals, grand_totals), σ) →
    ∃ records,
      Forall2 (record_of db start_dt end_dt) (item_query db end_dt filters) records
      ∧ concat report_data.*2 ≡ₚ records
      ∧ category_totals.*1 = report_data.*1
      ∧ NoDup (length (heap σ0) :: grand_totals :: category_totals.*2)
      ∧ heap σ !! length (heap σ0) = Some totals_template
      ∧ deref σ grand_totals = totals_of records
      ∧ (∀ c rs r, dict_get c report_data = Some rs →
                   dict_get c category_totals = Some r →
                   deref σ r = totals_of rs)
      ∧ (∀ key, totals_of records !! key
                = if decide (key ∈ template_keys)
                  then Some (running_total key records) else None)
      ∧ ∀ key e,
          key ∈ template_keys →
          e ≤ -1 →
          Forall (λ data, e ≤ Decimal.exponent (field key data)) records →
          magnitude e key records < 10 ^ 28 →
          Decimal.scaled e (total_under key (deref σ grand_totals))
          = units e key records
          ∧ units e key records
            = sumZ ((λ cr, Decimal.scaled e (total_under key (deref σ cr.2)))
                      <$> category_totals).
Proof.
  intros db start_dt end_dt filters σ0 rd ct g σ Hne Hrun.
  assert (Hsize : Z.of_nat (length (item_query db end_dt filters)) ≤ 5000).
  { destruct (decide (Z.of_nat (length (item_query db end_dt filters)) ≤ 5000));
      [done|].
    unfold generate_report in Hrun. rewrite (proj2 (Z.ltb_lt _ _)) in Hrun by lia.
    discriminate. }
  destruct (valuations_split db start_dt end_dt _ (item_query_category db end_dt filters))
    as [[records Hrecords]
       |(earlier & item & later & recs & exn & Hq & Hearlier & Hraise)].
  2: { destruct (generate_report_raise _ _ _ _ _ _ _ _ _ σ0 Hq Hsize Hearlier Hraise)
         as [h' Hraised].
       rewrite Hraised in Hrun. discriminate. }
  destruct (generate_report_ok _ _ _ _ _ σ0 Hne Hsize Hrecords)
    as (rd' & ct' & h' & Hok & Hinv).
  rewrite Hok in Hrun. injection Hrun as <- <- <- <-.
  destruct Hinv as (Htemplate & Hgrand & Hkeys & Hnodup & Hbound & Hcats & Hperm & Hunique).
  exists records. unfold deref. cbn [heap]. rewrite Hgrand. cbn [default from_option id].
  split_and!; try done.
  - intros c rs r Hrs Hr. by rewrite (Hcats c rs r Hrs Hr).
  - intros key. case_decide; [by apply totals_of_lookup|by apply totals_of_lookup_other].
  - intros key e Hkey He Hexp Hsmall. unfold total_under.
    rewrite totals_of_lookup by done. cbn [default from_option id].
    split; [by apply running_total_exact|].
    rewrite (category_totals_values
               (λ d, Decimal.scaled e (default Decimal.zero (d !! key)))
               h' rd' ct' Hkeys Hunique Hcats).
    rewrite <- (units_perm e key _ _ Hperm).
    rewrite units_by_category.
    + f_equal. apply list_fmap_ext. intros i rs _. cbn beta.
      by rewrite totals_of_lookup.
    + done.
    + by rewrite Hperm.
    + by rewrite (magnitude_perm e key _ _ Hperm).
Qed.

Lemma report_totals_are_running_sums_witness :
  ∃ report_data category_totals grand_totals σ,
    item_query january_db (day 31) ∅ ≠ []
    ∧ generate_report january_db (day 1) (day 31) ∅ initial_state
      = (Ok (report_data, category_totals, grand_totals), σ)
    ∧ ∃ records,
        concat report_data.*2 ≡ₚ records
        ∧ deref σ grand_totals = totals_of records.
Proof.
  assert (Hne : item_query january_db (day 31) ∅ ≠ []) by by_compute.
  assert (∃ rd ct g σ, generate_report january_db (day 1) (day 31) ∅ initial_state
                       = (Ok (rd, ct, g), σ)) as (rd & ct & g & σ & Hrun).
  { do 4 eexists. vm_compute. reflexivity. }
  exists rd, ct, g, σ. split; [exact Hne|]. split; [exact Hrun|].
  destruct (report_totals_are_running_sums _ _ _ _ _ _ _ _ _ Hne Hrun)
    as (records & _ & Hperm & _ & _ & _ & Hgrand & _).
  exists records. split; [exact Hperm|exact Hgrand].
Defined.

(** C4 as stated fails: with three items whose total values are two thirds,
    1000 and two thirds, the first and the last of one category, the grand
    total of the total values is 1001.333333333333333333333334 while the
    totals of the two categories, 1.333333333333333333333333333 and 1000.0,
    sum to 1001.333333333333333333333333, exactly and in decimal arithmetic
    alike. *)
Lemma grand_total_differs_from_category_totals :
  ∃ report_data category_totals grand_totals σ,
    generate_report thirds_db (day 1) (day 31) ∅ initial_state
    = (Ok (report_data, category_totals, grand_totals), σ)
    ∧ total_under "total_value" (deref σ grand_totals)
      = Decimal.mk 1001333333333333333333333334 (-24)
    ∧ (λ cr, (cr.1, total_under "total_value" (deref σ cr.2))) <$> category_totals
      = [("Stationery"%string, Decimal.mk 1333333333333333333333333333 (-27));
         ("Toner"%string, Decimal.mk 10000 (-1))]
    ∧ Decimal.scaled (-28) (total_under "total_value" (deref σ grand_totals))
      ≠ sumZ ((λ cr, Decimal.scaled (-28) (total_under "total_value" (deref σ cr.2)))
                <$> category_totals)
    ∧ Decimal.eqb (total_under "total_value" (deref σ grand_totals))
        (foldl (λ acc cr, Decimal.add acc (total_under "total_value" (deref σ cr.2)))
               Decimal.zero category_totals)
      = false.
Proof.
  do 4 eexists. split; [vm_compute; reflexivity|].
  split; [vm_compute; reflexivity|]. split; [vm_compute; reflexivity|].
  split; [vm_compute; discriminate|vm_compute; reflexivity].
Qed.

(** ** A valuation that raises *)

(** C3, as the code has it: an exception raised by the valuation of an item
    leaves [generate_report] with that exception, after the items before it
    have been valued and before any item after it is; a report is returned
    when every item is valued, and then it holds a record for each item. *)
Theorem valuation_failure_aborts_report :
  ∀ db start_dt end_dt filters σ,
    Z.of_nat (length (item_query db end_dt filters)) ≤ 5000 →
    (∀ earlier item later exn,
       item_query db end_dt filters = earlier ++ item :: later →
       Forall (λ i, ∃ v, calculate_periodic_wac_valuation db (Inventory.id i)
                           start_dt end_dt = Ok v) earlier →
       calculate_periodic_wac_valuation db (Inventory.id item) start_dt end_dt
       = Raise exn →
       ∃ h',
         generate_report db start_dt end_dt filters σ
         = (Raise exn,
            mkState h' (valued σ ++ (Inventory.id <$> earlier) ++ [Inventory.id item])))
    ∧ (item_query db end_dt filters ≠ [] →
       Forall (λ i, ∃ v, calculate_periodic_wac_valuation db (Inventory.id i)
                           start_dt end_dt = Ok v) (item_query db end_dt filters) →
       ∃ report_data category_totals h' records,
         generate_report db start_dt end_dt filters σ
         = (Ok (report_data, category_totals, S (length (heap σ))),
            mkState h' (valued σ ++ (Inventory.id <$> item_query db end_dt filters)))
         ∧ Forall2 (record_of db start_dt end_dt) (item_query db end_dt filters) records
         ∧ concat report_data.*2 ≡ₚ records).
Proof.
  intros db start_dt end_dt filters σ Hsize.
  pose proof (item_query_category db end_dt filters) as Hcategories. split.
  - intros earlier item later exn Hq Hearlier Hraise.
    rewrite Hq in Hcategories. apply Forall_app in Hcategories as [Hcategories _].
    destruct (records_of_valued _ _ _ _ Hcategories Hearlier) as [records Hrecords].
    by eapply generate_report_raise.
  - intros Hne Hvalued.
    destruct (records_of_valued _ _ _ _ Hcategories Hvalued) as [records Hrecords].
    destruct (generate_report_ok _ _ _ _ _ σ Hne Hsize Hrecords)
      as (rd & ct & h' & Hok & Hinv).
    exists rd, ct, h', records. split; [done|]. split; [done|].
    apply Hinv.
Qed.

Lemma valuation_failure_aborts_report_witness :
  Z.of_nat (length (item_query null_quantity_db (day 31) ∅)) ≤ 5000
  ∧ calculate_periodic_wac_valuation null_quantity_db 1 (day 1) (day 31)
    = Raise TypeError
  ∧ ∃ h',
      generate_report null_quantity_db (day 1) (day 31) ∅ initial_state
      = (Raise TypeError, mkState h' [1]).
Proof.
  assert (Hsize : Z.of_nat (length (item_query null_quantity_db (day 31) ∅)) ≤ 5000)
    by by_compute.
  assert (Hraise : calculate_periodic_wac_valuation null_quantity_db 1 (day 1) (day 31)
                   = Raise TypeError) by reflexivity.
  split; [exact Hsize|]. split; [exact Hraise|].
  apply (proj1 (valuation_failure_aborts_report null_quantity_db (day 1) (day 31) ∅
                  initial_state Hsize)
           [] (Inventory.mk 1 "Paper" None 1 (day 1))
           [Inventory.mk 2 "Pens" None 1 (day 1)] TypeError);
    [reflexivity|constructor|exact Hraise].
Defined.

(** C3 as stated fails: one item whose ledger holds a NULL quantity makes the
    whole report raise, though the other item is valued without error. *)
Lemma one_failing_item_aborts_the_report :
  calculate_periodic_wac_valuation null_quantity_db 1 (day 1) (day 31) = Raise TypeError
  ∧ (∃ v, calculate_periodic_wac_valuation null_quantity_db 2 (day 1) (day 31) = Ok v)
  ∧ run_report (generate_report null_quantity_db (day 1) (day 31) ∅) = Raise TypeError
  ∧ ¬ ∃ report, run_report (generate_report null_quantity_db (day 1) (day 31) ∅)
                = Ok report.
Proof.
  assert (Hrun : run_report (generate_report null_quantity_db (day 1) (day 31) ∅)
                 = Raise TypeError) by (vm_compute; reflexivity).
  split; [vm_compute; reflexivity|]. split; [eexists; vm_compute; reflexivity|].
  split; [exact Hrun|]. intros [report Hreport]. rewrite Hrun in Hreport. discriminate.
Qed.

(** * Further properties of the valuation engine *)

(** ** The exceptions of a valuation *)

Lemma sum_from_raise acc l exn : sum_from acc l = Raise exn → exn = TypeError.
Proof.
  revert acc. induction l as [|[q|] l IH]; intros acc; simpl; [done| |congruence].
  apply IH.
Qed.

Lemma sum_quantity_raise l exn : sum_quantity l = Raise exn → exn = TypeError.
Proof. apply sum_from_raise. Qed.

Lemma txn_value_raise t exn : txn_value t = Raise exn → exn = TypeError.
Proof.
  unfold txn_value, decimal_quantity. destruct (quantity t); simpl; congruence.
Qed.

Lemma add_initial_stock_raise cost l exn :
  add_initial_stock cost l = Raise exn → exn = TypeError.
Proof.
  revert cost. induction l as [|t l IH]; intros cost; simpl; [done|].
  destruct (txn_value t) as [v|e] eqn:Hv; simpl; [apply IH|].
  intros [= <-]. by eapply txn_value_raise.
Qed.

Lemma wac_step_raise st t exn : wac_step st t = Raise exn → exn = TypeError.
Proof.
  destruct st as [c n]. unfold wac_step. repeat case_decide; try done.
  destruct (txn_value t) as [v|e] eqn:Hv; simpl.
  - destruct (quantity t); simpl; congruence.
  - intros [= <-]. by eapply txn_value_raise.
Qed.

Lemma wac_loop_raise st l exn : wac_loop st l = Raise exn → exn = TypeError.
Proof.
  revert st. induction l as [|t l IH]; intros st; [done|].
  rewrite wac_loop_cons. destruct (wac_step st t) as [st'|e] eqn:Hstep; simpl.
  - apply IH.
  - intros [= <-]. by eapply wac_step_raise.
Qed.

Lemma valuation_of_raise l start_date exn :
  valuation_of l start_date = Raise exn → exn = TypeError.
Proof.
  unfold valuation_of.
  set (before := filter (λ t, timestamp t < start_date) l).
  set (during := filter (λ t, start_date ≤ timestamp t) l).
  destruct (opening_balance before) as [[[q ov] p]|e] eqn:Hopen; simpl.
  2: { intros [= <-]. unfold opening_balance in Hopen.
       destruct before; [done|].
       destruct (sum_quantity (r :: before)) eqn:Hs; simpl in Hopen; [done|].
       injection Hopen as <-. by eapply sum_quantity_raise. }
  unfold goods_available.
  destruct (add_initial_stock ov _) as [c0|e] eqn:Hinit; simpl.
  2: { intros [= <-]. by eapply add_initial_stock_raise. }
  destruct (wac_loop (c0, q) during) as [[c n]|e] eqn:Hloop; simpl.
  2: { intros [= <-]. by eapply wac_loop_raise. }
  destruct (if 0 <? n then _ else _) as [w|e] eqn:Hwac; simpl.
  2: { destruct (0 <? n) eqn:Hn; [|done].
       destruct (truediv_total c (Decimal.of_int n)) as [d Hd].
       { simpl. apply Z.ltb_lt in Hn. lia. }
       congruence. }
  repeat match goal with
         | |- (sum_quantity ?l' ≫= _) = Raise _ → _ =>
             let E := fresh "E" in
             destruct (sum_quantity l') as [?|?] eqn:E; simpl;
             [|intros [= <-]; by eapply sum_quantity_raise]
         end.
  done.
Qed.

(** X1: a valuation returns whenever every fetched row carries a quantity; in
    particular it never fails on a division by an empty stock.  The only
    exception it raises is [TypeError], and then some fetched row has no
    quantity. *)
Theorem valuation_raises_only_on_missing_quantity :
  ∀ db inventory_id start_date end_date,
    (Forall (λ t, is_Some (quantity t))
            (fetch_transactions db inventory_id end_date) →
     ∃ v, calculate_periodic_wac_valuation db inventory_id start_date end_date = Ok v)
    ∧ ∀ exn,
        calculate_periodic_wac_valuation db inventory_id start_date end_date
        = Raise exn →
        exn = TypeError
        ∧ Exists (λ t, quantity t = None) (fetch_transactions db inventory_id end_date).
Proof.
  intros db inventory_id start_date end_date. unfold calculate_periodic_wac_valuation.
  split; [apply valuation_of_total|].
  intros exn Hraise. split; [by eapply valuation_of_raise|].
  destruct (decide (Forall (λ t, is_Some (quantity t))
                      (fetch_transactions db inventory_id end_date))) as [Hall|Hnot].
  - destruct (valuation_of_total _ start_date Hall) as [v Hv]. congruence.
  - apply not_Forall_Exists in Hnot; [|apply _].
    eapply Exists_impl; [exact Hnot|]. intros t Ht. simpl in Ht.
    destruct (quantity t); [|done]. destruct Ht. by eexists.
Qed.

Lemma valuation_raises_only_on_missing_quantity_witness :
  Forall (λ t, is_Some (quantity t)) (fetch_transactions january_db 7 (day 31))
  ∧ ∃ v, calculate_periodic_wac_valuation january_db 7 (day 1) (day 31) = Ok v.
Proof.
  assert (H : Forall (λ t, is_Some (quantity t))
                (fetch_transactions january_db 7 (day 31))) by by_compute.
  split; [exact H|].
  exact (proj1 (valuation_raises_only_on_missing_quantity january_db 7 (day 1) (day 31)) H).
Defined.

(** ** What a valuation depends on *)

Lemma filter_fmap_rows {A B : Type} (f : A → B) (P : B → Prop) `{∀ y, Decision (P y)}
    (l : list A) :
  filter P (f <$> l) = f <$> filter (λ x, P (f x)) l.
Proof.
  induction l as [|x l IH]; [done|].
  cbn [fmap list_fmap]. rewrite !filter_cons. fold (fmap f l). rewrite IH.
  by case_decide.
Qed.

Lemma fetch_transactions_rows db inventory_id end_date :
  fetch_transactions db inventory_id end_date
  = order_by_timestamp
      (row_of db <$>
         filter (λ t, InventoryTransaction.timestamp t ≤ end_date)
           (filter (λ t, has_inventory db t
                         ∧ InventoryTransaction.inventory_id t = inventory_id)
                   (transactions db))).
Proof. unfold fetch_transactions, item_ledger. by rewrite filter_fmap_rows. Qed.

(** X2: a valuation reads only the rows of its item up to the end of the
    window: two databases with the same items and requests whose
    transaction tables hold the same such rows, in the same order, give the
    same valuation. *)
Theorem valuation_ignores_other_rows :
  ∀ db db' inventory_id start_date end_date,
    inventories db' = inventories db →
    requests db' = requests db →
    filter (λ t, InventoryTransaction.inventory_id t = inventory_id
                 ∧ InventoryTransaction.timestamp t ≤ end_date) (transactions db')
    = filter (λ t, InventoryTransaction.inventory_id t = inventory_id
                   ∧ InventoryTransaction.timestamp t ≤ end_date) (transactions db) →
    calculate_periodic_wac_valuation db' inventory_id start_date end_date
    = calculate_periodic_wac_valuation db inventory_id start_date end_date.
Proof.
  intros db db' inventory_id start_date end_date Hinv Hreq Hrows.
  unfold calculate_periodic_wac_valuation. f_equal.
  rewrite !fetch_transactions_rows. f_equal.
  assert (Hrow : row_of db' = row_of db).
  { unfold row_of, request_location. by rewrite Hreq. }
  rewrite Hrow. f_equal.
  assert (Hsplit : ∀ d, inventories d = inventories db →
            filter (λ t, InventoryTransaction.timestamp t ≤ end_date)
              (filter (λ t, has_inventory d t
                            ∧ InventoryTransaction.inventory_id t = inventory_id)
                      (transactions d))
            = filter (λ t, InventoryTransaction.inventory_id t
                           ∈ Inventory.id <$> inventories db)
                (filter (λ t, InventoryTransaction.inventory_id t = inventory_id
                              ∧ InventoryTransaction.timestamp t ≤ end_date)
                        (transactions d))).
  { intros d Hd. rewrite !list_filter_filter. apply list_filter_iff.
    intros t. unfold has_inventory. rewrite Hd. tauto. }
  by rewrite (Hsplit db' Hinv), (Hsplit db eq_refl), Hrows.
Qed.

Lemma valuation_ignores_other_rows_witness :
  calculate_periodic_wac_valuation january_and_more_db 7 (day 1) (day 31)
  = calculate_periodic_wac_valuation january_db 7 (day 1) (day 31).
Proof.
  apply valuation_ignores_other_rows; reflexivity.
Defined.

(** X3: when the fetched rows of the item have pairwise distinct timestamps,
    the valuation does not depend on the order in which the transaction
    table stores its rows. *)
Theorem valuation_ignores_table_order :
  ∀ db db' inventory_id start_date end_date,
    inventories db' = inventories db →
    requests db' = requests db →
    transactions db' ≡ₚ transactions db →
    NoDup (timestamp <$> fetch_transactions db inventory_id end_date) →
    calculate_periodic_wac_valuation db' inventory_id start_date end_date
    = calculate_periodic_wac_valuation db inventory_id start_date end_date.
Proof.
  intros db db' inventory_id start_date end_date Hinv Hreq Hperm Hdistinct.
  unfold calculate_periodic_wac_valuation. f_equal.
  assert (Hfetch : fetch_transactions db' inventory_id end_date
                   ≡ₚ fetch_transactions db inventory_id end_date).
  { rewrite !fetch_transactions_perm. unfold item_ledger.
    assert (Hrow : row_of db' = row_of db).
    { unfold row_of, request_location. by rewrite Hreq. }
    rewrite Hrow. f_equiv. f_equiv. rewrite Hperm.
    apply reflexive_eq, list_filter_iff. intros t. unfold has_inventory.
    by rewrite Hinv. }
  apply (StronglySorted_unique_strong by_timestamp);
    [|apply fetch_transactions_sorted..|done].
  intros x1 x2 Hx1 Hx2 H12 H21. rewrite Hfetch in Hx1.
  assert (Hts : timestamp x1 = timestamp x2) by (unfold by_timestamp in *; lia).
  clear -Hx1 Hx2 Hts Hdistinct.
  induction (fetch_transactions db inventory_id end_date) as [|y l IH]; [by inv Hx1|].
  cbn [fmap list_fmap] in Hdistinct. apply NoDup_cons in Hdistinct as [Hy Hl].
  apply elem_of_cons in Hx1 as [->|Hx1], Hx2 as [->|Hx2]; [done| | |by apply IH].
  - destruct Hy. rewrite Hts. apply list_elem_of_fmap. by exists x2.
  - destruct Hy. rewrite <- Hts. apply list_elem_of_fmap. by exists x1.
Qed.

Lemma valuation_ignores_table_order_witness :
  NoDup (timestamp <$> fetch_transactions january_db 7 (day 31))
  ∧ calculate_periodic_wac_valuation january_reversed_db 7 (day 1) (day 31)
    = calculate_periodic_wac_valuation january_db 7 (day 1) (day 31).
Proof.
  assert (H : NoDup (timestamp <$> fetch_transactions january_db 7 (day 31)))
    by by_compute.
  split; [exact H|].
  apply valuation_ignores_table_order; [reflexivity|reflexivity| |exact H].
  apply reverse_Permutation.
Defined.

(** * Further properties of the report *)

(** ** How the records are grouped *)

Lemma process_item_records db start_dt end_dt template grand report_data category_totals
    item σ report_data' category_totals' σ' :
  process_item db start_dt end_dt template grand (report_data, category_totals) item σ
  = (Ok (report_data', category_totals'), σ') →
  ∃ data, record_of db start_dt end_dt item data
          ∧ report_data' = file_record report_data data.
Proof.
  rewrite process_item_unfold. cbv zeta.
  destruct (calculate_periodic_wac_valuation _ _ _ _) as [v|e] eqn:Hv; [|done].
  destruct (category_of db item) as [cat|] eqn:Hcat; [|done].
  set (c := Category.name cat). set (data := item_report_data item c v).
  assert (Hc : record_category data = c) by reflexivity.
  intros Hrun. exists data. split; [by exists v, cat|].
  unfold file_record. rewrite Hc.
  destruct (dict_get c report_data) as [rs|] eqn:Hrd.
  - destruct (aggregate _ _ _ _ _) as [[[]|e] σ1]; [|done]. by injection Hrun as <- _ _.
  - destruct (aggregate _ _ _ _ _) as [[[]|e] σ1]; [|done]. injection Hrun as <- _ _.
    rewrite dict_get_set_eq. cbn [default from_option id app].
    rewrite (dict_set_absent c _ _ Hrd). clear -Hrd.
    induction report_data as [|[k' v'] d IH]; simpl in *.
    + by rewrite decide_True.
    + case_decide; [done|]. by rewrite IH.
Qed.

Lemma process_items_records db start_dt end_dt template grand items :
  ∀ report_data category_totals σ report_data' category_totals' σ',
    process_items db start_dt end_dt template grand (report_data, category_totals)
      items σ
    = (Ok (report_data', category_totals'), σ') →
    ∃ records, Forall2 (record_of db start_dt end_dt) items records
               ∧ report_data' = foldl file_record report_data records.
Proof.
  induction items as [|item items IH]; intros rd ct σ rd' ct' σ' Hrun.
  - injection Hrun as <- _ _. exists []. split; [constructor|done].
  - cbn [process_items] in Hrun. unfold mbind, M_bind in Hrun.
    destruct (process_item _ _ _ _ _ _ _ _) as [[[rd1 ct1]|e] σ1] eqn:Hstep; [|done].
    apply process_item_records in Hstep as (data & Hdata & ->).
    apply IH in Hrun as (records & Hrecords & ->).
    exists (data :: records). split; [by constructor|done].
Qed.

(** Pure facts on filing. *)
Lemma file_record_get rd data c :
  dict_get c (file_record rd data)
  = if decide (record_category data = c)
    then Some (default [] (dict_get c rd) ++ [data])
    else dict_get c rd.
Proof.
  unfold file_record. case_decide as Hc.
  - subst c. apply dict_get_set_eq.
  - by apply dict_get_set_ne.
Qed.

Lemma file_record_keys rd data :
  (file_record rd data).*1
  = if decide (record_category data ∈ rd.*1) then rd.*1
    else rd.*1 ++ [record_category data].
Proof.
  unfold file_record. set (c := record_category data).
  destruct (dict_get c rd) as [rs|] eqn:Hrd.
  - rewrite decide_True.
    + by erewrite dict_set_present_keys.
    + apply dict_get_Some_elem in Hrd. apply list_elem_of_fmap. by exists (c, rs).
  - rewrite decide_False by (by apply dict_get_None).
    rewrite (dict_set_absent c _ _ Hrd). by rewrite fmap_app.
Qed.

Lemma filed_records_get records :
  ∀ rd c,
    dict_get c (foldl file_record rd records)
    = match dict_get c rd, filter (λ d, record_category d = c) records with
      | None, [] => None
      | o, rs => Some (default [] o ++ rs)
      end.
Proof.
  induction records as [|data records IH]; intros rd c.
  - cbn [foldl]. rewrite filter_nil. destruct (dict_get c rd); [|done].
    by rewrite app_nil_r.
  - cbn [foldl]. rewrite IH, file_record_get, filter_cons.
    case_decide as Hc.
    + destruct (dict_get c rd) as [rs|]; cbn [default from_option id];
        by rewrite <- (assoc_L (++)).
    + done.
Qed.

Lemma filed_records_keys records :
  ∀ rd,
    (foldl file_record rd records).*1
    = foldl (λ seen c, if decide (c ∈ seen) then seen else seen ++ [c]) rd.*1
        (record_category <$> records).
Proof.
  induction records as [|data records IH]; intros rd; [done|].
  cbn [foldl fmap list_fmap]. by rewrite IH, file_record_keys.
Qed.

(** X4: in a returned report, the categories come in the order in which
    the items first show them, each once, and a category lists the records
    of its items, all of them and no other, in the order of the items. *)
Theorem report_groups_records_by_category :
  ∀ db start_dt end_dt filters σ report_data category_totals grand_totals σ',
    generate_report db start_dt end_dt filters σ
    = (Ok (report_data, category_totals, grand_totals), σ') →
    ∃ records,
      Forall2 (record_of db start_dt end_dt) (item_query db end_dt filters) records
      ∧ report_data.*1 = first_seen (record_category <$> records)
      ∧ ∀ c, dict_get c report_data
             = match filter (λ d, record_category d = c) records with
               | [] => None
               | rs => Some rs
               end.
Proof.
  intros db start_dt end_dt filters σ rd ct g σ' Hrun.
  unfold generate_report in Hrun.
  destruct (5000 <? _); [done|].
  destruct (item_query db end_dt filters) as [|item items] eqn:Hq.
  - injection Hrun as <- _ _ _. exists []. split; [constructor|]. split; [done|].
    intros c. by rewrite filter_nil.
  - unfold mbind at 1 2 in Hrun. unfold M_bind, copy, alloc in Hrun.
    unfold mbind, M_bind in Hrun.
    destruct (process_items _ _ _ _ _ _ _ _) as [[[rd1 ct1]|e] σ1] eqn:Hloop; [|done].
    injection Hrun as <- _ _ _.
    apply process_items_records in Hloop as (records & Hrecords & ->).
    exists records. split; [done|]. split.
    + apply (filed_records_keys records []).
    + intros c. rewrite filed_records_get. cbn [dict_get default from_option id app].
      by destruct (filter _ records).
Qed.

Lemma report_groups_records_by_category_witness :
  ∃ report_data category_totals grand_totals σ' records,
    generate_report thirds_db (day 1) (day 31) ∅ initial_state
    = (Ok (report_data, category_totals, grand_totals), σ')
    ∧ report_data.*1 = ["Stationery"; "Toner"]%string
    ∧ report_data.*1 = first_seen (record_category <$> records).
Proof.
  assert (∃ rd ct g σ', generate_report thirds_db (day 1) (day 31) ∅ initial_state
                        = (Ok (rd, ct, g), σ')
                        ∧ rd.*1 = ["Stationery"; "Toner"]%string)
    as (rd & ct & g & σ' & Hrun & Hnames).
  { do 4 eexists. split; [vm_compute; reflexivity|reflexivity]. }
  destruct (report_groups_records_by_category _ _ _ _ _ _ _ _ _ Hrun)
    as (records & _ & Hkeys & _).
  exists rd, ct, g, σ', records. split; [exact Hrun|]. split; [exact Hnames|exact Hkeys].
Defined.

(** ** The exceptions of a report and the ledgers it queries *)

(** X5: the only exceptions [generate_report] raises are the HTTP error 413
    of an oversized query and the [TypeError] of a valuation: the lookup of
    a category's totals never misses, an item always has its category, and
    [Decimal] is never applied to a text field of a record. *)
Theorem generate_report_raises_only_413_or_type_error :
  ∀ db start_dt end_dt filters σ exn σ',
    generate_report db start_dt end_dt filters σ = (Raise exn, σ') →
    (exn = HTTPException 413 ∧ σ' = σ
     ∧ 5000 < Z.of_nat (length (item_query db end_dt filters)))
    ∨ (exn = TypeError
       ∧ ∃ item, item ∈ item_query db end_dt filters
                 ∧ calculate_periodic_wac_valuation db (Inventory.id item)
                     start_dt end_dt = Raise TypeError).
Proof.
  intros db start_dt end_dt filters σ exn σ' Hrun.
  destruct (decide (5000 < Z.of_nat (length (item_query db end_dt filters))))
    as [Hbig|Hsize].
  - left. unfold generate_report in Hrun.
    rewrite (proj2 (Z.ltb_lt _ _)) in Hrun by done. by injection Hrun as <- <-.
  - right. assert (Hsize' : Z.of_nat (length (item_query db end_dt filters)) ≤ 5000)
      by lia.
    destruct (decide (item_query db end_dt filters = [])) as [Hnil|Hne].
    { unfold generate_report in Hrun.
      rewrite (proj2 (Z.ltb_ge _ _)), Hnil in Hrun by done. done. }
    destruct (valuations_split db start_dt end_dt _
                (item_query_category db end_dt filters))
      as [[records Hrecords]
         |(earlier & item & later & recs & exn0 & Hq & Hearlier & Hraise)].
    + destruct (generate_report_ok _ _ _ _ _ σ Hne Hsize' Hrecords)
        as (rd & ct & h' & Hok & _). congruence.
    + destruct (generate_report_raise _ _ _ _ _ _ _ _ _ σ Hq Hsize' Hearlier Hraise)
        as [h' Hraised].
      rewrite Hraised in Hrun. injection Hrun as <- _.
      assert (exn0 = TypeError) as -> by (by eapply valuation_of_raise).
      split; [done|]. exists item. split; [|done].
      rewrite Hq. apply elem_of_app. right. apply list_elem_of_here.
Qed.

Lemma generate_report_raises_only_413_or_type_error_witness :
  ∃ σ',
    generate_report null_quantity_db (day 1) (day 31) ∅ initial_state
    = (Raise TypeError, σ')
    ∧ ∃ item, item ∈ item_query null_quantity_db (day 31) ∅
              ∧ calculate_periodic_wac_valuation null_quantity_db (Inventory.id item)
                  (day 1) (day 31) = Raise TypeError.
Proof.
  assert (∃ σ', generate_report null_quantity_db (day 1) (day 31) ∅ initial_state
                = (Raise TypeError, σ')) as [σ' Hrun].
  { eexists. vm_compute. reflexivity. }
  exists σ'. split; [exact Hrun|].
  destruct (generate_report_raises_only_413_or_type_error _ _ _ _ _ _ _ Hrun)
    as [(Habsurd & _)|(_ & Hitem)]; [discriminate Habsurd|exact Hitem].
Defined.

(** X6: [generate_report] queries the ledgers of the items of its query in
    order, each at most once and none else: the items valued are a prefix of
    the query, the whole of it when a report is returned and none of it when
    the query is refused for its size. *)
Theorem generate_report_values_a_prefix :
  ∀ db start_dt end_dt filters σ outcome σ',
    generate_report db start_dt end_dt filters σ = (outcome, σ') →
    ∃ n,
      valued σ' = valued σ ++ (Inventory.id <$> take n (item_query db end_dt filters))
      ∧ (∀ report, outcome = Ok report →
                   valued σ' = valued σ ++ (Inventory.id <$> item_query db end_dt filters))
      ∧ (outcome = Raise (HTTPException 413) → valued σ' = valued σ).
Proof.
  intros db start_dt end_dt filters σ outcome σ' Hrun.
  destruct (decide (5000 < Z.of_nat (length (item_query db end_dt filters))))
    as [Hbig|Hsize].
  { unfold generate_report in Hrun.
    rewrite (proj2 (Z.ltb_lt _ _)) in Hrun by done. injection Hrun as <- <-.
    exists 0%nat. rewrite take_0, app_nil_r. by split_and!. }
  assert (Hsize' : Z.of_nat (length (item_query db end_dt filters)) ≤ 5000) by lia.
  destruct (decide (item_query db end_dt filters = [])) as [Hnil|Hne].
  { unfold generate_report in Hrun.
    rewrite (proj2 (Z.ltb_ge _ _)), Hnil in Hrun by done.
    cbv [mbind M_bind alloc mret M_ret] in Hrun.
    injection Hrun as <- <-. exists 0%nat. rewrite Hnil, take_0, app_nil_r.
    by split_and!. }
  destruct (valuations_split db start_dt end_dt _
              (item_query_category db end_dt filters))
    as [[records Hrecords]
       |(earlier & item & later & recs & exn0 & Hq & Hearlier & Hraise)].
  - destruct (generate_report_ok _ _ _ _ _ σ Hne Hsize' Hrecords)
      as (rd & ct & h' & Hok & _).
    rewrite Hok in Hrun. injection Hrun as <- <-. cbn [valued].
    exists (length (item_query db end_dt filters)). rewrite take_ge by done.
    by split_and!.
  - destruct (generate_report_raise _ _ _ _ _ _ _ _ _ σ Hq Hsize' Hearlier Hraise)
      as [h' Hraised].
    rewrite Hraised in Hrun. injection Hrun as <- <-. cbn [valued].
    assert (exn0 = TypeError) as -> by (by eapply valuation_of_raise).
    exists (S (length earlier)). split_and!; [|done|done].
    rewrite Hq.
    replace (earlier ++ item :: later) with ((earlier ++ [item]) ++ later)
      by (by rewrite <- (assoc_L (++))).
    rewrite take_app_length' by (rewrite length_app; simpl; lia).
    by rewrite fmap_app.
Qed.

Lemma generate_report_values_a_prefix_witness :
  ∃ outcome σ',
    generate_report null_quantity_db (day 1) (day 31) ∅ initial_state = (outcome, σ')
    ∧ valued σ' = [1]
    ∧ ∃ n, valued σ' = valued initial_state
                       ++ (Inventory.id <$> take n (item_query null_quantity_db (day 31) ∅)).
Proof.
  assert (∃ outcome σ',
            generate_report null_quantity_db (day 1) (day 31) ∅ initial_state
            = (outcome, σ') ∧ valued σ' = [1]) as (outcome & σ' & Hrun & Hvalued).
  { do 2 eexists. split; [vm_compute; reflexivity|reflexivity]. }
  exists outcome, σ'. split; [exact Hrun|]. split; [exact Hvalued|].
  destruct (generate_report_values_a_prefix _ _ _ _ _ _ _ Hrun) as (n & Hn & _).
  exists n. exact Hn.
Defined.

(** * The calendar *)

Lemma year_split (y : Z) :
  ∃ a b c e,
    y - 1 = 400 * a + 100 * b + 4 * c + e
    ∧ 0 ≤ b ≤ 3 ∧ 0 ≤ c ≤ 24 ∧ 0 ≤ e ≤ 3
    ∧ date.days_before_year y = 146097 * a + 36524 * b + 1461 * c + 365 * e
    ∧ date.is_leap y = (e =? 3) && (negb (c =? 24) || (b =? 3)).
Proof.
  exists ((y - 1) / 400), ((y - 1) mod 400 / 100), ((y - 1) mod 100 / 4), ((y - 1) mod 4).
  unfold date.days_before_year, date.is_leap. cbv zeta.
  split_and!; try (Z.div_mod_to_equations; lia).
Qed.

Lemma ord2ymd_regular n a b c e k :
  n - 1 = 146097 * a + 36524 * b + 1461 * c + 365 * e + k →
  0 ≤ b ≤ 3 → 0 ≤ c ≤ 24 → 0 ≤ e ≤ 3 → 0 ≤ k ≤ 364 →
  date.ord2ymd n
  = (400 * a + 100 * b + 4 * c + e + 1,
     (date.month_and_day ((e =? 3) && (negb (c =? 24) || (b =? 3))) k).1,
     (date.month_and_day ((e =? 3) && (negb (c =? 24) || (b =? 3))) k).2).
Proof.
  intros Hn Hb Hc He Hk. unfold date.ord2ymd, date.DI400Y, date.DI100Y, date.DI4Y.
  cbv zeta.
  assert (H400 : (n - 1) / 146097 = a) by (Z.div_mod_to_equations; lia).
  assert (R400 : (n - 1) mod 146097 = 36524 * b + 1461 * c + 365 * e + k)
    by (Z.div_mod_to_equations; lia).
  rewrite H400, R400.
  assert (H100 : (36524 * b + 1461 * c + 365 * e + k) / 36524 = b)
    by (Z.div_mod_to_equations; lia).
  assert (R100 : (36524 * b + 1461 * c + 365 * e + k) mod 36524 = 1461 * c + 365 * e + k)
    by (Z.div_mod_to_equations; lia).
  rewrite H100, R100.
  assert (H4 : (1461 * c + 365 * e + k) / 1461 = c) by (Z.div_mod_to_equations; lia).
  assert (R4 : (1461 * c + 365 * e + k) mod 1461 = 365 * e + k)
    by (Z.div_mod_to_equations; lia).
  rewrite H4, R4.
  assert (H1 : (365 * e + k) / 365 = e) by (Z.div_mod_to_equations; lia).
  assert (R1 : (365 * e + k) mod 365 = k) by (Z.div_mod_to_equations; lia).
  rewrite H1, R1.
  replace ((e =? 4) || (b =? 4)) with false by lia.
  destruct (date.month_and_day _ k) as [month day]. cbn [fst snd].
  f_equal. f_equal. lia.
Qed.

Lemma ord2ymd_last_day n a b c :
  n - 1 = 146097 * a + 36524 * b + 1461 * c + 365 * 3 + 365 →
  0 ≤ b ≤ 3 → 0 ≤ c ≤ 24 → c ≠ 24 ∨ b = 3 →
  date.ord2ymd n = (400 * a + 100 * b + 4 * c + 4, 12, 31).
Proof.
  intros Hn Hb Hc Hleap. unfold date.ord2ymd, date.DI400Y, date.DI100Y, date.DI4Y.
  cbv zeta.
  assert (H400 : (n - 1) / 146097 = a) by (Z.div_mod_to_equations; lia).
  assert (R400 : (n - 1) mod 146097 = 36524 * b + 1461 * c + 1460)
    by (Z.div_mod_to_equations; lia).
  rewrite H400, R400.
  destruct (decide (c = 24)) as [->|Hc24].
  - assert (b = 3) as -> by lia.
    change ((36524 * 3 + 1461 * 24 + 1460) / 36524) with 4.
    change ((36524 * 3 + 1461 * 24 + 1460) mod 36524) with 0.
    change (0 / 1461) with 0. change (0 mod 1461) with 0. change (0 / 365) with 0.
    change ((0 =? 4) || (4 =? 4)) with true. cbv iota.
    f_equal. f_equal. lia.
  - assert (H100 : (36524 * b + 1461 * c + 1460) / 36524 = b)
      by (Z.div_mod_to_equations; lia).
    assert (R100 : (36524 * b + 1461 * c + 1460) mod 36524 = 1461 * c + 1460)
      by (Z.div_mod_to_equations; lia).
    rewrite H100, R100.
    assert (H4 : (1461 * c + 1460) / 1461 = c) by (Z.div_mod_to_equations; lia).
    assert (R4 : (1461 * c + 1460) mod 1461 = 1460) by (Z.div_mod_to_equations; lia).
    rewrite H4, R4.
    change (1460 / 365) with 4. change (4 =? 4) with true. cbn [orb].
    f_equal. f_equal. lia.
Qed.

Lemma days_in_month_entry y m :
  date.days_in_month y m
  = date.entry date.DAYS_IN_MONTH m + (if (m =? 2) && date.is_leap y then 1 else 0).
Proof.
  unfold date.days_in_month. destruct (Z.eqb_spec m 2) as [->|]; [|simpl; lia].
  by destruct (date.is_leap y).
Qed.

Lemma month_and_day_offset (leapyear : bool) m d :
  1 ≤ m ≤ 12 →
  1 ≤ d ≤ date.entry date.DAYS_IN_MONTH m + (if (m =? 2) && leapyear then 1 else 0) →
  date.month_and_day leapyear
    (date.entry date.DAYS_BEFORE_MONTH m + (if (2 <? m) && leapyear then 1 else 0)
     + d - 1)
  = (m, d).
Proof.
  intros Hm Hd.
  assert (H : Forall (λ leap, Forall (λ m, Forall (λ d,
                date.month_and_day leap
                  (date.entry date.DAYS_BEFORE_MONTH m
                   + (if (2 <? m) && leap then 1 else 0) + d - 1) = (m, d))
                (month_days leap m)) months) [true; false]) by by_compute.
  assert (Hleap : leapyear ∈ [true; false]) by (destruct leapyear; set_solver).
  pose proof (proj1 (Forall_forall _ _) H leapyear Hleap) as Hmonths.
  assert (Hin : m ∈ months) by (apply elem_of_seqZ; lia).
  pose proof (proj1 (Forall_forall _ _) Hmonths m Hin) as Hdays.
  apply (proj1 (Forall_forall _ _) Hdays d).
  unfold month_days. apply elem_of_seqZ. lia.
Qed.

Lemma offset_bounds (leapyear : bool) m d :
  1 ≤ m ≤ 12 →
  1 ≤ d ≤ date.entry date.DAYS_IN_MONTH m + (if (m =? 2) && leapyear then 1 else 0) →
  0 ≤ date.entry date.DAYS_BEFORE_MONTH m + (if (2 <? m) && leapyear then 1 else 0)
      + d - 1 ≤ 364 + (if leapyear then 1 else 0)
  ∧ (date.entry date.DAYS_BEFORE_MONTH m + (if (2 <? m) && leapyear then 1 else 0)
     + d - 1 = 365 → m = 12 ∧ d = 31).
Proof.
  intros Hm Hd.
  assert (m = 1 ∨ m = 2 ∨ m = 3 ∨ m = 4 ∨ m = 5 ∨ m = 6 ∨ m = 7 ∨ m = 8 ∨ m = 9
          ∨ m = 10 ∨ m = 11 ∨ m = 12) as Hcases by lia.
  destruct_or!; subst m; destruct leapyear; unfold date.entry in *; simpl in *; lia.
Qed.

Lemma ord2ymd_ymd2ord y m d :
  in_calendar y m d → date.ord2ymd (date.ymd2ord y m d) = (y, m, d).
Proof.
  intros [Hm Hd]. rewrite days_in_month_entry in Hd.
  destruct (year_split y) as (a & b & c & e & Hy & Hb & Hc & He & Hdby & Hleap).
  destruct (offset_bounds (date.is_leap y) m d Hm Hd) as [Hk Hlast].
  pose proof (month_and_day_offset (date.is_leap y) m d Hm Hd) as Hmd.
  assert (Hn : date.ymd2ord y m d - 1
               = date.days_before_year y
                 + (date.entry date.DAYS_BEFORE_MONTH m
                    + (if (2 <? m) && date.is_leap y then 1 else 0) + d - 1))
    by (unfold date.ymd2ord, date.days_before_month; lia).
  remember (date.entry date.DAYS_BEFORE_MONTH m
            + (if (2 <? m) && date.is_leap y then 1 else 0) + d - 1) as k eqn:Hkdef.
  destruct (decide (k = 365)) as [Hk365|Hk365].
  - destruct (Hlast Hk365) as [-> ->].
    destruct (date.is_leap y); [|lia].
    assert (e = 3 ∧ (c ≠ 24 ∨ b = 3)) as [-> Hcb] by lia.
    rewrite (ord2ymd_last_day _ a b c); [f_equal; f_equal; lia|lia..].
  - assert (0 ≤ k ≤ 364) by (destruct (date.is_leap y); lia).
    rewrite (ord2ymd_regular _ a b c e k) by lia.
    rewrite <- Hleap, Hmd. cbn [fst snd]. f_equal. f_equal. lia.
Qed.

Lemma month_and_day_inverse (leapyear : bool) k :
  0 ≤ k ≤ 364 + (if leapyear then 1 else 0) →
  1 ≤ (date.month_and_day leapyear k).1 ≤ 12
  ∧ 1 ≤ (date.month_and_day leapyear k).2
      ≤ date.entry date.DAYS_IN_MONTH (date.month_and_day leapyear k).1
        + (if ((date.month_and_day leapyear k).1 =? 2) && leapyear then 1 else 0)
  ∧ date.entry date.DAYS_BEFORE_MONTH (date.month_and_day leapyear k).1
    + (if (2 <? (date.month_and_day leapyear k).1) && leapyear then 1 else 0)
    + (date.month_and_day leapyear k).2 - 1 = k.
Proof.
  intros Hk.
  assert (H : Forall (λ leap, Forall (λ k,
     1 ≤ (date.month_and_day leap k).1 ≤ 12
     ∧ 1 ≤ (date.month_and_day leap k).2
         ≤ date.entry date.DAYS_IN_MONTH (date.month_and_day leap k).1
           + (if ((date.month_and_day leap k).1 =? 2) && leap then 1 else 0)
     ∧ date.entry date.DAYS_BEFORE_MONTH (date.month_and_day leap k).1
       + (if (2 <? (date.month_and_day leap k).1) && leap then 1 else 0)
       + (date.month_and_day leap k).2 - 1 = k)
     (seqZ 0 (365 + (if leap then 1 else 0)))) [true; false]) by by_compute.
  assert (Hleap : leapyear ∈ [true; false]) by (destruct leapyear; set_solver).
  pose proof (proj1 (Forall_forall _ _) H leapyear Hleap) as Hks.
  apply (proj1 (Forall_forall _ _) Hks k). apply elem_of_seqZ. lia.
Qed.

Lemma ymd2ord_ord2ymd n :
  in_calendar (date.ord2ymd n).1.1 (date.ord2ymd n).1.2 (date.ord2ymd n).2
  ∧ date.ymd2ord (date.ord2ymd n).1.1 (date.ord2ymd n).1.2 (date.ord2ymd n).2 = n
  ∧ (1 ≤ n ≤ 3652059 → 1 ≤ (date.ord2ymd n).1.1 ≤ 9999).
Proof.
  set (a := (n - 1) / 146097). set (r1 := (n - 1) mod 146097).
  set (b := r1 / 36524). set (r2 := r1 mod 36524).
  set (c := r2 / 1461). set (r3 := r2 mod 1461).
  set (e := r3 / 365). set (k := r3 mod 365).
  assert (Hn : n - 1 = 146097 * a + 36524 * b + 1461 * c + 365 * e + k)
    by (subst a r1 b r2 c r3 e k; Z.div_mod_to_equations; lia).
  assert (Hb : 0 ≤ b ≤ 4) by (subst a r1 b; Z.div_mod_to_equations; lia).
  assert (Hc : 0 ≤ c ≤ 24) by (subst r2 c; Z.div_mod_to_equations; lia).
  assert (He : 0 ≤ e ≤ 4) by (subst r3 e; Z.div_mod_to_equations; lia).
  assert (Hk : 0 ≤ k ≤ 364) by (subst k; Z.div_mod_to_equations; lia).
  assert (Hr3 : 365 * e + k ≤ 1460) by (subst r3 e k; Z.div_mod_to_equations; lia).
  assert (Hr2 : 1461 * c + 365 * e + k ≤ 36523)
    by (subst r2 c r3 e k; Z.div_mod_to_equations; lia).
  assert (Hr1 : 36524 * b + 1461 * c + 365 * e + k ≤ 146096)
    by (subst r1 b r2 c r3 e k; Z.div_mod_to_equations; lia).
  clearbody a b c e k. clear r1 r2 r3.
  assert (Hcases : (0 ≤ b ≤ 3 ∧ 0 ≤ e ≤ 3)
                   ∨ (e = 4 ∧ k = 0 ∧ 0 ≤ b ≤ 3 ∧ c ≠ 24)
                   ∨ (b = 4 ∧ c = 0 ∧ e = 0 ∧ k = 0)) by lia.
  destruct Hcases as [[Hb3 He3]|[(-> & -> & Hb3 & Hc24)|(-> & -> & -> & ->)]].
  - rewrite (ord2ymd_regular n a b c e k) by lia. cbn [fst snd].
    set (y := 400 * a + 100 * b + 4 * c + e + 1).
    destruct (year_split y) as (a' & b' & c' & e' & Hy & Hb' & Hc' & He' & Hdby & Hleap).
    assert (a' = a ∧ b' = b ∧ c' = c ∧ e' = e) as (-> & -> & -> & ->) by lia.
    rewrite <- Hleap.
    destruct (month_and_day_inverse (date.is_leap y) k) as (Hm & Hd & Hoff);
      [destruct (date.is_leap y); lia|].
    split_and!.
    + split; [done|]. by rewrite days_in_month_entry.
    + unfold date.ymd2ord, date.days_before_month. lia.
    + lia.
  - rewrite (ord2ymd_last_day n a b c) by lia. cbn [fst snd].
    set (y := 400 * a + 100 * b + 4 * c + 4).
    destruct (year_split y) as (a' & b' & c' & e' & Hy & Hb' & Hc' & He' & Hdby & Hleap).
    assert (a' = a ∧ b' = b ∧ c' = c ∧ e' = 3) as (-> & -> & -> & ->) by lia.
    assert (Hl : date.is_leap y = true)
      by (rewrite Hleap; by destruct (Z.eqb_spec c 24)).
    split_and!.
    + split; [lia|]. rewrite days_in_month_entry. by vm_compute.
    + unfold date.ymd2ord, date.days_before_month. rewrite Hl, Hdby.
      change (date.entry date.DAYS_BEFORE_MONTH 12) with 334. simpl. lia.
    + lia.
  - rewrite (ord2ymd_last_day n a 3 24) by lia. cbn [fst snd].
    set (y := 400 * a + 100 * 3 + 4 * 24 + 4).
    destruct (year_split y) as (a' & b' & c' & e' & Hy & Hb' & Hc' & He' & Hdby & Hleap).
    assert (a' = a ∧ b' = 3 ∧ c' = 24 ∧ e' = 3) as (-> & -> & -> & ->) by lia.
    assert (Hl : date.is_leap y = true) by (by rewrite Hleap).
    split_and!.
    + split; [lia|]. rewrite days_in_month_entry. by vm_compute.
    + unfold date.ymd2ord, date.days_before_month. rewrite Hl, Hdby.
      change (date.entry date.DAYS_BEFORE_MONTH 12) with 334. simpl. lia.
    + lia.
Qed.

(** ** The constructors *)

Lemma check_date_fields_ok y m d :
  1 ≤ y ≤ 9999 → in_calendar y m d →
  date.check_date_fields y m d = Returns (y, m, d).
Proof.
  intros Hy [Hm Hd]. unfold date.check_date_fields, date.MINYEAR, date.MAXYEAR.
  cbv zeta.
  replace ((1 <=? y) && (y <=? 9999)) with true by lia.
  replace ((1 <=? m) && (m <=? 12)) with true by lia.
  by replace ((1 <=? d) && (d <=? date.days_in_month y m)) with true by lia.
Qed.

Lemma check_date_fields_inv y m d r :
  date.check_date_fields y m d = Returns r →
  r = (y, m, d) ∧ 1 ≤ y ≤ 9999 ∧ in_calendar y m d.
Proof.
  unfold date.check_date_fields, date.MINYEAR, date.MAXYEAR, in_calendar. cbv zeta.
  destruct ((1 <=? y) && (y <=? 9999)) eqn:Hy; [|done].
  destruct ((1 <=? m) && (m <=? 12)) eqn:Hm; [|done].
  destruct ((1 <=? d) && (d <=? date.days_in_month y m)) eqn:Hd; [|done].
  cbn [negb]. intros [= <-]. split; [done|]. lia.
Qed.

Lemma check_date_fields_raises y m d e :
  date.check_date_fields y m d = Raises e →
  e = ValueError ∧ ¬ (1 ≤ y ≤ 9999 ∧ in_calendar y m d).
Proof.
  unfold date.check_date_fields, date.MINYEAR, date.MAXYEAR, in_calendar. cbv zeta.
  destruct ((1 <=? y) && (y <=? 9999)) eqn:Hy; cbn [negb];
    [|intros [= <-]; split; [done|lia]].
  destruct ((1 <=? m) && (m <=? 12)) eqn:Hm; cbn [negb];
    [|intros [= <-]; split; [done|lia]].
  destruct ((1 <=? d) && (d <=? date.days_in_month y m)) eqn:Hd; cbn [negb];
    [done|intros [= <-]; split; [done|lia]].
Qed.

Lemma date_new_ok y m d :
  1 ≤ y ≤ 9999 → in_calendar y m d → date.new y m d = Returns (date.mk y m d).
Proof. intros Hy Hc. unfold date.new. by rewrite check_date_fields_ok. Qed.

Lemma at_midnight_ok y m d :
  1 ≤ y ≤ 9999 → in_calendar y m d →
  datetime.at_midnight y m d = Returns (datetime.mk y m d 0 0 0 0).
Proof.
  intros Hy Hc. unfold datetime.at_midnight, datetime.new.
  by rewrite check_date_fields_ok.
Qed.

Lemma at_midnight_raises y m d e :
  datetime.at_midnight y m d = Raises e →
  e = ValueError ∧ ¬ (1 ≤ y ≤ 9999 ∧ in_calendar y m d).
Proof.
  unfold datetime.at_midnight, datetime.new.
  destruct (date.check_date_fields y m d) as [[[y' m'] d']|e'] eqn:Hcheck; [done|].
  intros [= <-]. by eapply check_date_fields_raises.
Qed.

Lemma datetime_new_ok y m d hh mm ss us :
  1 ≤ y ≤ 9999 → in_calendar y m d →
  0 ≤ hh ≤ 23 → 0 ≤ mm ≤ 59 → 0 ≤ ss ≤ 59 → 0 ≤ us ≤ 999999 →
  datetime.new y m d hh mm ss us = Returns (datetime.mk y m d hh mm ss us).
Proof.
  intros Hy Hc Hh Hm Hs Hu. unfold datetime.new. rewrite check_date_fields_ok by done.
  cbn [mbind attempt_bind]. unfold datetime.check_time_fields.
  replace ((0 <=? hh) && (hh <=? 23)) with true by lia.
  replace ((0 <=? mm) && (mm <=? 59)) with true by lia.
  replace ((0 <=? ss) && (ss <=? 59)) with true by lia.
  by replace ((0 <=? us) && (us <=? 999999)) with true by lia.
Qed.

(** ** Ordinals *)

Lemma ymd2ord_range y m d :
  1 ≤ y ≤ 9999 → in_calendar y m d → 1 ≤ date.ymd2ord y m d ≤ 3652059.
Proof.
  intros Hy [Hm Hd]. rewrite days_in_month_entry in Hd.
  destruct (year_split y) as (a & b & c & e & Hsplit & Hb & Hc & He & Hdby & Hleap).
  destruct (offset_bounds (date.is_leap y) m d Hm Hd) as [Hk _].
  unfold date.ymd2ord, date.days_before_month. rewrite Hdby.
  destruct (date.is_leap y); [|lia].
  assert (e = 3) by lia. lia.
Qed.

Lemma fromordinal_toordinal d :
  valid_date d → date.fromordinal (date.toordinal d) = Returns d.
Proof.
  destruct d as [y m d]. intros [Hy Hc]. cbn in Hy, Hc.
  unfold date.fromordinal, date.toordinal. cbn [date.year date.month date.day].
  rewrite ord2ymd_ymd2ord by done. by apply date_new_ok.
Qed.

Lemma fromordinal_in_range n :
  1 ≤ n ≤ 3652059 →
  ∃ d, date.fromordinal n = Returns d ∧ valid_date d ∧ date.toordinal d = n.
Proof.
  intros Hn. destruct (ymd2ord_ord2ymd n) as (Hc & Hord & Hy).
  unfold date.fromordinal. destruct (date.ord2ymd n) as [[y m] d].
  cbn [fst snd] in *. exists (date.mk y m d).
  rewrite date_new_ok by auto. split; [done|]. split; [|done].
  split; [by apply Hy|done].
Qed.

Lemma date_add_in_range d n :
  valid_date d → 1 ≤ date.toordinal d + n ≤ 3652059 →
  ∃ d', date.add d n = Returns d' ∧ valid_date d'
        ∧ date.toordinal d' = date.toordinal d + n.
Proof.
  intros Hd Hn. unfold date.add, date.MAXORDINAL. cbv zeta.
  replace ((0 <? date.toordinal d + n) && (date.toordinal d + n <=? 3652059))
    with true by lia.
  by apply fromordinal_in_range.
Qed.

Lemma date_add_out_of_range d n :
  ¬ 1 ≤ date.toordinal d + n ≤ 3652059 → date.add d n = Raises OverflowError.
Proof.
  intros Hn. unfold date.add, date.MAXORDINAL. cbv zeta.
  by replace ((0 <? date.toordinal d + n) && (date.toordinal d + n <=? 3652059))
    with false by lia.
Qed.

Lemma toordinal_inj d d' :
  valid_date d → valid_date d' → date.toordinal d = date.toordinal d' → d = d'.
Proof.
  intros Hd Hd' Heq. apply fromordinal_toordinal in Hd, Hd'.
  rewrite Heq in Hd. congruence.
Qed.

Lemma days_before_next_year y :
  date.days_before_year (y + 1)
  = date.days_before_year y + 365 + (if date.is_leap y then 1 else 0).
Proof.
  unfold date.days_before_year, date.is_leap. cbv zeta.
  replace (y + 1 - 1) with y by lia.
  destruct (Z.eqb_spec (y mod 4) 0), (Z.eqb_spec (y mod 100) 0),
    (Z.eqb_spec (y mod 400) 0); cbn [andb orb negb];
    Z.div_mod_to_equations; lia.
Qed.

Lemma days_before_year_mono y y' :
  y ≤ y' → date.days_before_year y ≤ date.days_before_year y'.
Proof. unfold date.days_before_year. cbv zeta. intros Hy. Z.div_mod_to_equations. lia. Qed.

Lemma days_before_next_month y m :
  1 ≤ m ≤ 11 →
  date.days_before_month y (m + 1) = date.days_before_month y m + date.days_in_month y m.
Proof.
  intros Hm. rewrite days_in_month_entry. unfold date.days_before_month.
  assert (m = 1 ∨ m = 2 ∨ m = 3 ∨ m = 4 ∨ m = 5 ∨ m = 6 ∨ m = 7 ∨ m = 8 ∨ m = 9
          ∨ m = 10 ∨ m = 11) as Hcases by lia.
  destruct_or!; subst m; destruct (date.is_leap y); reflexivity.
Qed.

Lemma days_in_month_range y m : 1 ≤ m ≤ 12 → 28 ≤ date.days_in_month y m ≤ 31.
Proof.
  intros Hm. rewrite days_in_month_entry.
  assert (m = 1 ∨ m = 2 ∨ m = 3 ∨ m = 4 ∨ m = 5 ∨ m = 6 ∨ m = 7 ∨ m = 8 ∨ m = 9
          ∨ m = 10 ∨ m = 11 ∨ m = 12) as Hcases by lia.
  destruct_or!; subst m; destruct (date.is_leap y); by vm_compute.
Qed.

Lemma datetime_add_in_range dt n :
  valid_datetime dt → 1 ≤ datetime.toordinal dt + n ≤ 3652059 →
  ∃ d, valid_date d
       ∧ date.toordinal d = datetime.toordinal dt + n
       ∧ datetime.add dt n
         = Returns (datetime.mk (date.year d) (date.month d) (date.day d)
                      (datetime.hour dt) (datetime.minute dt) (datetime.second dt)
                      (datetime.microsecond dt)).
Proof.
  intros (Hy & Hc & Hh & Hm & Hs & Hu) Hn.
  destruct (fromordinal_in_range _ Hn) as (d & Hfrom & Hd & Hord).
  exists d. split; [done|]. split; [done|].
  unfold datetime.add, date.MAXORDINAL. cbv zeta.
  assert (Hus : datetime.microsecond dt / 1000000 = 0)
    by (Z.div_mod_to_equations; lia).
  assert (Hus' : datetime.microsecond dt mod 1000000 = datetime.microsecond dt)
    by (Z.div_mod_to_equations; lia).
  rewrite Hus, Hus', Z.add_0_r.
  set (secs := datetime.hour dt * 3600 + datetime.minute dt * 60 + datetime.second dt).
  assert (Hday : secs / 86400 = 0) by (subst secs; Z.div_mod_to_equations; lia).
  assert (Hsecs : secs mod 86400 = secs) by (subst secs; Z.div_mod_to_equations; lia).
  rewrite Hday, Hsecs, Z.add_0_r.
  replace ((0 <? datetime.toordinal dt + n) && (datetime.toordinal dt + n <=? 3652059))
    with true by lia.
  rewrite Hfrom. cbn [mbind attempt_bind].
  assert (Hhour : secs / 3600 = datetime.hour dt)
    by (subst secs; Z.div_mod_to_equations; lia).
  assert (Hmin : secs mod 3600 / 60 = datetime.minute dt)
    by (subst secs; Z.div_mod_to_equations; lia).
  assert (Hsec : secs mod 3600 mod 60 = datetime.second dt)
    by (subst secs; Z.div_mod_to_equations; lia).
  rewrite Hhour, Hmin, Hsec.
  destruct Hd as [Hdy Hdc]. by apply datetime_new_ok.
Qed.

Lemma datetime_add_out_of_range dt n :
  valid_datetime dt → ¬ 1 ≤ datetime.toordinal dt + n ≤ 3652059 →
  datetime.add dt n = Raises OverflowError.
Proof.
  intros (Hy & Hc & Hh & Hm & Hs & Hu) Hn.
  unfold datetime.add, date.MAXORDINAL. cbv zeta.
  assert (Hus : datetime.microsecond dt / 1000000 = 0)
    by (Z.div_mod_to_equations; lia).
  rewrite Hus, Z.add_0_r.
  set (secs := datetime.hour dt * 3600 + datetime.minute dt * 60 + datetime.second dt).
  assert (Hday : secs / 86400 = 0) by (subst secs; Z.div_mod_to_equations; lia).
  rewrite Hday, Z.add_0_r.
  by replace ((0 <? datetime.toordinal dt + n) && (datetime.toordinal dt + n <=? 3652059))
    with false by lia.
Qed.

(** A [datetime] is determined by its ordinal and its time of the day. *)
Lemma datetime_of_date d d' hh mm ss us :
  valid_date d → valid_date d' → date.toordinal d = date.toordinal d' →
  datetime.mk (date.year d) (date.month d) (date.day d) hh mm ss us
  = datetime.mk (date.year d') (date.month d') (date.day d') hh mm ss us.
Proof. intros Hd Hd' Heq. by rewrite (toordinal_inj d d'). Qed.

(** * The windows of the report types *)

Lemma first_of_month_in_calendar y m : 1 ≤ m ≤ 12 → in_calendar y m 1.
Proof. intros Hm. split; [done|]. pose proof (days_in_month_range y m Hm). lia. Qed.

Lemma last_of_month_in_calendar y m :
  1 ≤ m ≤ 12 → in_calendar y m (date.days_in_month y m).
Proof. intros Hm. split; [done|]. pose proof (days_in_month_range y m Hm). lia. Qed.

Lemma midnight_valid d :
  valid_date d →
  valid_datetime (datetime.mk (date.year d) (date.month d) (date.day d) 0 0 0 0).
Proof. intros [Hy Hc]. unfold valid_datetime. cbn. split_and!; (done || lia). Qed.

(** The day that follows the 28th of a month by four days, and the last day
    of the month, by their ordinals. *)
Lemma four_days_after_the_28th y m :
  1 ≤ m ≤ 12 →
  date.ymd2ord y m 28 + 4
  = (if decide (m = 12) then date.ymd2ord (y + 1) 1 (32 - date.days_in_month y m)
     else date.ymd2ord y (m + 1) (32 - date.days_in_month y m)).
Proof.
  intros Hm. unfold date.ymd2ord. case_decide as H12.
  - subst m. rewrite days_before_next_year.
    unfold date.days_before_month, date.days_in_month.
    destruct (date.is_leap y), (date.is_leap (y + 1)); vm_compute date.entry;
      cbn [andb Z.eqb Pos.eqb Z.ltb Z.compare Pos.compare Pos.compare_cont]; lia.
  - rewrite days_before_next_month by lia. lia.
Qed.

Lemma add_days_at_midnight y m d n y' m' d' :
  1 ≤ y ≤ 9999 → in_calendar y m d → 1 ≤ y' ≤ 9999 → in_calendar y' m' d' →
  date.ymd2ord y' m' d' = date.ymd2ord y m d + n →
  datetime.add (datetime.mk y m d 0 0 0 0) n = Returns (datetime.mk y' m' d' 0 0 0 0).
Proof.
  intros Hy Hc Hy' Hc' Hord.
  assert (Hv : valid_datetime (datetime.mk y m d 0 0 0 0))
    by (apply (midnight_valid (date.mk y m d)); by split).
  pose proof (ymd2ord_range y' m' d' Hy' Hc') as Hrange.
  destruct (datetime_add_in_range (datetime.mk y m d 0 0 0 0) n Hv)
    as (r & Hr & Hordr & ->); [unfold datetime.toordinal; cbn; lia|].
  assert (r = date.mk y' m' d') as ->; [|done].
  apply toordinal_inj; [done|by split|].
  rewrite Hordr. unfold datetime.toordinal, date.toordinal. cbn. lia.
Qed.

Lemma monthly_window_valid year month :
  1 ≤ year ≤ 9999 → 1 ≤ month ≤ 12 → ¬ (year = 9999 ∧ month = 12) →
  monthly_window year month
  = Returns (datetime.mk year month 1 0 0 0 0,
             datetime.mk year month (date.days_in_month year month) 0 0 0 0).
Proof.
  intros Hy Hm Hlast. unfold monthly_window.
  pose proof (days_in_month_range year month Hm) as Hdim.
  rewrite at_midnight_ok by (by auto using first_of_month_in_calendar).
  cbn [mbind attempt_bind]. unfold datetime.replace_day.
  cbn [datetime.year datetime.month datetime.hour datetime.minute datetime.second
         datetime.microsecond].
  rewrite datetime_new_ok by (try done; split; lia).
  cbn [mbind attempt_bind].
  pose proof (four_days_after_the_28th year month Hm) as Hnext.
  pose proof (last_of_month_in_calendar year month Hm) as Hlastday.
  assert (H28 : in_calendar year month 28) by (split; lia).
  destruct (decide (month = 12)) as [H12|H12].
  - assert (Hc : in_calendar (year + 1) 1 (32 - date.days_in_month year month)).
    { split; [done|]. pose proof (days_in_month_range (year + 1) 1). lia. }
    rewrite (add_days_at_midnight year month 28 4 (year + 1) 1
               (32 - date.days_in_month year month)) by (done || lia).
    cbn [mbind attempt_bind]. unfold datetime.sub_days. cbn [datetime.day].
    rewrite (add_days_at_midnight (year + 1) 1 (32 - date.days_in_month year month)
               (- (32 - date.days_in_month year month))
               year month (date.days_in_month year month)); [done|lia|done..|].
    unfold date.ymd2ord in *. lia.
  - assert (Hc : in_calendar year (month + 1) (32 - date.days_in_month year month)).
    { split; [lia|]. pose proof (days_in_month_range year (month + 1)). lia. }
    rewrite (add_days_at_midnight year month 28 4 year (month + 1)
               (32 - date.days_in_month year month)) by (done || lia).
    cbn [mbind attempt_bind]. unfold datetime.sub_days. cbn [datetime.day].
    rewrite (add_days_at_midnight year (month + 1) (32 - date.days_in_month year month)
               (- (32 - date.days_in_month year month))
               year month (date.days_in_month year month)); [done..|].
    unfold date.ymd2ord in *. lia.
Qed.

(** X7: the window of a monthly report runs from the first day of the month
    to its last day, both at midnight, also in February of a leap year; for
    December 9999 the day after the month does not exist and the computation
    overflows; a year or a month that does not exist is a [ValueError]. *)
Theorem monthly_window_ends_on_last_day :
  ∀ year month,
    monthly_window year month
    = if decide (1 ≤ year ≤ 9999 ∧ 1 ≤ month ≤ 12) then
        if decide (year = 9999 ∧ month = 12) then Raises OverflowError
        else Returns (datetime.mk year month 1 0 0 0 0,
                      datetime.mk year month (date.days_in_month year month) 0 0 0 0)
      else Raises ValueError.
Proof.
  intros year month. case_decide as Hvalid.
  - destruct Hvalid as [Hy Hm]. case_decide as Hlast.
    + destruct Hlast as [-> ->]. by vm_compute.
    + by apply monthly_window_valid.
  - unfold monthly_window.
    destruct (datetime.at_midnight year month 1) as [start_dt|e] eqn:Hstart.
    + exfalso. apply Hvalid. unfold datetime.at_midnight, datetime.new in Hstart.
      destruct (date.check_date_fields year month 1) as [r|] eqn:Hcheck; [|done].
      apply check_date_fields_inv in Hcheck as (_ & Hy & Hm & _). done.
    + apply at_midnight_raises in Hstart as [-> _]. done.
Qed.

(** ** Quarters and years *)

Lemma getitem_unfold {A : Type} (l : list A) i :
  getitem l i
  = if decide (i < 0)
    then if decide (i + Z.of_nat (length l) < 0) then Raises IndexError
         else from_option Returns (Raises IndexError)
                (l !! Z.to_nat (i + Z.of_nat (length l)))
    else from_option Returns (Raises IndexError) (l !! Z.to_nat i).
Proof.
  unfold getitem. destruct (Z.ltb_spec i 0).
  - rewrite decide_True by done.
    destruct (Z.ltb_spec (i + Z.of_nat (length l)) 0).
    + by rewrite decide_True.
    + by rewrite decide_False by lia.
  - rewrite decide_False by lia. by destruct (Z.ltb_spec i 0); [lia|].
Qed.

Lemma getitem_out_of_range {A : Type} (l : list A) i :
  i < - Z.of_nat (length l) ∨ Z.of_nat (length l) ≤ i →
  getitem l i = Raises IndexError.
Proof.
  intros Hi. rewrite getitem_unfold. repeat case_decide; try done; try lia.
  by rewrite lookup_ge_None_2 by lia.
Qed.

Lemma getitem_from_the_end {A : Type} (l : list A) i :
  - Z.of_nat (length l) ≤ i < 0 → getitem l i = getitem l (i + Z.of_nat (length l)).
Proof.
  intros Hi. rewrite !getitem_unfold. repeat case_decide; try done; lia.
Qed.

Lemma quarter_dates_in_calendar year :
  in_calendar year 1 1 ∧ in_calendar year 3 31 ∧ in_calendar year 4 1
  ∧ in_calendar year 6 30 ∧ in_calendar year 7 1 ∧ in_calendar year 9 30
  ∧ in_calendar year 10 1 ∧ in_calendar year 12 31.
Proof.
  unfold in_calendar. rewrite !days_in_month_entry.
  destruct (date.is_leap year); by vm_compute.
Qed.

Lemma get_quarterly_dates_valid year quarter :
  1 ≤ year ≤ 9999 →
  get_quarterly_dates year quarter
  = getitem
      [(datetime.mk year 1 1 0 0 0 0, datetime.mk year 3 31 0 0 0 0);
       (datetime.mk year 4 1 0 0 0 0, datetime.mk year 6 30 0 0 0 0);
       (datetime.mk year 7 1 0 0 0 0, datetime.mk year 9 30 0 0 0 0);
       (datetime.mk year 10 1 0 0 0 0, datetime.mk year 12 31 0 0 0 0)]
      (quarter - 1).
Proof.
  intros Hy. unfold get_quarterly_dates.
  destruct (quarter_dates_in_calendar year) as (?&?&?&?&?&?&?&?).
  by rewrite !at_midnight_ok by done.
Qed.

Lemma get_quarterly_dates_invalid year quarter :
  ¬ 1 ≤ year ≤ 9999 → get_quarterly_dates year quarter = Raises ValueError.
Proof.
  intros Hy. unfold get_quarterly_dates.
  destruct (datetime.at_midnight year 1 1) as [s1|e] eqn:Hs1.
  - exfalso. apply Hy. unfold datetime.at_midnight, datetime.new in Hs1.
    destruct (date.check_date_fields year 1 1) as [r|] eqn:Hcheck; [|done].
    by apply check_date_fields_inv in Hcheck as (_ & ? & _).
  - by apply at_midnight_raises in Hs1 as [-> _].
Qed.

Lemma timestamp_of_midnight y m d :
  timestamp_of (datetime.mk y m d 0 0 0 0) = day (date.ymd2ord y m d).
Proof. unfold timestamp_of, datetime.toordinal, day. cbn. lia. Qed.

Lemma quarter_ordinals year :
  date.ymd2ord year 3 31
  = date.ymd2ord year 1 1 + 89 + (if date.is_leap year then 1 else 0)
  ∧ date.ymd2ord year 4 1 = date.ymd2ord year 3 31 + 1
  ∧ date.ymd2ord year 6 30 = date.ymd2ord year 4 1 + 90
  ∧ date.ymd2ord year 7 1 = date.ymd2ord year 6 30 + 1
  ∧ date.ymd2ord year 9 30 = date.ymd2ord year 7 1 + 91
  ∧ date.ymd2ord year 10 1 = date.ymd2ord year 9 30 + 1
  ∧ date.ymd2ord year 12 31 = date.ymd2ord year 10 1 + 91.
Proof.
  unfold date.ymd2ord, date.days_before_month.
  destruct (date.is_leap year); vm_compute date.entry;
    cbn [andb Z.ltb Z.compare Pos.compare Pos.compare_cont]; lia.
Qed.

Lemma ymd2ord_new_year y : date.ymd2ord y 1 1 = date.days_before_year y + 1.
Proof.
  unfold date.ymd2ord, date.days_before_month.
  destruct (date.is_leap y); vm_compute date.entry;
    cbn [andb Z.ltb Z.compare Pos.compare Pos.compare_cont]; lia.
Qed.

Lemma new_year_mono y y' :
  y < y' →
  date.ymd2ord y 1 1 + 365 + (if date.is_leap y then 1 else 0) ≤ date.ymd2ord y' 1 1.
Proof.
  intros Hy. rewrite !ymd2ord_new_year.
  pose proof (days_before_year_mono (y + 1) y' ltac:(lia)) as Hmono.
  rewrite days_before_next_year in Hmono. lia.
Qed.

(** X8: for a year from 1 to 9999 [get_quarterly_dates] returns four
    windows, each ending after it starts, of which the first starts and the
    last ends with the window of [get_yearly_dates]; every quarter starts
    exactly one day after the previous one ends, and so does the first
    quarter of the next year (up to 9999) after the fourth.  So an instant
    strictly between the end of a quarter and the start of the next - for
    the fourth quarter, less than a day after its end - lies in no window
    that [get_quarterly_dates] returns, for any year and quarter. *)
Theorem quarters_start_a_day_after_the_previous_ends :
  ∀ year,
    1 ≤ year ≤ 9999 →
    ∃ s1 e1 s2 e2 s3 e3 s4 e4,
      get_quarterly_dates year 1 = Returns (s1, e1)
      ∧ get_quarterly_dates year 2 = Returns (s2, e2)
      ∧ get_quarterly_dates year 3 = Returns (s3, e3)
      ∧ get_quarterly_dates year 4 = Returns (s4, e4)
      ∧ get_yearly_dates year = Returns (s1, e4)
      ∧ timestamp_of s1 < timestamp_of e1
      ∧ timestamp_of s2 = timestamp_of e1 + day 1
      ∧ timestamp_of s2 < timestamp_of e2
      ∧ timestamp_of s3 = timestamp_of e2 + day 1
      ∧ timestamp_of s3 < timestamp_of e3
      ∧ timestamp_of s4 = timestamp_of e3 + day 1
      ∧ timestamp_of s4 < timestamp_of e4
      ∧ (year + 1 ≤ 9999 →
         ∃ s e, get_quarterly_dates (year + 1) 1 = Returns (s, e)
                ∧ timestamp_of s = timestamp_of e4 + day 1)
      ∧ ∀ t, (timestamp_of e1 < t < timestamp_of s2
              ∨ timestamp_of e2 < t < timestamp_of s3
              ∨ timestamp_of e3 < t < timestamp_of s4
              ∨ timestamp_of e4 < t < timestamp_of e4 + day 1) →
             ∀ year' quarter s e,
               get_quarterly_dates year' quarter = Returns (s, e) →
               ¬ timestamp_of s ≤ t ≤ timestamp_of e.
Proof.
  intros year Hy.
  exists (datetime.mk year 1 1 0 0 0 0), (datetime.mk year 3 31 0 0 0 0),
    (datetime.mk year 4 1 0 0 0 0), (datetime.mk year 6 30 0 0 0 0),
    (datetime.mk year 7 1 0 0 0 0), (datetime.mk year 9 30 0 0 0 0),
    (datetime.mk year 10 1 0 0 0 0), (datetime.mk year 12 31 0 0 0 0).
  rewrite !get_quarterly_dates_valid by done.
  rewrite !timestamp_of_midnight.
  pose proof (quarter_ordinals year) as Hords.
  destruct Hords as (H1 & H2 & H3 & H4 & H5 & H6 & H7).
  split_and!; try reflexivity.
  - unfold get_yearly_dates.
    destruct (quarter_dates_in_calendar year) as (?&?&?&?&?&?&?&?).
    by rewrite !at_midnight_ok by done.
  - unfold day. destruct (date.is_leap year); lia.
  - unfold day. lia.
  - unfold day. lia.
  - unfold day. lia.
  - unfold day. lia.
  - unfold day. lia.
  - unfold day. lia.
  - intros Hnext.
    exists (datetime.mk (year + 1) 1 1 0 0 0 0), (datetime.mk (year + 1) 3 31 0 0 0 0).
    rewrite get_quarterly_dates_valid by lia. split; [reflexivity|].
    rewrite timestamp_of_midnight.
    rewrite !ymd2ord_new_year, days_before_next_year in *.
    unfold day. destruct (date.is_leap year); lia.
  - intros t Ht year' quarter s e Hq.
    destruct (decide (1 ≤ year' ≤ 9999)) as [Hy'|Hy'];
      [|by rewrite get_quarterly_dates_invalid in Hq].
    rewrite get_quarterly_dates_valid in Hq by done.
    pose proof (quarter_ordinals year') as (H1' & H2' & H3' & H4' & H5' & H6' & H7').
    assert (Hyears : year' = year
                     ∨ date.ymd2ord year' 1 1 + 365
                       + (if date.is_leap year' then 1 else 0)
                       ≤ date.ymd2ord year 1 1
                     ∨ date.ymd2ord year 1 1 + 365
                       + (if date.is_leap year then 1 else 0)
                       ≤ date.ymd2ord year' 1 1).
    { destruct (Z.lt_trichotomy year' year) as [Hlt|[Heq|Hgt]].
      - right. left. by apply new_year_mono.
      - by left.
      - right. right. by apply new_year_mono. }
    assert (Hcases : quarter - 1 = 0 ∨ quarter - 1 = 1 ∨ quarter - 1 = 2
                     ∨ quarter - 1 = 3 ∨ quarter - 1 = - 1 ∨ quarter - 1 = - 2
                     ∨ quarter - 1 = - 3 ∨ quarter - 1 = - 4
                     ∨ quarter - 1 < - 4 ∨ 3 < quarter - 1) by lia.
    destruct Hcases as [Hi|[Hi|[Hi|[Hi|[Hi|[Hi|[Hi|[Hi|[Hi|Hi]]]]]]]]].
    1-8: rewrite Hi in Hq; cbn in Hq; injection Hq as <- <-;
      rewrite !timestamp_of_midnight; unfold day in *;
      destruct Hyears as [->|Hyears];
      [destruct (date.is_leap year); lia
      |destruct (date.is_leap year), (date.is_leap year'); lia].
    + by rewrite getitem_out_of_range in Hq by (cbn [length]; lia).
    + by rewrite getitem_out_of_range in Hq by (cbn [length]; lia).
Qed.

Lemma quarters_start_a_day_after_the_previous_ends_witness :
  1 ≤ 2024 ≤ 9999
  ∧ ∃ s1 e1 s2 e2,
      get_quarterly_dates 2024 1 = Returns (s1, e1)
      ∧ get_quarterly_dates 2024 2 = Returns (s2, e2)
      ∧ timestamp_of s2 = timestamp_of e1 + day 1.
Proof.
  split; [lia|].
  destruct (quarters_start_a_day_after_the_previous_ends 2024 ltac:(lia))
    as (s1 & e1 & s2 & e2 & _ & _ & _ & _ & H1 & H2 & _ & _ & _ & _ & H & _).
  by exists s1, e1, s2, e2.
Defined.

(** X9: what the handler makes of the quarter it is given, in a year from 1
    to 9999: the quarters 1 to 4 are those of the calendar; a quarter from
    -3 to -1 is accepted and read from the end of the list, as the quarter
    four later; a quarter 0 is refused by the handler's own check, and any
    other number by the list, with the errors [ValueError] and
    [IndexError]. *)
Theorem quarterly_window_reads_a_negative_quarter_from_the_end :
  ∀ year quarter,
    1 ≤ year ≤ 9999 →
    (1 ≤ quarter ≤ 4 →
     quarterly_window year quarter
     = Returns (datetime.mk year (3 * quarter - 2) 1 0 0 0 0,
                datetime.mk year (3 * quarter)
                  (date.days_in_month year (3 * quarter)) 0 0 0 0))
    ∧ (- 3 ≤ quarter ≤ - 1 →
       quarterly_window year quarter = quarterly_window year (quarter + 4))
    ∧ (quarter = 0 → quarterly_window year quarter = Raises ValueError)
    ∧ (quarter < - 3 ∨ 4 < quarter →
       quarterly_window year quarter = Raises IndexError).
Proof.
  intros year quarter Hy. unfold quarterly_window.
  replace (year =? 0) with false by lia. cbn [orb].
  rewrite !get_quarterly_dates_valid by done.
  split_and!.
  - intros Hq. replace (quarter =? 0) with false by lia.
    assert (quarter = 1 ∨ quarter = 2 ∨ quarter = 3 ∨ quarter = 4) as Hcases by lia.
    destruct_or!; subst quarter; cbn; rewrite days_in_month_entry; reflexivity.
  - intros Hq. replace (quarter =? 0) with false by lia.
    replace (quarter + 4 =? 0) with false by lia.
    assert (quarter = - 3 ∨ quarter = - 2 ∨ quarter = - 1) as Hcases by lia.
    destruct_or!; subst quarter; reflexivity.
  - by intros ->.
  - intros Hq. replace (quarter =? 0) with false by lia.
    by rewrite getitem_out_of_range by (cbn [length]; lia).
Qed.

Lemma quarterly_window_reads_a_negative_quarter_from_the_end_witness :
  1 ≤ 2025 ≤ 9999 ∧ - 3 ≤ - 1 ≤ - 1
  ∧ quarterly_window 2025 (- 1) = quarterly_window 2025 3
  ∧ quarterly_window 2025 (- 1)
    = Returns (datetime.mk 2025 7 1 0 0 0 0, datetime.mk 2025 9 30 0 0 0 0).
Proof.
  split; [lia|]. split; [lia|]. split.
  - apply (quarterly_window_reads_a_negative_quarter_from_the_end 2025 (- 1)); lia.
  - reflexivity.
Defined.

(** ** The weekdays of a range *)

Lemma weekdays_from_ordinals start_date offsets :
  valid_date start_date →
  Forall (λ n, 1 ≤ date.toordinal start_date + n ≤ 3652059) offsets →
  ∃ dates,
    weekdays_from start_date offsets = Returns dates
    ∧ Forall valid_date dates
    ∧ date.toordinal <$> dates
      = filter on_weekday (Z.add (date.toordinal start_date) <$> offsets).
Proof.
  intros Hstart. induction 1 as [|n offsets Hn _ IH].
  - by exists [].
  - destruct IH as (later & Hlater & Hvalid & Hords).
    destruct (date_add_in_range start_date n Hstart Hn) as (current & Hadd & Hcur & Hord).
    cbn [weekdays_from]. rewrite Hadd, Hlater. cbn [mbind attempt_bind fmap list_fmap].
    rewrite filter_cons. unfold date.weekday. rewrite Hord.
    destruct (Z.ltb_spec ((date.toordinal start_date + n + 6) mod 7) 5) as [Hw|Hw].
    + exists (current :: later). rewrite decide_True by done.
      split; [done|]. split; [by constructor|].
      cbn [fmap list_fmap]. by rewrite Hord, <- Hords.
    + exists later. rewrite decide_False by (unfold on_weekday; lia). done.
Qed.

(** X10: between two dates the generator yields, in increasing order and
    without an error, the dates from the first to the second that fall on
    Monday to Friday, each once, and nothing when the second date is before
    the first. *)
Theorem daterange_skip_weekends_yields_the_weekdays :
  ∀ start_date end_date,
    valid_date start_date → valid_date end_date →
    ∃ dates,
      daterange_skip_weekends start_date end_date = Returns dates
      ∧ Forall valid_date dates
      ∧ date.toordinal <$> dates
        = filter on_weekday
            (seqZ (date.toordinal start_date)
               (date.toordinal end_date - date.toordinal start_date + 1))
      ∧ ∀ d, valid_date d →
             (d ∈ dates ↔
              date.toordinal start_date ≤ date.toordinal d ≤ date.toordinal end_date
              ∧ date.weekday d < 5).
Proof.
  intros start_date end_date Hstart Hend. unfold daterange_skip_weekends, range, date.sub.
  set (n := date.toordinal end_date - date.toordinal start_date + 1).
  assert (Hs : 1 ≤ date.toordinal start_date ≤ 3652059)
    by (destruct Hstart; by apply ymd2ord_range).
  assert (He : 1 ≤ date.toordinal end_date ≤ 3652059)
    by (destruct Hend; by apply ymd2ord_range).
  destruct (weekdays_from_ordinals start_date (seqZ 0 n) Hstart)
    as (dates & Hrun & Hvalid & Hords).
  { apply Forall_seqZ. intros k Hk. lia. }
  rewrite fmap_add_seqZ, Z.add_0_r in Hords.
  exists dates. split_and!; [done..|].
  intros d Hd. split.
  - intros Hin.
    assert (Ho : date.toordinal d ∈ date.toordinal <$> dates)
      by (by apply list_elem_of_fmap_2).
    rewrite Hords in Ho. apply list_elem_of_filter in Ho as [Hw Ho].
    apply elem_of_seqZ in Ho. split; [lia|done].
  - intros [Hrange Hw].
    assert (Ho : date.toordinal d ∈ date.toordinal <$> dates).
    { rewrite Hords. apply list_elem_of_filter. split; [done|].
      apply elem_of_seqZ. lia. }
    apply list_elem_of_fmap in Ho as (d' & Heq & Hin).
    rewrite Forall_forall in Hvalid.
    by rewrite (toordinal_inj d d') by auto.
Qed.

Lemma daterange_skip_weekends_yields_the_weekdays_witness :
  valid_date (date.mk 2025 5 30) ∧ valid_date (date.mk 2025 6 3)
  ∧ daterange_skip_weekends (date.mk 2025 5 30) (date.mk 2025 6 3)
    = Returns [date.mk 2025 5 30; date.mk 2025 6 2; date.mk 2025 6 3]
  ∧ ∃ dates,
      daterange_skip_weekends (date.mk 2025 5 30) (date.mk 2025 6 3) = Returns dates
      ∧ date.toordinal <$> dates
        = filter on_weekday (seqZ (date.toordinal (date.mk 2025 5 30)) 5).
Proof.
  assert (H1 : valid_date (date.mk 2025 5 30)) by by_compute.
  assert (H2 : valid_date (date.mk 2025 6 3)) by by_compute.
  split; [exact H1|]. split; [exact H2|]. split; [reflexivity|].
  destruct (daterange_skip_weekends_yields_the_weekdays _ _ H1 H2)
    as (dates & Hrun & _ & Hords & _).
  exists dates. split; [exact Hrun|exact Hords].
Defined.

Lemma on_weekday_mod o : on_weekday o ↔ on_weekday (o mod 7).
Proof. unfold on_weekday. by rewrite <- (Zplus_mod_idemp_l o 6 7). Qed.

Lemma weekdays_of_a_week s : length (filter on_weekday (seqZ s 7)) = 5%nat.
Proof.
  assert (Hr : 0 ≤ s mod 7 < 7) by (apply Z.mod_pos_bound; lia).
  assert (Hsame : ∀ l, length (filter on_weekday (Z.add s <$> l))
                       = length (filter on_weekday (Z.add (s mod 7) <$> l))).
  { induction l as [|i l IH]; [done|].
    cbn [fmap list_fmap]. rewrite !filter_cons.
    assert (Hi : on_weekday (s + i) ↔ on_weekday (s mod 7 + i)).
    { rewrite (on_weekday_mod (s + i)), (on_weekday_mod (s mod 7 + i)).
      by rewrite Zplus_mod_idemp_l. }
    destruct (decide (on_weekday (s + i))) as [Hw|Hw].
    - rewrite decide_True by (by apply Hi). cbn [length]. by rewrite IH.
    - rewrite decide_False by (by rewrite <- Hi). done. }
  replace (seqZ s 7) with (Z.add s <$> seqZ 0 7)
    by (by rewrite fmap_add_seqZ, Z.add_0_r).
  rewrite Hsame.
  assert (Hall : Forall (λ r, length (filter on_weekday (Z.add r <$> seqZ 0 7)) = 5%nat)
                   (seqZ 0 7)) by by_compute.
  apply (proj1 (Forall_forall _ _) Hall). apply elem_of_seqZ. lia.
Qed.

Lemma weekdays_of_whole_weeks (k : nat) s :
  length (filter on_weekday (seqZ s (7 * Z.of_nat k))) = (5 * k)%nat.
Proof.
  revert s. induction k as [|k IH]; intros s.
  - by rewrite seqZ_nil by lia.
  - replace (7 * Z.of_nat (S k)) with (7 + 7 * Z.of_nat k) by lia.
    rewrite seqZ_app by lia. rewrite filter_app, length_app.
    rewrite weekdays_of_a_week, IH. lia.
Qed.

(** X11: a range of whole weeks yields five dates a week, whatever the day
    of the week it starts on. *)
Theorem daterange_skip_weekends_keeps_five_days_a_week :
  ∀ start_date end_date (weeks : nat),
    valid_date start_date → valid_date end_date →
    date.toordinal end_date = date.toordinal start_date + 7 * Z.of_nat weeks - 1 →
    ∃ dates,
      daterange_skip_weekends start_date end_date = Returns dates
      ∧ length dates = (5 * weeks)%nat.
Proof.
  intros start_date end_date weeks Hstart Hend Hweeks.
  unfold daterange_skip_weekends, range, date.sub.
  assert (He : 1 ≤ date.toordinal end_date ≤ 3652059)
    by (destruct Hend; by apply ymd2ord_range).
  assert (Hs : 1 ≤ date.toordinal start_date ≤ 3652059)
    by (destruct Hstart; by apply ymd2ord_range).
  replace (date.toordinal end_date - date.toordinal start_date + 1)
    with (7 * Z.of_nat weeks) by lia.
  destruct (weekdays_from_ordinals start_date (seqZ 0 (7 * Z.of_nat weeks)) Hstart)
    as (dates & Hrun & _ & Hords).
  { apply Forall_seqZ. intros k Hk. lia. }
  exists dates. split; [done|].
  rewrite fmap_add_seqZ, Z.add_0_r in Hords.
  by rewrite <- (length_fmap date.toordinal), Hords, weekdays_of_whole_weeks.
Qed.

Lemma daterange_skip_weekends_keeps_five_days_a_week_witness :
  valid_date (date.mk 2025 5 30) ∧ valid_date (date.mk 2025 6 12)
  ∧ date.toordinal (date.mk 2025 6 12)
    = date.toordinal (date.mk 2025 5 30) + 7 * Z.of_nat 2 - 1
  ∧ ∃ dates,
      daterange_skip_weekends (date.mk 2025 5 30) (date.mk 2025 6 12) = Returns dates
      ∧ length dates = 10%nat.
Proof.
  assert (H1 : valid_date (date.mk 2025 5 30)) by by_compute.
  assert (H2 : valid_date (date.mk 2025 6 12)) by by_compute.
  split; [exact H1|]. split; [exact H2|]. split; [reflexivity|].
  exact (daterange_skip_weekends_keeps_five_days_a_week _ _ 2 H1 H2 eq_refl).
Defined.

(** ** The order of dates and the order of time *)

Lemma days_before_month_mono (leapyear : bool) m m' :
  1 ≤ m ≤ 12 → 1 ≤ m' ≤ 12 → m < m' →
  date.entry date.DAYS_BEFORE_MONTH m + (if (2 <? m) && leapyear then 1 else 0)
  + date.entry date.DAYS_IN_MONTH m + (if (m =? 2) && leapyear then 1 else 0)
  ≤ date.entry date.DAYS_BEFORE_MONTH m' + (if (2 <? m') && leapyear then 1 else 0).
Proof.
  intros Hm Hm' Hlt.
  assert (H : Forall (λ leap : bool, Forall (λ m, Forall (λ m',
     m < m' →
     date.entry date.DAYS_BEFORE_MONTH m + (if (2 <? m) && leap then 1 else 0)
     + date.entry date.DAYS_IN_MONTH m + (if (m =? 2) && leap then 1 else 0)
     ≤ date.entry date.DAYS_BEFORE_MONTH m' + (if (2 <? m') && leap then 1 else 0))
     months) months) [true; false]) by by_compute.
  assert (Hleap : leapyear ∈ [true; false]) by (destruct leapyear; set_solver).
  pose proof (proj1 (Forall_forall _ _) H leapyear Hleap) as H1.
  assert (Hin : m ∈ months) by (apply elem_of_seqZ; lia).
  assert (Hin' : m' ∈ months) by (apply elem_of_seqZ; lia).
  pose proof (proj1 (Forall_forall _ _) H1 m Hin) as H2.
  by apply (proj1 (Forall_forall _ _) H2 m' Hin').
Qed.

Lemma ymd2ord_lt y m d y' m' d' :
  in_calendar y m d → in_calendar y' m' d' →
  y < y' ∨ (y = y' ∧ (m < m' ∨ (m = m' ∧ d < d'))) →
  date.ymd2ord y m d < date.ymd2ord y' m' d'.
Proof.
  intros [Hm Hd] [Hm' Hd'] Hlt. rewrite days_in_month_entry in Hd, Hd'.
  unfold date.ymd2ord, date.days_before_month.
  destruct Hlt as [Hy|[<- [Hmm|[<- Hdd]]]].
  - pose proof (days_before_year_mono (y + 1) y' ltac:(lia)) as Hmono.
    rewrite days_before_next_year in Hmono.
    destruct (offset_bounds (date.is_leap y) m d Hm Hd) as [Hk _].
    destruct (offset_bounds (date.is_leap y') m' d' Hm' Hd') as [Hk' _].
    destruct (date.is_leap y); lia.
  - pose proof (days_before_month_mono (date.is_leap y) m m' Hm Hm' Hmm). lia.
  - lia.
Qed.

Lemma cmp_timestamp a b :
  valid_datetime a → valid_datetime b →
  datetime.cmp a b
  = if decide (timestamp_of a = timestamp_of b) then 0
    else if decide (timestamp_of b < timestamp_of a) then 1 else -1.
Proof.
  destruct a as [y m d hh mm ss us], b as [y' m' d' hh' mm' ss' us'].
  intros (Hy & Hc & Hh & Hm & Hs & Hu) (Hy' & Hc' & Hh' & Hm' & Hs' & Hu').
  cbn in Hy, Hc, Hh, Hm, Hs, Hu, Hy', Hc', Hh', Hm', Hs', Hu'.
  unfold datetime.cmp, datetime.fields, timestamp_of, datetime.toordinal.
  cbn [datetime.year datetime.month datetime.day datetime.hour datetime.minute
         datetime.second datetime.microsecond datetime.cmp_fields].
  assert (Hord : ∀ y m d y' m' d', in_calendar y m d → in_calendar y' m' d' →
            y < y' ∨ (y = y' ∧ (m < m' ∨ (m = m' ∧ d < d'))) →
            date.ymd2ord y m d + 1 ≤ date.ymd2ord y' m' d').
  { intros. pose proof (ymd2ord_lt _ _ _ _ _ _ H H0 H1). lia. }
  destruct (Z.eqb_spec y y') as [<-|Hyy].
  2: { destruct (Z.ltb_spec y' y).
       - pose proof (Hord y' m' d' y m d Hc' Hc ltac:(lia)).
         rewrite decide_False by lia. rewrite decide_True by lia. done.
       - pose proof (Hord y m d y' m' d' Hc Hc' ltac:(lia)).
         rewrite decide_False by lia. rewrite decide_False by lia. done. }
  destruct (Z.eqb_spec m m') as [<-|Hmm].
  2: { destruct (Z.ltb_spec m' m).
       - pose proof (Hord y m' d' y m d Hc' Hc ltac:(lia)).
         rewrite decide_False by lia. rewrite decide_True by lia. done.
       - pose proof (Hord y m d y m' d' Hc Hc' ltac:(lia)).
         rewrite decide_False by lia. rewrite decide_False by lia. done. }
  destruct (Z.eqb_spec d d') as [<-|Hdd].
  2: { destruct (Z.ltb_spec d' d).
       - pose proof (Hord y m d' y m d Hc' Hc ltac:(lia)).
         rewrite decide_False by lia. rewrite decide_True by lia. done.
       - pose proof (Hord y m d y m d' Hc Hc' ltac:(lia)).
         rewrite decide_False by lia. rewrite decide_False by lia. done. }
  generalize (date.ymd2ord y m d). intros o.
  destruct (Z.eqb_spec hh hh') as [<-|Hhh];
    [|destruct (Z.ltb_spec hh' hh); repeat case_decide; (done || lia)].
  destruct (Z.eqb_spec mm mm') as [<-|Hmm];
    [|destruct (Z.ltb_spec mm' mm); repeat case_decide; (done || lia)].
  destruct (Z.eqb_spec ss ss') as [<-|Hss];
    [|destruct (Z.ltb_spec ss' ss); repeat case_decide; (done || lia)].
  destruct (Z.eqb_spec us us') as [<-|Huu];
    [|destruct (Z.ltb_spec us' us); repeat case_decide; (done || lia)].
  by rewrite decide_True.
Qed.

Lemma gt_timestamp a b :
  valid_datetime a → valid_datetime b →
  datetime.gt a b = bool_decide (timestamp_of b < timestamp_of a).
Proof.
  intros Ha Hb. unfold datetime.gt. rewrite cmp_timestamp by done.
  case_bool_decide; repeat case_decide; (done || lia).
Qed.

(** X12: the handler refuses a window that starts after the clock's first
    reading and otherwise keeps its start; when the clock does not go back
    between its three readings, the window it passes on ends no later than
    the last reading, keeps an end that is not in the future, and still
    starts no later than it ends if it did so before. *)
Theorem clamp_window_ends_by_now :
  ∀ now1 now2 now3 start_dt end_dt,
    valid_datetime now1 → valid_datetime now2 → valid_datetime now3 →
    valid_datetime start_dt → valid_datetime end_dt →
    timestamp_of now1 ≤ timestamp_of now2 ≤ timestamp_of now3 →
    (timestamp_of now1 < timestamp_of start_dt →
     clamp_window now1 now2 now3 (start_dt, end_dt) = Raises ValueError)
    ∧ (timestamp_of start_dt ≤ timestamp_of now1 →
       ∃ end_dt',
         clamp_window now1 now2 now3 (start_dt, end_dt) = Returns (start_dt, end_dt')
         ∧ end_dt' = (if decide (timestamp_of now2 < timestamp_of end_dt)
                      then now3 else end_dt)
         ∧ timestamp_of end_dt' ≤ timestamp_of now3
         ∧ (timestamp_of start_dt ≤ timestamp_of end_dt →
            timestamp_of start_dt ≤ timestamp_of end_dt')).
Proof.
  intros now1 now2 now3 start_dt end_dt H1 H2 H3 Hs He Hclock.
  unfold clamp_window. rewrite !gt_timestamp by done. split.
  - intros Hfuture. by rewrite bool_decide_eq_true_2.
  - intros Hpast. rewrite bool_decide_eq_false_2 by lia.
    eexists. split; [reflexivity|]. case_bool_decide as Hend.
    + rewrite decide_True by done. split; [done|]. lia.
    + rewrite decide_False by done. split; [done|]. lia.
Qed.

Lemma clamp_window_ends_by_now_witness :
  ∃ end_dt',
    clamp_window (datetime.mk 2025 6 17 10 30 0 0) (datetime.mk 2025 6 17 10 30 0 1)
      (datetime.mk 2025 6 17 10 30 0 2)
      (datetime.mk 2025 6 1 0 0 0 0, datetime.mk 2025 6 30 0 0 0 0)
    = Returns (datetime.mk 2025 6 1 0 0 0 0, end_dt')
    ∧ end_dt' = datetime.mk 2025 6 17 10 30 0 2.
Proof.
  destruct (clamp_window_ends_by_now
              (datetime.mk 2025 6 17 10 30 0 0) (datetime.mk 2025 6 17 10 30 0 1)
              (datetime.mk 2025 6 17 10 30 0 2)
              (datetime.mk 2025 6 1 0 0 0 0) (datetime.mk 2025 6 30 0 0 0 0))
    as [_ H]; [by_compute..|].
  destruct H as (end_dt' & Hrun & Hend & _); [by_compute|].
  exists end_dt'. split; [exact Hrun|]. rewrite Hend. reflexivity.
Defined.

(** * The quantities of a valuation *)





Lemma filter_all {A : Type} (P : A → Prop) `{∀ x, Decision (P x)} (l : list A) :
  Forall P l → filter P l = l.
Proof.
  induction 1 as [|x l Hx _ IH]; [done|].
  by rewrite filter_cons, decide_True, IH.
Qed.

(** X14: a window that ends before it starts shows no movement: the rows
    up to its end are all before its start, so that the purchases, the
    issues and the adjustments are zero, the closing stock is the opening
    stock, which is the sum of the quantities up to the end of the window,
    and the cost of the goods issued is that of no goods. *)
Theorem reversed_window_shows_no_movement :
  ∀ db inventory_id start_date end_date v,
    end_date < start_date →
    calculate_periodic_wac_valuation db inventory_id start_date end_date = Ok v →
    sum_quantity (fetch_transactions db inventory_id end_date) = Ok (opening_stock v)
    ∧ purchases v = 0 ∧ adjustments v = 0 ∧ hq_issues v = 0 ∧ jabi_issues v = 0
    ∧ closing_stock v = opening_stock v
    ∧ cogs v = Decimal.mul (Decimal.of_int 0) (unit_price_wac v).
Proof.
  intros db inventory_id start_date end_date v Hreversed Hv.
  unfold calculate_periodic_wac_valuation in Hv.
  set (L := fetch_transactions db inventory_id end_date) in *.
  assert (Hall : Forall (λ t, timestamp t ≤ end_date) L).
  { apply Forall_forall. intros t Ht. unfold L in Ht.
    rewrite fetch_transactions_perm in Ht. by apply list_elem_of_filter in Ht as [? _]. }
  assert (Hduring : filter (λ t, start_date ≤ timestamp t) L = []).
  { apply filter_none. eapply Forall_impl; [exact Hall|]. intros t Ht. simpl in *. lia. }
  assert (Hbefore : filter (λ t, timestamp t < start_date) L = L).
  { apply filter_all. eapply Forall_impl; [exact Hall|]. intros t Ht. simpl in *. lia. }
  pose proof (valuation_opening_stock _ _ _ Hv) as Hopen. rewrite Hbefore in Hopen.
  destruct (valuation_of_inv _ _ _ Hv)
    as (ov & p & c & n & pq & iq & hq & jabi & other & _ & Hgoods & _ & Hpq & Hiq
        & Hhq & Hjabi & Hother & Hadj & Hpurchases & Hhqv & Hjabiv & Hclosing & _
        & Hcogs).
  rewrite Hduring in *. rewrite filter_nil in *.
  change (sum_quantity []) with (Ok 0 : result Z) in *.
  injection Hpq as <-. injection Hiq as <-. injection Hhq as <-.
  injection Hjabi as <-. injection Hother as <-. injection Hadj as Hadj.
  injection Hgoods as _ <-.
  split; [done|]. rewrite Hcogs. split_and!; try done; lia.
Qed.

Lemma reversed_window_shows_no_movement_witness :
  day 20 < day 31
  ∧ ∃ v, calculate_periodic_wac_valuation january_db 7 (day 31) (day 20) = Ok v
         ∧ closing_stock v = 120 ∧ purchases v = 0.
Proof.
  split; [by_compute|].
  assert (∃ v, calculate_periodic_wac_valuation january_db 7 (day 31) (day 20) = Ok v
               ∧ closing_stock v = 120)
    as (v & Hv & Hclosing) by (eexists; split; [vm_compute; reflexivity|reflexivity]).
  exists v. split; [exact Hv|]. split; [exact Hclosing|].
  apply (reversed_window_shows_no_movement january_db 7 (day 31) (day 20) v);
    [by_compute|exact Hv].
Defined.

(** ** The balance of two windows with rows between them *)

Lemma opening_stock_after_gap db inventory_id start1 end1 start2 end2 :
  end1 < start2 → start2 ≤ end2 →
  Forall settled
         (filter (λ t, start1 ≤ timestamp t ≤ end1) (item_ledger db inventory_id)) →
  Forall (λ t, is_Some (quantity t))
         (filter (λ t, timestamp t ≤ end2) (item_ledger db inventory_id)) →
  ∃ v1 v2 between,
    calculate_periodic_wac_valuation db inventory_id start1 end1 = Ok v1
    ∧ calculate_periodic_wac_valuation db inventory_id start2 end2 = Ok v2
    ∧ sum_quantity (filter (λ t, end1 < timestamp t < start2)
                      (item_ledger db inventory_id)) = Ok between
    ∧ opening_stock v2 = closing_stock v1 + between.
Proof.
  intros Hgap Hwindow Hsettled Hpresent.
  unfold calculate_periodic_wac_valuation.
  set (ledger := item_ledger db inventory_id) in *.
  set (L1 := fetch_transactions db inventory_id end1).
  set (L2 := fetch_transactions db inventory_id end2).
  assert (HL1 : L1 ≡ₚ filter (λ t, timestamp t ≤ end1) ledger)
    by apply fetch_transactions_perm.
  assert (HL2 : L2 ≡ₚ filter (λ t, timestamp t ≤ end2) ledger)
    by apply fetch_transactions_perm.
  assert (Hin1 : ∀ t, t ∈ L1 → timestamp t ≤ end1 ∧ t ∈ ledger).
  { intros t Ht. rewrite HL1 in Ht. by apply list_elem_of_filter in Ht. }
  assert (Hq2 : Forall (λ t, is_Some (quantity t)) L2) by by rewrite HL2.
  assert (Hq1 : Forall (λ t, is_Some (quantity t)) L1).
  { apply Forall_forall. intros t [Hle Ht]%Hin1.
    eapply Forall_forall in Hpresent; [done|]. apply list_elem_of_filter.
    split; [lia|done]. }
  assert (Hqgap : Forall (λ t, is_Some (quantity t))
                    (filter (λ t, end1 < timestamp t < start2) ledger)).
  { apply Forall_forall. intros t [Hle Ht]%list_elem_of_filter.
    eapply Forall_forall in Hpresent; [done|]. apply list_elem_of_filter.
    split; [lia|done]. }
  destruct (valuation_of_total L1 start1 Hq1) as [v1 Hv1].
  destruct (valuation_of_total L2 start2 Hq2) as [v2 Hv2].
  destruct (sum_quantity_total _ Hqgap) as [between Hbetween].
  exists v1, v2, between. do 3 (split; [done|]).
  pose proof (valuation_opening_stock _ _ _ Hv2) as Hopen2.
  destruct (valuation_of_inv _ _ _ Hv1)
    as (ov & p & c & n & pq & iq & hq & jabi & other & Hopen1 & Hgoods & _ & _ & _
        & Hhq & Hjabi & Hother & Hadj & _ & _ & _ & Hclosing & _).
  apply opening_balance_quantity in Hopen1.
  unfold goods_available in Hgoods.
  destruct (add_initial_stock ov _) as [c0|e]; simpl in Hgoods; [|done].
  assert (Hduring : Forall settled (filter (λ t, start1 ≤ timestamp t) L1)).
  { apply Forall_forall. intros t [Hs [Hle Ht]%Hin1]%list_elem_of_filter.
    eapply Forall_forall in Hsettled; [done|]. by apply list_elem_of_filter. }
  destruct (during_balance _ Hduring _ _ _ _ _ _ _ _ Hgoods Hhq Hjabi Hother Hadj)
    as (d & Hd & Hbalance & ? & ? & ?).
  assert (Hperm : filter (λ t, timestamp t < start2) L2
                  ≡ₚ (filter (λ t, timestamp t < start1) L1
                      ++ filter (λ t, start1 ≤ timestamp t) L1)
                     ++ filter (λ t, end1 < timestamp t < start2) ledger).
  { rewrite before_during_perm, HL1, HL2, list_filter_filter.
    rewrite <- (filter_app_complement (λ t, timestamp t ≤ end1)
                  (filter (λ t, timestamp t < start2 ∧ timestamp t ≤ end2) ledger)).
    rewrite !list_filter_filter. f_equiv.
    - apply reflexive_eq, list_filter_iff. intros t. lia.
    - apply reflexive_eq, list_filter_iff. intros t. lia. }
  rewrite (sum_quantity_perm _ _ Hperm), !sum_quantity_app, Hopen1, Hd, Hbetween
    in Hopen2.
  simpl in Hopen2. injection Hopen2 as <-. lia.
Qed.

(** X15: for two windows of which the second starts after the first ends
    and does not end before it starts, the opening stock of the second is
    the closing stock of the first plus the quantities of the rows stamped
    strictly between the two, when the rows of the first window are settled
    and the rows up to the end of the second carry a quantity: what happens
    between two windows is in no report but is not lost to the balance. *)
Theorem opening_stock_is_closing_stock_plus_rows_between :
  ∀ db inventory_id start1 end1 start2 end2,
    end1 < start2 → start2 ≤ end2 →
    Forall settled
           (filter (λ t, start1 ≤ timestamp t ≤ end1) (item_ledger db inventory_id)) →
    Forall (λ t, is_Some (quantity t))
           (filter (λ t, timestamp t ≤ end2) (item_ledger db inventory_id)) →
    ∃ v1 v2 between,
      calculate_periodic_wac_valuation db inventory_id start1 end1 = Ok v1
      ∧ calculate_periodic_wac_valuation db inventory_id start2 end2 = Ok v2
      ∧ sum_quantity (filter (λ t, end1 < timestamp t < start2)
                        (item_ledger db inventory_id)) = Ok between
      ∧ opening_stock v2 = closing_stock v1 + between.
Proof. exact opening_stock_after_gap. Qed.

Lemma opening_stock_is_closing_stock_plus_rows_between_witness :
  ∃ v1 v2 between,
    calculate_periodic_wac_valuation january_db 7 (day 1) (day 14) = Ok v1
    ∧ calculate_periodic_wac_valuation january_db 7 (day 16) (day 31) = Ok v2
    ∧ sum_quantity (filter (λ t, day 14 < timestamp t < day 16)
                      (item_ledger january_db 7)) = Ok between
    ∧ opening_stock v2 = closing_stock v1 + between.
Proof.
  apply (opening_stock_is_closing_stock_plus_rows_between january_db 7 (day 1) (day 14)
           (day 16) (day 31)); by_compute.
Defined.



(** * The helpers that query the ledger directly *)

Lemma inventory_get_Some db item_id item :
  inventory_get db item_id = Some item →
  Inventory.id item = item_id ∧ item ∈ inventories db.
Proof.
  unfold inventory_get. intros Hfind. apply find_some in Hfind as [Hin Hid].
  split; [lia|]. by apply list_elem_of_In.
Qed.

Lemma item_ledger_of_item db item_id item :
  inventory_get db item_id = Some item →
  item_ledger db item_id
  = row_of db <$>
      filter (λ t, InventoryTransaction.inventory_id t = item_id) (transactions db).
Proof.
  intros [Hid Hin]%inventory_get_Some. unfold item_ledger. f_equal.
  apply list_filter_iff. intros t. split; [by intros [_ ?]|].
  intros Ht. split; [|done]. unfold has_inventory. rewrite Ht, <- Hid.
  by apply list_elem_of_fmap_2.
Qed.

Lemma sum_quantity_rows db l :
  sum_quantity (row_of db <$> l) = sum_from 0 (InventoryTransaction.quantity <$> l).
Proof. unfold sum_quantity. by rewrite <- list_fmap_compose. Qed.

Lemma add_counted_split db txns :
  ∀ acc s,
    sum_quantity (row_of db <$> txns) = Ok s →
    ∃ o others,
      add_counted acc txns = Ok (acc + o)
      ∧ sum_quantity
          (row_of db <$>
             filter (λ t, InventoryTransaction.transaction_type t
                          ∉ ["initial"; "purchase"; "adjustment"; "issue"]%string) txns)
        = Ok others
      ∧ s = o + others.
Proof.
  induction txns as [|t txns IH]; intros acc s.
  - intros [= <-]. exists 0, 0. split; [simpl; f_equal; lia|]. by split.
  - cbn [fmap list_fmap]. rewrite sum_quantity_cons. cbn [quantity row_of].
    destruct (InventoryTransaction.quantity t) as [q|] eqn:Hq; simpl; [|done].
    destruct (sum_quantity (row_of db <$> txns)) as [s'|] eqn:Hs; simpl; [|done].
    intros [= <-]. rewrite filter_cons. cbn [add_counted]. rewrite Hq. simpl.
    destruct (decide (InventoryTransaction.transaction_type t
                      ∈ ["initial"; "purchase"; "adjustment"]%string)) as [Hk|Hk].
    + destruct (IH (acc + q) s' eq_refl) as (o & others & Hrun & Hothers & ->).
      exists (q + o), others. rewrite Hrun.
      rewrite decide_False by set_solver.
      split; [f_equal; lia|]. split; [done|lia].
    + destruct (decide (InventoryTransaction.transaction_type t = "issue"%string))
        as [Hi|Hi].
      * destruct (IH (acc + q) s' eq_refl) as (o & others & Hrun & Hothers & ->).
        exists (q + o), others. rewrite Hrun.
        rewrite decide_False by (rewrite Hi; set_solver).
        split; [f_equal; lia|]. split; [done|lia].
      * destruct (IH acc s' eq_refl) as (o & others & Hrun & Hothers & ->).
        exists o, (q + others). rewrite Hrun.
        rewrite decide_True by set_solver.
        split; [done|]. cbn [fmap list_fmap]. rewrite sum_quantity_cons.
        cbn [quantity row_of]. rewrite Hq, Hothers. simpl. split; [done|lia].
Qed.

Lemma rows_before_start db item_id item start_date end_date :
  inventory_get db item_id = Some item → start_date ≤ end_date →
  filter (λ t, timestamp t < start_date) (fetch_transactions db item_id end_date)
  ≡ₚ row_of db <$>
       filter (λ t, InventoryTransaction.inventory_id t = item_id
                    ∧ InventoryTransaction.timestamp t < start_date) (transactions db).
Proof.
  intros Hitem Hwindow. rewrite fetch_transactions_perm, list_filter_filter.
  rewrite (item_ledger_of_item _ _ _ Hitem), filter_fmap_rows, list_filter_filter.
  apply reflexive_eq. f_equal. apply list_filter_iff. intros t. simpl. lia.
Qed.

(** X17: for an item created by the start of a window, the helper
    [get_opening_stock] adds up the rows before the start that are an
    initial stock, a purchase, an adjustment or an issue; the opening stock
    of the valuation adds up all the rows before the start, so that the two
    differ by the quantities of the rows of any other kind, a price update
    among them. *)
Theorem get_opening_stock_counts_four_kinds :
  ∀ db item_id start_datetime end_datetime item v,
    inventory_get db item_id = Some item →
    Inventory.created_at item ≤ start_datetime →
    start_datetime ≤ end_datetime →
    calculate_periodic_wac_valuation db item_id start_datetime end_datetime = Ok v →
    ∃ counted others,
      get_opening_stock db item_id start_datetime end_datetime = Ok (Some counted)
      ∧ sum_quantity
          (filter (λ t, transaction_type t
                        ∉ ["initial"; "purchase"; "adjustment"; "issue"]%string)
             (filter (λ t, timestamp t < start_datetime) (item_ledger db item_id)))
        = Ok others
      ∧ opening_stock v = counted + others.
Proof.
  intros db item_id start_datetime end_datetime item v Hitem Hcreated Hwindow Hv.
  apply valuation_opening_stock in Hv.
  rewrite (sum_quantity_perm _ _ (rows_before_start _ _ _ _ _ Hitem Hwindow)) in Hv.
  destruct (add_counted_split db _ 0 _ Hv) as (counted & others & Hrun & Hothers & ->).
  exists counted, others. split; [|split; [|done]].
  - unfold get_opening_stock. rewrite Hitem.
    rewrite decide_False by lia. rewrite decide_False by lia.
    by rewrite Hrun.
  - rewrite <- Hothers. f_equal.
    rewrite (item_ledger_of_item _ _ _ Hitem), !filter_fmap_rows, !list_filter_filter.
    f_equal. apply list_filter_iff. intros t. simpl. tauto.
Qed.

Lemma get_opening_stock_counts_four_kinds_witness :
  ∃ v counted others,
    calculate_periodic_wac_valuation repriced_db 7 (day 32) (day 59) = Ok v
    ∧ get_opening_stock repriced_db 7 (day 32) (day 59) = Ok (Some counted)
    ∧ opening_stock v = counted + others.
Proof.
  assert (∃ v, calculate_periodic_wac_valuation repriced_db 7 (day 32) (day 59) = Ok v)
    as [v Hv] by (eexists; vm_compute; reflexivity).
  destruct (get_opening_stock_counts_four_kinds repriced_db 7 (day 32) (day 59)
              (Inventory.mk 7 "Paper" None 1 (day 1)) v)
    as (counted & others & Hrun & _ & Hsum); [reflexivity|by_compute|by_compute|exact Hv|].
  exists v, counted, others. split; [exact Hv|]. split; [exact Hrun|exact Hsum].
Defined.

(** ** Purchases *)

Lemma sql_sum_present qs : or_zero (sql_sum (Some <$> qs)) = sumZ qs.
Proof.
  unfold sql_sum, or_zero.
  assert (Hmap : omap id (Some <$> qs) = qs).
  { induction qs as [|q qs IH]; [done|]. cbn. by rewrite IH. }
  rewrite Hmap. by destruct qs.
Qed.

Lemma sum_from_Ok l s :
  sum_from 0 l = Ok s → ∃ qs, l = Some <$> qs ∧ s = sumZ qs.
Proof.
  revert s. induction l as [|[q|] l IH]; intros s.
  - intros [= <-]. by exists [].
  - simpl. rewrite sum_from_shift.
    destruct (sum_from 0 l) as [s'|] eqn:Hs; simpl; [|done].
    intros [= <-]. destruct (IH s' eq_refl) as (qs & -> & ->).
    exists (q :: qs). split; [done|]. simpl. lia.
  - done.
Qed.

Lemma purchases_split :
  ∀ db item_id start_datetime end_datetime item v,
    inventory_get db item_id = Some item →
    calculate_periodic_wac_valuation db item_id start_datetime end_datetime = Ok v →
    ∃ initial,
      sum_quantity
        (filter (λ t, transaction_type t = "initial"%string)
           (filter (λ t, start_datetime ≤ timestamp t)
              (fetch_transactions db item_id end_datetime))) = Ok initial
      ∧ purchases v
        = get_purchases db item_id start_datetime end_datetime + initial.
Proof.
  intros db item_id start_datetime end_datetime item v Hitem Hv.
  destruct (valuation_of_inv _ _ _ Hv)
    as (ov & p & c & n & pq & iq & hq & jabi & other & _ & _ & _ & Hpq & Hiq & _ & _
        & _ & _ & Hpurchases & _).
  exists iq. split; [exact Hiq|]. rewrite Hpurchases. f_equal.
  assert (Hperm :
    filter (λ t, transaction_type t = "purchase"%string)
      (filter (λ t, start_datetime ≤ timestamp t)
         (fetch_transactions db item_id end_datetime))
    ≡ₚ row_of db <$>
         filter (λ t, InventoryTransaction.inventory_id t = item_id
                      ∧ InventoryTransaction.transaction_type t = "purchase"%string
                      ∧ start_datetime ≤ InventoryTransaction.timestamp t
                      ∧ InventoryTransaction.timestamp t ≤ end_datetime)
                (transactions db)).
  { rewrite fetch_transactions_perm, !list_filter_filter.
    rewrite (item_ledger_of_item _ _ _ Hitem), filter_fmap_rows, list_filter_filter.
    apply reflexive_eq. f_equal. apply list_filter_iff. intros t. simpl. tauto. }
  rewrite (sum_quantity_perm _ _ Hperm), sum_quantity_rows in Hpq.
  apply sum_from_Ok in Hpq as (qs & Hqs & ->).
  unfold get_purchases. by rewrite Hqs, sql_sum_present.
Qed.


(** X18: for an item of the inventory, the purchases of a valuation are the
    purchases that the helper [get_purchases] finds in the window plus the
    initial stocks entered in the window. *)
Theorem purchases_are_get_purchases_plus_initial_stock :
  ∀ db item_id start_datetime end_datetime item v,
    inventory_get db item_id = Some item →
    calculate_periodic_wac_valuation db item_id start_datetime end_datetime = Ok v →
    ∃ initial,
      sum_quantity
        (filter (λ t, transaction_type t = "initial"%string)
           (filter (λ t, start_datetime ≤ timestamp t)
              (fetch_transactions db item_id end_datetime))) = Ok initial
      ∧ purchases v
        = get_purchases db item_id start_datetime end_datetime + initial.
Proof. exact purchases_split. Qed.

Lemma purchases_are_get_purchases_plus_initial_stock_witness :
  ∃ v initial,
    calculate_periodic_wac_valuation january_db 7 (day 1) (day 31) = Ok v
    ∧ get_purchases january_db 7 (day 1) (day 31) = 50
    ∧ purchases v = get_purchases january_db 7 (day 1) (day 31) + initial.
Proof.
  assert (∃ v, calculate_periodic_wac_valuation january_db 7 (day 1) (day 31) = Ok v)
    as [v Hv] by (eexists; vm_compute; reflexivity).
  destruct (purchases_are_get_purchases_plus_initial_stock january_db 7 (day 1) (day 31)
              (Inventory.mk 7 "Paper" None 1 (day 1)) v)
    as (initial & _ & Hsum); [reflexivity|exact Hv|].
  exists v, initial. split; [exact Hv|]. split; [reflexivity|exact Hsum].
Defined.

(** ** Items created inside the window, or after it *)

(** X19: the helper [get_opening_stock] returns [None] for an item that the
    report leaves out because it was created after the end of the window;
    the only other case in which it returns [None] is that of an item
    created inside the window whose first initial row carries no
    quantity. *)
Theorem get_opening_stock_is_none_outside_the_report :
  ∀ db item start_datetime end_datetime,
    inventory_get db (Inventory.id item) = Some item →
    is_Some (category_of db item) →
    (item ∉ item_query db end_datetime ∅ →
     get_opening_stock db (Inventory.id item) start_datetime end_datetime = Ok None)
    ∧ (get_opening_stock db (Inventory.id item) start_datetime end_datetime = Ok None →
       item ∉ item_query db end_datetime ∅
       ∨ (start_datetime < Inventory.created_at item ≤ end_datetime
          ∧ ∃ initial_txn rest,
              filter (λ t, InventoryTransaction.inventory_id t = Inventory.id item
                           ∧ InventoryTransaction.transaction_type t = "initial"%string)
                     (transactions db) = initial_txn :: rest
              ∧ InventoryTransaction.quantity initial_txn = None)).
Proof.
  intros db item start_datetime end_datetime Hitem Hcat.
  pose proof (inventory_get_Some _ _ _ Hitem) as [_ Hin].
  assert (Hquery : item ∈ item_query db end_datetime ∅
                   ↔ Inventory.created_at item ≤ end_datetime).
  { unfold item_query. rewrite !lookup_empty. cbn [truthy].
    rewrite list_elem_of_filter. tauto. }
  unfold get_opening_stock. rewrite Hitem. split.
  - intros Hout. rewrite decide_True; [done|]. rewrite Hquery in Hout. lia.
  - case_decide as Hafter; [intros _; left; rewrite Hquery; lia|].
    case_decide as Hinside.
    + destruct (filter _ (transactions db)) as [|initial_txn rest] eqn:Hrows; [done|].
      intros [= Hq]. right. split; [done|]. by exists initial_txn, rest.
    + by destruct (add_counted 0 _).
Qed.

Lemma get_opening_stock_is_none_outside_the_report_witness :
  inventory_get january_db 7 = Some (Inventory.mk 7 "Paper" None 1 (day 1))
  ∧ (Inventory.mk 7 "Paper" None 1 (day 1) ∉ item_query january_db (day 0) ∅)
  ∧ get_opening_stock january_db 7 (day (- 5)) (day 0) = Ok None.
Proof.
  assert (Hout : Inventory.mk 7 "Paper" None 1 (day 1)
                 ∉ item_query january_db (day 0) ∅).
  { assert (Hq : item_query january_db (day 0) ∅ = []) by (vm_compute; reflexivity).
    rewrite Hq. apply not_elem_of_nil. }
  split; [reflexivity|]. split; [exact Hout|].
  apply (get_opening_stock_is_none_outside_the_report january_db
           (Inventory.mk 7 "Paper" None 1 (day 1)) (day (- 5)) (day 0));
    [reflexivity|by_compute|exact Hout].
Defined.

(** X20: for an item created inside the window, with its one initial row in
    the window and no row before its creation, the helper
    [get_opening_stock] returns the initial stock, which the valuation
    counts among the purchases, with an opening stock of zero. *)
Theorem initial_stock_of_a_new_item_is_a_purchase :
  ∀ db item_id start_datetime end_datetime item initial_txn v,
    inventory_get db item_id = Some item →
    start_datetime < Inventory.created_at item ≤ end_datetime →
    Forall (λ t, Inventory.created_at item ≤ timestamp t) (item_ledger db item_id) →
    filter (λ t, InventoryTransaction.inventory_id t = item_id
                 ∧ InventoryTransaction.transaction_type t = "initial"%string)
           (transactions db) = [initial_txn] →
    InventoryTransaction.timestamp initial_txn ≤ end_datetime →
    calculate_periodic_wac_valuation db item_id start_datetime end_datetime = Ok v →
    ∃ initial,
      get_opening_stock db item_id start_datetime end_datetime = Ok (Some initial)
      ∧ opening_stock v = 0
      ∧ purchases v = initial + get_purchases db item_id start_datetime end_datetime.
Proof.
  intros db item_id start_datetime end_datetime item initial_txn v
    Hitem Hcreated Hledger Hinitial Hend Hv.
  destruct (purchases_split _ _ _ _ _ _ Hitem Hv) as (iq & Hiq & Hpurchases).
  assert (Hin : initial_txn ∈ filter (λ t, InventoryTransaction.inventory_id t = item_id
                  ∧ InventoryTransaction.transaction_type t = "initial"%string)
                  (transactions db)) by (rewrite Hinitial; set_solver).
  apply list_elem_of_filter in Hin as [[Hid Hkind] Hin].
  assert (Hts : Inventory.created_at item ≤ InventoryTransaction.timestamp initial_txn).
  { rewrite Forall_forall in Hledger. apply (Hledger (row_of db initial_txn)).
    rewrite (item_ledger_of_item _ _ _ Hitem). apply list_elem_of_fmap_2.
    by apply list_elem_of_filter. }
  assert (Hrows :
    filter (λ t, transaction_type t = "initial"%string)
      (filter (λ t, start_datetime ≤ timestamp t)
         (fetch_transactions db item_id end_datetime))
    ≡ₚ [row_of db initial_txn]).
  { rewrite fetch_transactions_perm, !list_filter_filter.
    rewrite (item_ledger_of_item _ _ _ Hitem), filter_fmap_rows, list_filter_filter.
    apply reflexive_eq.
    transitivity (row_of db <$>
      filter (λ t, start_datetime ≤ InventoryTransaction.timestamp t
                   ∧ InventoryTransaction.timestamp t ≤ end_datetime)
        (filter (λ t, InventoryTransaction.inventory_id t = item_id
                      ∧ InventoryTransaction.transaction_type t = "initial"%string)
                (transactions db))).
    - f_equal. rewrite list_filter_filter. apply list_filter_iff. intros t. simpl. tauto.
    - rewrite Hinitial, filter_cons, decide_True by lia. done. }
  rewrite (sum_quantity_perm _ _ Hrows), sum_quantity_cons in Hiq. cbn in Hiq.
  destruct (InventoryTransaction.quantity initial_txn) as [q0|] eqn:Hq0; [|done].
  cbn in Hiq. injection Hiq as <-.
  exists q0. split_and!.
  - unfold get_opening_stock. rewrite Hitem.
    rewrite decide_False by lia. rewrite decide_True by lia.
    by rewrite Hinitial, Hq0.
  - apply valuation_opening_stock in Hv.
    rewrite filter_none in Hv; [by injection Hv|].
    apply Forall_forall. intros t Ht. rewrite fetch_transactions_perm in Ht.
    apply list_elem_of_filter in Ht as [_ Ht].
    rewrite Forall_forall in Hledger. specialize (Hledger t Ht). simpl in *. lia.
  - lia.
Qed.

Lemma initial_stock_of_a_new_item_is_a_purchase_witness :
  ∃ v initial,
    calculate_periodic_wac_valuation january_db 7 (day 0) (day 31) = Ok v
    ∧ get_opening_stock january_db 7 (day 0) (day 31) = Ok (Some initial)
    ∧ initial = 100 ∧ opening_stock v = 0
    ∧ purchases v = initial + get_purchases january_db 7 (day 0) (day 31).
Proof.
  assert (∃ v, calculate_periodic_wac_valuation january_db 7 (day 0) (day 31) = Ok v)
    as [v Hv] by (eexists; vm_compute; reflexivity).
  destruct (initial_stock_of_a_new_item_is_a_purchase january_db 7 (day 0) (day 31)
              (Inventory.mk 7 "Paper" None 1 (day 1))
              (InventoryTransaction.mk 7 (Some 100) (Some (Decimal.of_int 10))
                 "initial" (day 1) None) v)
    as (initial & Hrun & Hopen & Hsum);
    [reflexivity|by_compute|by_compute|reflexivity|by_compute|exact Hv|].
  exists v, initial. split; [exact Hv|]. split; [exact Hrun|].
  split; [|split; [exact Hopen|exact Hsum]].
  assert (Hget : get_opening_stock january_db 7 (day 0) (day 31) = Ok (Some 100))
    by reflexivity.
  rewrite Hget in Hrun. by injection Hrun as <-.
Defined.

(** * The unit price of a window without movement *)

Lemma len_aux_pos fuel n : 1 ≤ Decimal.len_aux fuel n.
Proof.
  revert n. induction fuel as [|fuel IH]; intros n; simpl; [lia|].
  destruct (n <? 10); [lia|]. specialize (IH (n / 10)). lia.
Qed.

Lemma strip_power (k : nat) :
  ∀ coeff exp c0 ideal,
    coeff = c0 * 10 ^ Z.of_nat k → exp = ideal - Z.of_nat k →
    Decimal.strip k coeff exp ideal = (c0, ideal).
Proof.
  induction k as [|k IH]; intros coeff exp c0 ideal Hcoeff Hexp.
  - simpl. f_equal; [rewrite Hcoeff; simpl; lia|lia].
  - cbn [Decimal.strip].
    assert (Hpow : 10 ^ Z.of_nat (S k) = 10 ^ Z.of_nat k * 10).
    { rewrite Nat2Z.inj_succ, Z.pow_succ_r by lia. lia. }
    assert (Hmod : coeff mod 10 = 0).
    { rewrite Hcoeff, Hpow, Z.mul_assoc. apply Z.mod_mul. lia. }
    assert (Hdiv : coeff / 10 = c0 * 10 ^ Z.of_nat k).
    { rewrite Hcoeff, Hpow, Z.mul_assoc. apply Z.div_mul. lia. }
    replace (exp <? ideal) with true by lia. rewrite Hmod. cbn [andb Z.eqb].
    apply IH; [done|lia].
Qed.

Lemma truediv_of_product q p :
  0 < q → Z.abs (q * Decimal.coefficient p) < 10 ^ 28 →
  Decimal.truediv (Decimal.mul (Decimal.of_int q) p) (Decimal.of_int q) = Ok p.
Proof.
  intros Hq Hsmall. destruct p as [c e]. cbn [Decimal.coefficient] in Hsmall.
  unfold Decimal.mul, Decimal.of_int. cbn [Decimal.coefficient Decimal.exponent].
  rewrite fix_small by done. unfold Decimal.truediv.
  cbn [Decimal.coefficient Decimal.exponent].
  replace (q =? 0) with false by lia.
  assert (Hc : Z.abs c < 10 ^ 28) by nia.
  destruct (Z.eqb_spec (q * c) 0) as [Hzero|Hnonzero].
  - assert (c = 0) as -> by nia. rewrite fix_small by (simpl; lia).
    do 2 f_equal. lia.
  - set (x := Z.abs (q * c)). set (y := Z.abs q).
    assert (Hx : x = q * Z.abs c) by (unfold x; rewrite Z.abs_mul; lia).
    assert (Hy : y = q) by (unfold y; lia).
    assert (Hlenx : Decimal.len_int x ≤ 28) by (apply len_aux_bound; unfold x; lia).
    assert (Hleny : 1 ≤ Decimal.len_int y) by apply len_aux_pos.
    unfold Decimal.prec.
    set (shift := Decimal.len_int y - Decimal.len_int x + 28 + 1).
    assert (Hshift : 0 ≤ shift) by (unfold shift; lia).
    replace (0 <=? shift) with true by lia.
    assert (Hprod : x * 10 ^ shift = Z.abs c * 10 ^ shift * y)
      by (rewrite Hx, Hy; lia).
    rewrite (surjective_pairing (Z.div_eucl (x * 10 ^ shift) y)).
    change (fst (Z.div_eucl (x * 10 ^ shift) y)) with (x * 10 ^ shift / y).
    change (snd (Z.div_eucl (x * 10 ^ shift) y)) with ((x * 10 ^ shift) mod y).
    rewrite Hprod, Z.div_mul, Z.mod_mul by lia. cbn [Z.eqb].
    rewrite (strip_power (Z.to_nat (0 + e - 0 - (0 + e - 0 - shift)))
               _ _ (Z.abs c) (0 + e - 0)).
    + rewrite fix_small.
      * do 2 f_equal; [|lia].
        assert (Z.sgn (q * c) * Z.sgn q = Z.sgn c) as ->; [|lia].
        rewrite Z.sgn_mul. destruct (Z.sgn_spec q) as [[? ->]|[[? ?]|[? ?]]]; lia.
      * cbn [Decimal.coefficient]. rewrite Z.abs_mul.
        rewrite Z.sgn_mul. destruct (Z.sgn_spec q) as [[? ->]|[[? ?]|[? ?]]]; [|lia..].
        destruct (Z.sgn_spec c) as [[? ->]|[[? ->]|[? ->]]]; simpl; lia.
    + f_equal. f_equal. lia.
    + lia.
Qed.

(** X21: when no row of the item up to the end of a window lies in the
    window, the valuation keeps the last known price as the unit price -
    for a positive stock the quotient of the opening value by the opening
    quantity is that price again, to the digit - and values the unchanged
    stock at it, provided the product of the stock and the price needs no
    rounding. *)
Theorem idle_window_keeps_the_last_known_price :
  ∀ db inventory_id start_date end_date v,
    Forall (λ t, timestamp t < start_date)
           (fetch_transactions db inventory_id end_date) →
    calculate_periodic_wac_valuation db inventory_id start_date end_date = Ok v →
    Z.abs (opening_stock v
           * Decimal.coefficient
               (scan_price (reverse (fetch_transactions db inventory_id end_date))))
    < 10 ^ 28 →
    unit_price_wac v
    = scan_price (reverse (fetch_transactions db inventory_id end_date))
    ∧ closing_stock v = opening_stock v
    ∧ total_value v
      = Decimal.mul (Decimal.of_int (opening_stock v))
          (scan_price (reverse (fetch_transactions db inventory_id end_date))).
Proof.
  intros db inventory_id start_date end_date v Hidle Hv.
  unfold calculate_periodic_wac_valuation in Hv.
  set (L := fetch_transactions db inventory_id end_date) in *.
  intros Hsmall.
  assert (Hbefore : filter (λ t, timestamp t < start_date) L = L)
    by (by apply filter_all).
  assert (Hduring : filter (λ t, start_date ≤ timestamp t) L = []).
  { apply filter_none. eapply Forall_impl; [exact Hidle|]. intros t Ht. simpl in *. lia. }
  destruct (valuation_of_inv _ _ _ Hv)
    as (ov & p & c & n & pq & iq & hq & jabi & other & Hopen & Hgoods & Hwac & _ & _
        & Hhq & Hjabi & Hother & Hadj & _ & _ & _ & Hclosing & Htotal & _).
  rewrite Hbefore in Hopen. rewrite Hduring in *. rewrite filter_nil in *.
  change (sum_quantity []) with (Ok 0 : result Z) in *.
  injection Hhq as <-. injection Hjabi as <-. injection Hother as <-.
  injection Hadj as Hadj. injection Hgoods as <- <-.
  assert (Hprice : unit_price_wac v = scan_price (reverse L)).
  { clearbody L. unfold opening_balance in Hopen. destruct L as [|t L'].
    - injection Hopen as Hq <- <-. rewrite <- Hq in Hwac. by injection Hwac as <-.
    - destruct (sum_quantity (t :: L')) as [q|] eqn:Hsum; simpl in Hopen; [|done].
      injection Hopen as Hq <- <-.
      subst q. destruct (Z.ltb_spec 0 (opening_stock v)) as [Hpos|Hneg].
      + rewrite truediv_of_product in Hwac by done. by injection Hwac as <-.
      + by injection Hwac as <-. }
  split; [exact Hprice|]. split; [lia|].
  rewrite Htotal, Hprice. do 2 f_equal. lia.
Qed.

Lemma idle_window_keeps_the_last_known_price_witness :
  ∃ v,
    calculate_periodic_wac_valuation january_db 7 (day 32) (day 59) = Ok v
    ∧ unit_price_wac v = Decimal.of_int 12
    ∧ closing_stock v = 120.
Proof.
  assert (∃ v, calculate_periodic_wac_valuation january_db 7 (day 32) (day 59) = Ok v
               ∧ opening_stock v = 120)
    as (v & Hv & Hopen) by (eexists; split; [vm_compute; reflexivity|reflexivity]).
  destruct (idle_window_keeps_the_last_known_price january_db 7 (day 32) (day 59) v)
    as (Hprice & Hclosing & _); [by_compute|exact Hv| |].
  - rewrite Hopen. by_compute.
  - exists v. split; [exact Hv|]. split.
    + rewrite Hprice. reflexivity.
    + rewrite Hclosing. exact Hopen.
Defined.

(** * The commands that enter an initial stock *)

Lemma filter_delete_first_other {A : Type} (P Q : A → Prop) `{∀ x, Decision (P x)}
    `{∀ x, Decision (Q x)} (l : list A) :
  (∀ x, Q x → ¬ P x) → filter Q (delete_first P l) = filter Q l.
Proof.
  intros HQ. induction l as [|x l IH]; [done|].
  cbn [delete_first]. destruct (decide (P x)) as [HP|HP].
  - rewrite (filter_cons Q x l). rewrite decide_False; [done|]. intros Hx. by apply (HQ x).
  - by rewrite !filter_cons, IH.
Qed.

Lemma filter_delete_first_same {A : Type} (P : A → Prop) `{∀ x, Decision (P x)}
    (l : list A) :
  filter P (delete_first P l) = tail (filter P l).
Proof.
  induction l as [|x l IH]; [done|].
  cbn [delete_first]. rewrite (filter_cons P x l).
  destruct (decide (P x)) as [HP|HP]; [done|].
  by rewrite filter_cons, decide_False.
Qed.

(** The ledger of the item once its first initial row has been replaced. *)
Lemma item_ledger_after_replacement db item new_quantity :
  inventory_get db (Inventory.id item) = Some item →
  (length (filter (λ t, InventoryTransaction.inventory_id t = Inventory.id item
                        ∧ InventoryTransaction.transaction_type t = "initial"%string)
                  (transactions db)) ≤ 1)%nat →
  item_ledger
    (mkDatabase (categories db) (inventories db) (requests db)
       (delete_first
          (λ t, InventoryTransaction.inventory_id t = Inventory.id item
                ∧ InventoryTransaction.transaction_type t = "initial"%string)
          (transactions db)
        ++ [InventoryTransaction.mk (Inventory.id item) new_quantity None "initial"
              reprocess_date None]))
    (Inventory.id item)
  ≡ₚ filter (λ t, transaction_type t ≠ "initial"%string)
       (item_ledger db (Inventory.id item))
     ++ [mkRow new_quantity None "initial" reprocess_date None].
Proof.
  intros Hitem Hone.
  set (is_initial := λ t, InventoryTransaction.inventory_id t = Inventory.id item
                          ∧ InventoryTransaction.transaction_type t = "initial"%string).
  set (new := InventoryTransaction.mk _ _ _ _ _ _).
  set (db' := mkDatabase _ _ _ _).
  assert (Hitem' : inventory_get db' (Inventory.id item) = Some item) by exact Hitem.
  rewrite (item_ledger_of_item _ _ _ Hitem'), (item_ledger_of_item _ _ _ Hitem).
  cbn [transactions db']. rewrite filter_app, fmap_app.
  rewrite (filter_cons _ new), decide_True by done. rewrite filter_nil.
  rewrite filter_fmap_rows, list_filter_filter. cbn [fmap list_fmap].
  assert (Hrow : ∀ t, row_of db' t = row_of db t) by done.
  f_equiv; [|done].
  rewrite <- (filter_app_complement is_initial
                (filter (λ t, InventoryTransaction.inventory_id t = Inventory.id item)
                        (delete_first is_initial (transactions db)))).
  rewrite !list_filter_filter.
  assert (Hnone : filter (λ t, is_initial t
                    ∧ InventoryTransaction.inventory_id t = Inventory.id item)
                    (delete_first is_initial (transactions db)) = []).
  { rewrite (list_filter_iff _ is_initial) by (unfold is_initial; tauto).
    rewrite filter_delete_first_same. fold is_initial in Hone.
    destruct (filter is_initial (transactions db)) as [|t [|t' l]]; [done|done|].
    simpl in Hone. lia. }
  rewrite Hnone. cbn [app].
  rewrite filter_delete_first_other by (unfold is_initial; tauto).
  apply reflexive_eq. change (row_of db') with (row_of db). f_equal.
  apply list_filter_iff. intros t. unfold is_initial. cbn [transaction_type row_of].
  tauto.
Qed.

Lemma stock_after_replacement db item stock_quantity :
  ∀ current_quantity,
    inventory_get db (Inventory.id item) = Some item →
    sum_from stock_quantity
      (InventoryTransaction.quantity <$>
         filter (λ t, InventoryTransaction.inventory_id t = Inventory.id item
                      ∧ InventoryTransaction.transaction_type t ≠ "initial"%string)
           (delete_first
              (λ t, InventoryTransaction.inventory_id t = Inventory.id item
                    ∧ InventoryTransaction.transaction_type t = "initial"%string)
              (transactions db))) = Ok current_quantity →
    ∃ moved,
      sum_quantity (filter (λ t, transaction_type t ≠ "initial"%string)
                      (item_ledger db (Inventory.id item))) = Ok moved
      ∧ current_quantity = stock_quantity + moved.
Proof.
  intros current_quantity Hitem Hsum.
  rewrite filter_delete_first_other in Hsum by tauto.
  rewrite sum_from_shift in Hsum.
  rewrite (item_ledger_of_item _ _ _ Hitem), filter_fmap_rows, list_filter_filter.
  rewrite sum_quantity_rows. cbn [transaction_type row_of].
  rewrite (list_filter_iff _
             (λ t, InventoryTransaction.inventory_id t = Inventory.id item
                   ∧ InventoryTransaction.transaction_type t ≠ "initial"%string))
    by (intros t; tauto).
  destruct (sum_from 0 _) as [moved|]; [|done].
  injection Hsum as <-. by exists moved.
Qed.

(** X22: when the item has at most one initial row, [reprocess-stock]
    leaves a ledger that adds up to the quantity it stores in the item: the
    new initial stock plus the movements already recorded, the first
    initial row being replaced by a row of 30 May 2025 that carries the
    given quantity and no unit price. *)
Theorem reprocess_item_stores_the_sum_of_the_ledger :
  ∀ db item stock_quantity db' stored,
    inventory_get db (Inventory.id item) = Some item →
    (length (filter (λ t, InventoryTransaction.inventory_id t = Inventory.id item
                          ∧ InventoryTransaction.transaction_type t = "initial"%string)
                    (transactions db)) ≤ 1)%nat →
    reprocess_item db item stock_quantity = Ok (db', stored) →
    ∃ moved,
      sum_quantity (filter (λ t, transaction_type t ≠ "initial"%string)
                      (item_ledger db (Inventory.id item))) = Ok moved
      ∧ stored = stock_quantity + moved
      ∧ sum_quantity (item_ledger db' (Inventory.id item)) = Ok stored
      ∧ item_ledger db' (Inventory.id item)
        ≡ₚ filter (λ t, transaction_type t ≠ "initial"%string)
             (item_ledger db (Inventory.id item))
           ++ [mkRow (Some stock_quantity) None "initial" reprocess_date None].
Proof.
  intros db item stock_quantity db' stored Hitem Hone Hrun.
  unfold reprocess_item in Hrun. cbv zeta in Hrun.
  destruct (sum_from stock_quantity _) as [current|] eqn:Hsum; [|done].
  cbn in Hrun. injection Hrun as <- <-.
  destruct (stock_after_replacement _ _ _ _ Hitem Hsum) as (moved & Hmoved & ->).
  pose proof (item_ledger_after_replacement db item (Some stock_quantity) Hitem Hone)
    as Hledger.
  exists moved. split; [done|]. split; [done|]. split; [|done].
  rewrite (sum_quantity_perm _ _ Hledger), sum_quantity_app, Hmoved.
  cbn. f_equal. lia.
Qed.

Lemma reprocess_item_stores_the_sum_of_the_ledger_witness :
  ∃ db' stored,
    reprocess_item january_db (Inventory.mk 7 "Paper" None 1 (day 1)) 40
    = Ok (db', stored)
    ∧ stored = 60
    ∧ sum_quantity (item_ledger db' 7) = Ok stored.
Proof.
  assert (∃ db', reprocess_item january_db (Inventory.mk 7 "Paper" None 1 (day 1)) 40
                 = Ok (db', 60)) as [db' Hrun] by (eexists; vm_compute; reflexivity).
  destruct (reprocess_item_stores_the_sum_of_the_ledger january_db
              (Inventory.mk 7 "Paper" None 1 (day 1)) 40 db' 60)
    as (moved & _ & _ & Hsum & _); [reflexivity|by_compute|exact Hrun|].
  exists db', 60. split; [exact Hrun|]. split; [reflexivity|exact Hsum].
Defined.

(** X23: [add-stock-item] computes the same quantity but writes it into the
    new initial row instead of the given one, so that the movements already
    recorded are counted twice in the ledger: the ledger adds up to the
    quantity stored in the item plus those movements. *)
Theorem add_single_stock_item_counts_the_movements_twice :
  ∀ db item stock_quantity db' stored,
    inventory_get db (Inventory.id item) = Some item →
    (length (filter (λ t, InventoryTransaction.inventory_id t = Inventory.id item
                          ∧ InventoryTransaction.transaction_type t = "initial"%string)
                    (transactions db)) ≤ 1)%nat →
    add_single_stock_item db item stock_quantity = Ok (db', stored) →
    ∃ moved,
      sum_quantity (filter (λ t, transaction_type t ≠ "initial"%string)
                      (item_ledger db (Inventory.id item))) = Ok moved
      ∧ stored = stock_quantity + moved
      ∧ sum_quantity (item_ledger db' (Inventory.id item)) = Ok (stored + moved).
Proof.
  intros db item stock_quantity db' stored Hitem Hone Hrun.
  unfold add_single_stock_item in Hrun. cbv zeta in Hrun.
  destruct (sum_from stock_quantity _) as [current|] eqn:Hsum; [|done].
  cbn in Hrun. injection Hrun as <- <-.
  destruct (stock_after_replacement _ _ _ _ Hitem Hsum) as (moved & Hmoved & ->).
  pose proof (item_ledger_after_replacement db item (Some (stock_quantity + moved))
                Hitem Hone) as Hledger.
  exists moved. split; [done|]. split; [done|].
  rewrite (sum_quantity_perm _ _ Hledger), sum_quantity_app, Hmoved.
  cbn. f_equal. lia.
Qed.

Lemma add_single_stock_item_counts_the_movements_twice_witness :
  ∃ db' stored,
    add_single_stock_item january_db (Inventory.mk 7 "Paper" None 1 (day 1)) 40
    = Ok (db', stored)
    ∧ stored = 60
    ∧ sum_quantity (item_ledger db' 7) = Ok 80.
Proof.
  assert (∃ db', add_single_stock_item january_db
                   (Inventory.mk 7 "Paper" None 1 (day 1)) 40
                 = Ok (db', 60)) as [db' Hrun] by (eexists; vm_compute; reflexivity).
  destruct (add_single_stock_item_counts_the_movements_twice january_db
              (Inventory.mk 7 "Paper" None 1 (day 1)) 40 db' 60)
    as (moved & Hmoved & Hstored & Hsum); [reflexivity|by_compute|exact Hrun|].
  exists db', 60. split; [exact Hrun|]. split; [reflexivity|].
  assert (moved = 20) as -> by lia. exact Hsum.
Defined.

(** X24: after [reprocess-stock], the report of a window that starts after
    30 May 2025 opens with the quantity given to the command plus the
    movements recorded before the window. *)
Theorem reprocessed_stock_opens_the_later_windows :
  ∀ db item stock_quantity db' stored start_date end_date v,
    inventory_get db (Inventory.id item) = Some item →
    (length (filter (λ t, InventoryTransaction.inventory_id t = Inventory.id item
                          ∧ InventoryTransaction.transaction_type t = "initial"%string)
                    (transactions db)) ≤ 1)%nat →
    reprocess_item db item stock_quantity = Ok (db', stored) →
    reprocess_date < start_date → start_date ≤ end_date →
    calculate_periodic_wac_valuation db' (Inventory.id item) start_date end_date = Ok v →
    ∃ moved,
      sum_quantity
        (filter (λ t, timestamp t < start_date)
           (filter (λ t, transaction_type t ≠ "initial"%string)
              (item_ledger db (Inventory.id item)))) = Ok moved
      ∧ opening_stock v = stock_quantity + moved.
Proof.
  intros db item stock_quantity db' stored start_date end_date v
    Hitem Hone Hrun Hafter Hwindow Hv.
  unfold reprocess_item in Hrun. cbv zeta in Hrun.
  destruct (sum_from stock_quantity _) as [current|] eqn:Hsum; [|done].
  cbn in Hrun. injection Hrun as <- <-.
  pose proof (item_ledger_after_replacement db item (Some stock_quantity) Hitem Hone)
    as Hledger.
  apply valuation_opening_stock in Hv.
  assert (Hbefore :
    filter (λ t, timestamp t < start_date)
      (fetch_transactions
         (mkDatabase (categories db) (inventories db) (requests db)
            (delete_first
               (λ t, InventoryTransaction.inventory_id t = Inventory.id item
                     ∧ InventoryTransaction.transaction_type t = "initial"%string)
               (transactions db)
             ++ [InventoryTransaction.mk (Inventory.id item) (Some stock_quantity) None
                   "initial" reprocess_date None]))
         (Inventory.id item) end_date)
    ≡ₚ filter (λ t, timestamp t < start_date)
         (filter (λ t, transaction_type t ≠ "initial"%string)
            (item_ledger db (Inventory.id item)))
       ++ [mkRow (Some stock_quantity) None "initial" reprocess_date None]).
  { rewrite fetch_transactions_perm, list_filter_filter, Hledger, filter_app.
    rewrite (filter_cons _ (mkRow _ _ _ _ _)), decide_True by (cbn; lia).
    rewrite filter_nil. f_equiv.
    apply reflexive_eq, list_filter_iff. intros t. simpl. lia. }
  rewrite (sum_quantity_perm _ _ Hbefore), sum_quantity_app in Hv.
  destruct (sum_quantity (filter _ (filter _ (item_ledger db (Inventory.id item)))))
    as [moved|]; [|done].
  cbn in Hv. injection Hv as <-. exists moved. split; [done|]. lia.
Qed.

Lemma reprocessed_stock_opens_the_later_windows_witness :
  ∃ db' stored v,
    reprocess_item march_db (Inventory.mk 7 "Paper" None 1
                               (timestamp_of (datetime.mk 2025 1 2 0 0 0 0))) 40
    = Ok (db', stored)
    ∧ calculate_periodic_wac_valuation db' 7
        (timestamp_of (datetime.mk 2025 6 1 0 0 0 0))
        (timestamp_of (datetime.mk 2025 6 30 0 0 0 0)) = Ok v
    ∧ opening_stock v = 10.
Proof.
  assert (∃ db', reprocess_item march_db
                   (Inventory.mk 7 "Paper" None 1
                      (timestamp_of (datetime.mk 2025 1 2 0 0 0 0))) 40
                 = Ok (db', 10)) as [db' Hrun] by (eexists; vm_compute; reflexivity).
  assert (∃ v, calculate_periodic_wac_valuation db' 7
                 (timestamp_of (datetime.mk 2025 6 1 0 0 0 0))
                 (timestamp_of (datetime.mk 2025 6 30 0 0 0 0)) = Ok v) as [v Hv].
  { unfold reprocess_item in Hrun. cbv zeta in Hrun.
    destruct (sum_from 40 _) as [current|]; [|done]. cbn in Hrun.
    injection Hrun as <- _. eexists. vm_compute. reflexivity. }
  destruct (reprocessed_stock_opens_the_later_windows march_db
              (Inventory.mk 7 "Paper" None 1
                 (timestamp_of (datetime.mk 2025 1 2 0 0 0 0))) 40 db' 10
              (timestamp_of (datetime.mk 2025 6 1 0 0 0 0))
              (timestamp_of (datetime.mk 2025 6 30 0 0 0 0)) v)
    as (moved & Hmoved & Hopen);
    [reflexivity|by_compute|exact Hrun|by_compute|by_compute|exact Hv|].
  exists db', 10, v. split; [exact Hrun|]. split; [exact Hv|].
  assert (Hsum : sum_quantity
            (filter (λ t, timestamp t < timestamp_of (datetime.mk 2025 6 1 0 0 0 0))
               (filter (λ t, transaction_type t ≠ "initial"%string)
                  (item_ledger march_db 7))) = Ok (- 30)) by (vm_compute; reflexivity).
  cbn [Inventory.id] in Hmoved. rewrite Hsum in Hmoved. injection Hmoved as <-.
  rewrite Hopen. reflexivity.
Defined.

(** * What the unit price depends on *)

Lemma wac_loop_moves_cost l :
  ∀ st, wac_loop st (filter moves_cost l) = wac_loop st l.
Proof.
  induction l as [|t l IH]; intros st; [done|].
  rewrite filter_cons. destruct (decide (moves_cost t)) as [Hm|Hm].
  - rewrite !wac_loop_cons. destruct (wac_step st t); simpl; [apply IH|done].
  - rewrite wac_loop_cons, IH. destruct st as [c n]. unfold wac_step.
    unfold moves_cost in Hm.
    rewrite decide_False by set_solver. rewrite decide_False by set_solver. done.
Qed.

Lemma goods_available_moves_cost ov q l :
  goods_available ov q (filter moves_cost l) = goods_available ov q l.
Proof.
  unfold goods_available. rewrite list_filter_filter.
  rewrite (list_filter_iff
             (λ t, transaction_type t = "initial"%string ∧ moves_cost t)
             (λ t, transaction_type t = "initial"%string) l).
  - destruct (add_initial_stock ov _); simpl; [apply wac_loop_moves_cost|done].
  - intros t. unfold moves_cost. split; [tauto|]. intros Ht. split; [done|].
    rewrite Ht. set_solver.
Qed.

(** X25: the unit price of a valuation depends on the rows before the
    window and, in the window, on the initial stocks, the purchases and the
    price updates only: issues, adjustments and rows of any other kind in
    the window do not move the average cost. *)
Theorem unit_price_ignores_issues_and_adjustments :
  ∀ db db' inventory_id start_date end_date v v',
    calculate_periodic_wac_valuation db inventory_id start_date end_date = Ok v →
    calculate_periodic_wac_valuation db' inventory_id start_date end_date = Ok v' →
    filter (λ t, timestamp t < start_date) (fetch_transactions db inventory_id end_date)
    = filter (λ t, timestamp t < start_date)
        (fetch_transactions db' inventory_id end_date) →
    filter moves_cost
      (filter (λ t, start_date ≤ timestamp t)
         (fetch_transactions db inventory_id end_date))
    = filter moves_cost
        (filter (λ t, start_date ≤ timestamp t)
           (fetch_transactions db' inventory_id end_date)) →
    unit_price_wac v = unit_price_wac v'.
Proof.
  intros db db' inventory_id start_date end_date v v' Hv Hv' Hbefore Hduring.
  destruct (valuation_of_inv _ _ _ Hv)
    as (ov & p & c & n & ? & ? & ? & ? & ? & Hopen & Hgoods & Hwac & _).
  destruct (valuation_of_inv _ _ _ Hv')
    as (ov' & p' & c' & n' & ? & ? & ? & ? & ? & Hopen' & Hgoods' & Hwac' & _).
  rewrite <- Hbefore, Hopen in Hopen'. injection Hopen' as Hq <- <-.
  rewrite <- goods_available_moves_cost in Hgoods, Hgoods'.
  rewrite <- Hduring, <- Hq, Hgoods in Hgoods'. injection Hgoods' as <- <-.
  rewrite Hwac in Hwac'. by injection Hwac'.
Qed.

Lemma unit_price_ignores_issues_and_adjustments_witness :
  ∃ v v',
    calculate_periodic_wac_valuation january_db 7 (day 1) (day 31) = Ok v
    ∧ calculate_periodic_wac_valuation january_adjusted_db 7 (day 1) (day 31) = Ok v'
    ∧ closing_stock v = 120 ∧ closing_stock v' = 155
    ∧ unit_price_wac v = unit_price_wac v'.
Proof.
  assert (∃ v, calculate_periodic_wac_valuation january_db 7 (day 1) (day 31) = Ok v
               ∧ closing_stock v = 120)
    as (v & Hv & Hc) by (eexists; split; [vm_compute; reflexivity|reflexivity]).
  assert (∃ v', calculate_periodic_wac_valuation january_adjusted_db 7 (day 1) (day 31)
                = Ok v' ∧ closing_stock v' = 155)
    as (v' & Hv' & Hc') by (eexists; split; [vm_compute; reflexivity|reflexivity]).
  exists v, v'. split; [exact Hv|]. split; [exact Hv'|].
  split; [exact Hc|]. split; [exact Hc'|].
  apply (unit_price_ignores_issues_and_adjustments january_db january_adjusted_db 7
           (day 1) (day 31) v v' Hv Hv'); vm_compute; reflexivity.
Defined.
